(** * postxeng: the rate-limited gateway of [app.py]

    A shallow embedding of the gateway layer of [src/app.py] (throttle,
    usage tracking, cooldown, request executors, credential resolution,
    duplicate guard and reel upload) and the properties proved about it.

    Conventions of the embedding.
    - Wall-clock time ([pytime.time()]) is an integer number of
      milliseconds; [int(pytime.time())] is the truncation to seconds.
      Only [pytime.sleep] and a network exchange let time pass.
    - The module-level dictionary [SETTINGS] is the record [settings]
      threaded through a state-and-exception monad [M].
    - Python exceptions are values of [exn]; [try/except] is [try_except].
    - JSON documents decoded by Python are values of [json], with numbers
      restricted to integers.
    - A Python [str] is the [string] of the bytes of its UTF-8 encoding. *)

From Stdlib Require Import ZArith String Ascii List Bool Lia.
From stdpp Require Import base option list gmap strings pretty.

Set Warnings "-register-all".
Local Open Scope string_scope.
Local Open Scope list_scope.
Local Open Scope Z_scope.

(** ** Python values *)

Inductive json :=
| JNull
| JBool (b : bool)
| JInt (z : Z)
| JStr (s : string)
| JArr (l : list json)
| JObj (m : gmap string json).

Inductive exn :=
| NameError (name : string)
| ValueError (msg : string)
| TypeError (msg : string)
| AttributeError (msg : string)
| KeyError (key : string)
| RequestsJSONDecodeError
| RequestException (msg : string).

(** [RequestsJSONDecodeError] is [requests.exceptions.JSONDecodeError],
    which derives from [requests.RequestException]; the decoder of the
    [json] module raises a [ValueError].  No other class above is a
    [RequestException]. *)
Definition is_RequestException (e : exn) : bool :=
  match e with
  | RequestException _ | RequestsJSONDecodeError => true
  | _ => false
  end.

(** [str(e)] of an exception. *)
Definition exn_str (e : exn) : string :=
  match e with
  | NameError n => "name '" +:+ n +:+ "' is not defined"
  | ValueError m | TypeError m | AttributeError m | RequestException m => m
  | KeyError k => "'" +:+ k +:+ "'"
  | RequestsJSONDecodeError => "Expecting value"
  end.

(** Outcome of running Python code: a value, a raised exception, or a loop
    that has used up its fuel. *)
Inductive res (A : Type) :=
| Ok (a : A)
| Raise (e : exn)
| Diverge.
Arguments Ok {A} a.
Arguments Raise {A} e.
Arguments Diverge {A}.

#[global] Instance res_ret : MRet res := λ A a, Ok a.
#[global] Instance res_bind : MBind res := λ A B f m,
  match m with
  | Ok a => f a
  | Raise e => Raise e
  | Diverge => Diverge
  end.

(** Interface to the parts of the Python runtime that are not modelled:
    the JSON decoder, SHA-256 and [repr] of containers. *)
Class PyLib := {
  json_loads : string → option json;
  sha256_hexdigest : string → string;
  py_repr : json → string
}.

(** *** Strings *)

(** The characters Python counts as whitespace ([str.isspace], and what
    [str.strip] and [int] skip) are U+0009 to U+000D, U+001C to U+0020,
    U+0085, U+00A0, U+1680, U+2000 to U+200A, U+2028, U+2029, U+202F, U+205F
    and U+3000.  In UTF-8 the first group is one byte each, U+0085 and
    U+00A0 are two bytes and the others three. *)
Definition py_isspace (a : ascii) : bool :=
  let n := N_of_ascii a in
  ((9 <=? n) && (n <=? 13) || (28 <=? n) && (n <=? 32))%N.

(** [C2 85] and [C2 A0]. *)
Definition py_isspace2 (a b : ascii) : bool :=
  let '(m, n) := (N_of_ascii a, N_of_ascii b) in
  ((m =? 194) && ((n =? 133) || (n =? 160)))%N.

(** [E1 9A 80]; [E2 80 80] to [E2 80 8A], [E2 80 A8], [E2 80 A9],
    [E2 80 AF]; [E2 81 9F]; [E3 80 80]. *)
Definition py_isspace3 (a b c : ascii) : bool :=
  let '(l, m, n) := (N_of_ascii a, N_of_ascii b, N_of_ascii c) in
  ((l =? 225) && (m =? 154) && (n =? 128)
   || (l =? 226) && (m =? 128)
      && ((128 <=? n) && (n <=? 138) || (n =? 168) || (n =? 169) || (n =? 175))
   || (l =? 226) && (m =? 129) && (n =? 159)
   || (l =? 227) && (m =? 128) && (n =? 128))%N.

(** [s.lstrip()] *)
Fixpoint lstrip (s : string) : string :=
  match s with
  | String a s1 =>
      if py_isspace a then lstrip s1
      else match s1 with
           | String b s2 =>
               if py_isspace2 a b then lstrip s2
               else match s2 with
                    | String c s3 =>
                        if py_isspace3 a b c then lstrip s3 else s
                    | EmptyString => s
                    end
           | EmptyString => s
           end
  | EmptyString => EmptyString
  end.

(** [s.rstrip()] on the reversed bytes of [s]: a character of several bytes
    shows its last byte first. *)
Fixpoint rstrip_rev (s : string) : string :=
  match s with
  | String a s1 =>
      if py_isspace a then rstrip_rev s1
      else match s1 with
           | String b s2 =>
               if py_isspace2 b a then rstrip_rev s2
               else match s2 with
                    | String c s3 =>
                        if py_isspace3 c b a then rstrip_rev s3 else s
                    | EmptyString => s
                    end
           | EmptyString => s
           end
  | EmptyString => EmptyString
  end.

(** [s.strip()] *)
Definition py_strip (s : string) : string :=
  String.rev (rstrip_rev (String.rev (lstrip s))).

(** [s.startswith(p)] *)
Definition startswith (s p : string) : bool := String.prefix p s.

(** [a in s] for strings. *)
Definition str_contains (s a : string) : bool :=
  match String.index 0 a s with Some _ => true | None => false end.

Definition ascii_lower (a : ascii) : ascii :=
  let n := N_of_ascii a in
  if ((65 <=? n) && (n <=? 90))%N then ascii_of_N (n + 32) else a.

Fixpoint str_lower (s : string) : string :=
  match s with
  | String a s' => String (ascii_lower a) (str_lower s')
  | EmptyString => EmptyString
  end.

(** [s.split(sep, 1)] for a one-character separator that occurs in [s]:
    the text before the first occurrence and the text after it. *)
Fixpoint split_once (sep : ascii) (s : string) : string * string :=
  match s with
  | String a s' =>
      if Ascii.eqb a sep then (EmptyString, s')
      else let '(l, r) := split_once sep s' in (String a l, r)
  | EmptyString => (EmptyString, EmptyString)
  end.

(** [re.split(r"[\n,]+", s)]: the pieces between maximal runs of newlines
    and commas; [cur] is the current piece reversed, [run] tells whether the
    previous character was a separator. *)
Definition is_list_sep (a : ascii) : bool :=
  Ascii.eqb a "010"%char || Ascii.eqb a ","%char.

Fixpoint re_split_go (cur : string) (run : bool) (s : string) : list string :=
  match s with
  | EmptyString => [String.rev cur]
  | String a s' =>
      if is_list_sep a
      then (if run then re_split_go cur true s'
            else String.rev cur :: re_split_go EmptyString true s')
      else re_split_go (String a cur) false s'
  end.

Definition re_split_newline_comma (s : string) : list string :=
  re_split_go EmptyString false s.

(** [int(s)] for a string: optional surrounding whitespace, an optional
    sign, then decimal digits, single underscores allowed between digits. *)
Fixpoint digits_go (acc : Z) (after_digit : bool) (s : string) : option Z :=
  match s with
  | EmptyString => if after_digit then Some acc else None
  | String a s' =>
      match Ascii.is_nat a with
      | Some d => digits_go (10 * acc + Z.of_nat d) true s'
      | None =>
          if Ascii.eqb a "_"%char && after_digit
          then match s' with
               | String b _ =>
                   if Ascii.is_nat b is Some _
                   then digits_go acc false s' else None
               | EmptyString => None
               end
          else None
      end
  end.

Definition int_of_str (s : string) : option Z :=
  match py_strip s with
  | String "-" s' => Z.opp <$> digits_go 0 false s'
  | String "+" s' => digits_go 0 false s'
  | s' => digits_go 0 false s'
  end.

(** *** JSON values as Python objects *)

(** Truth value of an object ([if x:], [x or y]). *)
Definition truthy (j : json) : bool :=
  match j with
  | JNull => false
  | JBool b => b
  | JInt z => negb (z =? 0)
  | JStr s => negb (String.eqb s "")
  | JArr l => match l with [] => false | _ => true end
  | JObj m => negb (Nat.eqb (size m) 0)
  end.

(** [x or y] *)
Definition py_or (x y : json) : json := if truthy x then x else y.

(** [str(x)] *)
Definition py_str `{PyLib} (j : json) : string :=
  match j with
  | JNull => "None"
  | JBool true => "True"
  | JBool false => "False"
  | JInt z => pretty z
  | JStr s => s
  | JArr _ | JObj _ => py_repr j
  end.

(** [int(x)] *)
Definition py_int (j : json) : res Z :=
  match j with
  | JInt z => Ok z
  | JBool b => Ok (if b then 1 else 0)
  | JStr s =>
      match int_of_str s with
      | Some z => Ok z
      | None => Raise (ValueError "invalid literal for int() with base 10")
      end
  | _ => Raise (TypeError "int() argument must be a string or a number")
  end.

(** [x.get(k, default)]: only dictionaries have a [get] attribute. *)
Definition py_get (j : json) (k : string) (default_value : json) : res json :=
  match j with
  | JObj m => Ok (default default_value (m !! k))
  | _ => Raise (AttributeError "object has no attribute 'get'")
  end.

(** The characters of a string: in UTF-8 every byte from [80] to [BF]
    continues the character begun before it. *)
Definition is_continuation (a : ascii) : bool :=
  let n := N_of_ascii a in ((128 <=? n) && (n <=? 191))%N.

Fixpoint py_chars (s : string) : list string :=
  match s with
  | EmptyString => []
  | String a s' =>
      let rest := py_chars s' in
      match s', rest with
      | String b _, c :: l =>
          if is_continuation b then String a c :: l
          else String a EmptyString :: rest
      | _, _ => String a EmptyString :: rest
      end
  end.

(** [for p in x]: the elements a Python [for] loop visits. *)
Definition py_iter (j : json) : res (list json) :=
  match j with
  | JArr l => Ok l
  | JObj m => Ok (JStr <$> (map_to_list m).*1)
  | JStr s => Ok (JStr <$> py_chars s)
  | _ => Raise (TypeError "object is not iterable")
  end.

(** [k in x] for a string [k]. *)
Definition py_in (k : string) (j : json) : res bool :=
  match j with
  | JObj m => Ok (bool_decide (is_Some (m !! k)))
  | JArr l => Ok (existsb (λ x, if x is JStr s then String.eqb s k else false) l)
  | JStr s => Ok (str_contains s k)
  | _ => Raise (TypeError "argument is not iterable")
  end.

(** [x[k]] for a string [k] known to satisfy [k in x]. *)
Definition py_getitem (j : json) (k : string) : res json :=
  match j with
  | JObj m =>
      match m !! k with
      | Some v => Ok v
      | None => Raise (KeyError k)
      end
  | _ => Raise (TypeError "indices must be integers")
  end.

(** ** The process and its environment *)

(** One entry of [SETTINGS["_recent_posts"]]. *)
Record post := {
  post_ts : Z;
  post_type : string;
  post_key : string;
  post_content_hash : string
}.

(** [SETTINGS]: the fields the gateway reads and writes.  The two throttle
    intervals and [last_call_ts] are in milliseconds, [cooldown_until] and
    the post timestamps in seconds. *)
Record settings := {
  cooldown_until : Z;
  last_usage : string * string;
  global_min_interval : Z;
  per_page_min_interval : Z;
  last_call_ts : gmap string Z;
  _recent_posts : list post
}.

Inductive method := GET | POST.

Inductive payload :=
| Query (params : gmap string json)
| Form (data : gmap string json)
| Multipart (files : gmap string string) (form : gmap string json)
| Bytes (data : string).

Record request := {
  rq_method : method;
  rq_url : string;
  rq_headers : gmap string string;
  rq_payload : payload;
  rq_timeout : Z
}.

(** A [requests.Response]: the header names are stored lower-cased, as
    [requests] compares them without case; [resp_json] is what [r.json()]
    returns, [None] when it raises. *)
Record response := {
  status_code : Z;
  resp_headers : gmap string string;
  resp_text : string;
  resp_json : option json
}.

(** What the network does with one exchange, and how long it takes. *)
Inductive outcome :=
| Replies (latency : N) (r : response)
| Breaks (latency : N) (msg : string).

Definition latency_of (o : outcome) : Z :=
  match o with Replies l _ | Breaks l _ => Z.of_N l end.

(** One outgoing call: when it was attempted, the cooldown deadline in force
    at that moment, the request, and what came back. *)
Record event := {
  ev_time : Z;
  ev_cooldown : Z;
  ev_request : request;
  ev_outcome : outcome
}.

(** The file [TOKENS_FILE]. *)
Inductive file :=
| Missing
| Corrupt
| Holds (j : json).

(** The state of the process and of what surrounds it: the wall clock in
    milliseconds, [SETTINGS], the names bound in the module namespace, the
    environment variables, the token file, the answer the network gives to
    the n-th outgoing call, and the log of the outgoing calls made so far. *)
Record world := {
  clock : Z;
  SETTINGS : settings;
  globals : list string;
  environ : gmap string string;
  tokens_file : file;
  upstream : nat → outcome;
  trace : list event
}.

(** Names bound in the module namespace once [app.py] is loaded by its
    imports (lines 2-8).  Python resolves a global name when the line that
    uses it runs; the only name the gateway uses without importing it is
    [re], so that is the only lookup that goes through [lookup_global]. *)
Definition module_globals : list string :=
  ["os"; "json"; "pytime"; "Tuple"; "Dict"; "Any"; "Optional"; "requests";
   "Flask"; "request"; "jsonify"; "session"; "render_template_string";
   "Response"].

Definition set_clock (t : Z) (w : world) : world :=
  {| clock := t; SETTINGS := SETTINGS w; globals := globals w;
     environ := environ w; tokens_file := tokens_file w;
     upstream := upstream w; trace := trace w |}.

Definition set_SETTINGS (s : settings) (w : world) : world :=
  {| clock := clock w; SETTINGS := s; globals := globals w;
     environ := environ w; tokens_file := tokens_file w;
     upstream := upstream w; trace := trace w |}.

Definition set_tokens_file (f : file) (w : world) : world :=
  {| clock := clock w; SETTINGS := SETTINGS w; globals := globals w;
     environ := environ w; tokens_file := f;
     upstream := upstream w; trace := trace w |}.

Definition set_trace (t : list event) (w : world) : world :=
  {| clock := clock w; SETTINGS := SETTINGS w; globals := globals w;
     environ := environ w; tokens_file := tokens_file w;
     upstream := upstream w; trace := t |}.

Definition set_cooldown_until (c : Z) (s : settings) : settings :=
  {| cooldown_until := c; last_usage := last_usage s;
     global_min_interval := global_min_interval s;
     per_page_min_interval := per_page_min_interval s;
     last_call_ts := last_call_ts s; _recent_posts := _recent_posts s |}.

Definition set_last_usage (u : string * string) (s : settings) : settings :=
  {| cooldown_until := cooldown_until s; last_usage := u;
     global_min_interval := global_min_interval s;
     per_page_min_interval := per_page_min_interval s;
     last_call_ts := last_call_ts s; _recent_posts := _recent_posts s |}.

Definition set_last_call_ts (m : gmap string Z) (s : settings) : settings :=
  {| cooldown_until := cooldown_until s; last_usage := last_usage s;
     global_min_interval := global_min_interval s;
     per_page_min_interval := per_page_min_interval s;
     last_call_ts := m; _recent_posts := _recent_posts s |}.

Definition set_recent_posts (l : list post) (s : settings) : settings :=
  {| cooldown_until := cooldown_until s; last_usage := last_usage s;
     global_min_interval := global_min_interval s;
     per_page_min_interval := per_page_min_interval s;
     last_call_ts := last_call_ts s; _recent_posts := l |}.

(** ** The monad of Python code *)

Definition M (A : Type) : Type := world → res A * world.

#[global] Instance M_ret : MRet M := λ A a w, (Ok a, w).
#[global] Instance M_bind : MBind M := λ A B f m w,
  match m w with
  | (Ok a, w') => f a w'
  | (Raise e, w') => (Raise e, w')
  | (Diverge, w') => (Diverge, w')
  end.

Definition raise {A} (e : exn) : M A := λ w, (Raise e, w).
Definition diverge {A} : M A := λ w, (Diverge, w).
Definition lift {A} (r : res A) : M A := λ w, (r, w).
Definition get_settings : M settings := λ w, (Ok (SETTINGS w), w).
Definition put_settings (s : settings) : M unit :=
  λ w, (Ok tt, set_SETTINGS s w).

(** [try: m except Exception: h] -- every class of [exn] is an
    [Exception]. *)
Definition try_except {A} (m : M A) (h : exn → M A) : M A := λ w,
  match m w with
  | (Raise e, w') => h e w'
  | r => r
  end.

(** [try: m except requests.RequestException as e: h] *)
Definition try_except_RequestException {A} (m : M A) (h : exn → M A) : M A :=
  try_except m (λ e, if is_RequestException e then h e else raise e).

(** [pytime.time()], in milliseconds. *)
Definition time : M Z := λ w, (Ok (clock w), w).

(** [int(pytime.time())] *)
Definition seconds (t : Z) : Z := t `quot` 1000.
Definition int_time : M Z := λ w, (Ok (seconds (clock w)), w).

(** [pytime.sleep(d)] for [d] milliseconds; a negative length raises. *)
Definition sleep (d : Z) : M unit := λ w,
  if d <? 0 then (Raise (ValueError "sleep length must be non-negative"), w)
  else (Ok tt, set_clock (clock w + d) w).

(** Looking a name up in the module namespace. *)
Definition lookup_global (name : string) : M unit := λ w,
  if bool_decide (name ∈ globals w) then (Ok tt, w)
  else (Raise (NameError name), w).

(** [requests.get] / [requests.post]: the call is logged, the network
    answers with its next outcome, and the latency elapses. *)
Definition http_exchange (rq : request) : M response := λ w,
  let o := upstream w (length (trace w)) in
  let ev := {| ev_time := clock w;
               ev_cooldown := cooldown_until (SETTINGS w);
               ev_request := rq; ev_outcome := o |} in
  let w' := set_clock (clock w + latency_of o) (set_trace (trace w ++ [ev]) w) in
  match o with
  | Replies _ r => (Ok r, w')
  | Breaks _ msg => (Raise (RequestException msg), w')
  end.

(** [r.json()] *)
Definition r_json (r : response) : M json :=
  match resp_json r with
  | Some j => mret j
  | None => raise RequestsJSONDecodeError
  end.

(** [r.headers.get(name)] and [name in r.headers] *)
Definition header (r : response) (name : string) : option string :=
  resp_headers r !! str_lower name.

(** [for x in l: body(x)] *)
Fixpoint for_each {A} (l : list A) (body : A → M unit) : M unit :=
  match l with
  | [] => mret tt
  | x :: l' => body x;; for_each l' body
  end.

(** ** The gateway *)

Definition GRAPH_BASE : string := "https://graph.facebook.com/v20.0".
Definition RUPLOAD_BASE : string :=
  "https://rupload.facebook.com/video-upload/v13.0".

(** Iterations granted to the [while True] loop of an executor; two are
    always enough (see [executor_loop_two]). *)
Definition loop_fuel : nat := 8.

(** How one iteration of a [while True] loop ends: with a [return] or
    with [continue]. *)
Inductive step (A : Type) :=
| Return (a : A)
| Continue.
Arguments Return {A} a.
Arguments Continue {A}.

Section gateway.
Context `{PyLib}.

(** *** Throttle and duplicate guard (lines 116-143) *)

Definition _wait_throttle (key : string) : M unit :=
  now ← time;
  s ← get_settings;
  let last_ts := default 0 (last_call_ts s !! key) in
  let gap := if startswith key "page:" then per_page_min_interval s
             else global_min_interval s in
  let g_last := default 0 (last_call_ts s !! "global") in
  let g_gap := global_min_interval s in
  let sleep_for :=
    Z.max 0 (Z.max (last_ts + gap - now) (g_last + g_gap - now)) in
  (if 0 <? sleep_for then sleep sleep_for else mret tt);;
  t1 ← time;
  s1 ← get_settings;
  put_settings (set_last_call_ts (<[key := t1]> (last_call_ts s1)) s1);;
  t2 ← time;
  s2 ← get_settings;
  put_settings (set_last_call_ts (<["global" := t2]> (last_call_ts s2)) s2).

Definition _hash_content (s : string) : string :=
  sha256_hexdigest (py_strip s).

Definition post_matches (kind key h : string) (x : post) : bool :=
  String.eqb (post_type x) kind && String.eqb (post_key x) key
  && String.eqb (post_content_hash x) h.

Definition _recent_content_guard
    (kind key content : string) (within_sec : Z) : M bool :=
  now ← int_time;
  let h := _hash_content content in
  s ← get_settings;
  put_settings
    (set_recent_posts
       (filter (λ x, now - post_ts x ≤ within_sec) (_recent_posts s)) s);;
  s1 ← get_settings;
  if existsb (post_matches kind key h) (_recent_posts s1) then mret true
  else
    put_settings
      (set_recent_posts
         (_recent_posts s1 ++
            [{| post_ts := now; post_type := kind; post_key := key;
                post_content_hash := h |}]) s1);;
    mret false.

(** *** Usage tracking and cooldown (lines 148-185) *)

Definition usage_keys : list string :=
  ["x-app-usage"; "X-App-Usage"; "x-page-usage"; "X-Page-Usage"].

(** [a or b or ""] on header values. *)
Definition header_or (a b : option string) : string :=
  match a, b with
  | Some x, _ => if String.eqb x "" then default "" b else x
  | None, _ => default "" b
  end.

(** [json.loads(u)] *)
Definition loads (u : string) : res json :=
  match json_loads u with
  | Some j => Ok j
  | None => Raise (ValueError "Expecting value")
  end.

(** [max(int(u.get("call_count", 0)), int(u.get("total_time", 0)),
         int(u.get("total_cputime", 0)))] *)
Definition usage_top (u : json) : res Z :=
  a ← (py_get u "call_count" (JInt 0) ≫= py_int);
  b ← (py_get u "total_time" (JInt 0) ≫= py_int);
  c ← (py_get u "total_cputime" (JInt 0) ≫= py_int);
  mret (Z.max a (Z.max b c)).

(** The body of the loop over the four header names. *)
Definition usage_key_step (r : response) (key : string) : M unit :=
  match header r key with
  | Some v =>
      try_except
        (u ← lift (loads v);
         top ← lift (usage_top u);
         now ← int_time;
         s ← get_settings;
         if 90 <=? top then
           put_settings
             (set_cooldown_until (Z.max (cooldown_until s) (now + 300)) s)
         else if 80 <=? top then
           put_settings
             (set_cooldown_until (Z.max (cooldown_until s) (now + 120)) s)
         else mret tt)
        (λ _, mret tt)
  | None => mret tt
  end.

Definition _update_usage_and_cooldown (r : response) : M unit :=
  try_except
    (let usage := header_or (header r "x-app-usage") (header r "X-App-Usage") in
     let pusage :=
       header_or (header r "x-page-usage") (header r "X-Page-Usage") in
     s ← get_settings;
     put_settings (set_last_usage (usage, pusage) s);;
     for_each usage_keys (usage_key_step r))
    (λ _, mret tt).

Definition _respect_cooldown : M Z :=
  now ← int_time;
  s ← get_settings;
  let cu := cooldown_until s in
  if now <? cu then mret (cu - now) else mret 0.

Definition rate_limit (retry_after : Z) : json :=
  JObj (<["error" := JStr "RATE_LIMIT"]> {["retry_after" := JInt retry_after]}).

(** [int(r.headers.get("Retry-After", "0") or "0")], 300 when it raises. *)
Definition retry_after_hint (r : response) : M Z :=
  try_except
    (let v := default "0" (header r "Retry-After") in
     lift (py_int (JStr (if String.eqb v "" then "0" else v))))
    (λ _, mret 300).

Definition _handle_429_and_maybe_retry (r : response) (attempt : Z)
    : M (json * Z) :=
  ra ← retry_after_hint r;
  now ← int_time;
  s ← get_settings;
  put_settings
    (set_cooldown_until
       (Z.max (cooldown_until s) (now + Z.max ra 120)) s);;
  if (attempt =? 0) && (ra <=? 5) then
    sleep (1000 * (if ra =? 0 then 1 else ra));;
    mret (JNull, -1)
  else mret (rate_limit ra, 429).

(** *** Request executors (lines 187-257) *)

Definition error_obj (detail : json) : json :=
  JObj {["error" := detail]}.

(** [{"Authorization": f"Bearer {token}"} if token else {}] *)
Definition bearer (token : json) : gmap string string :=
  if truthy token then {["Authorization" := "Bearer " +:+ py_str token]}
  else ∅.

(** [if ctx_key: _wait_throttle(ctx_key)] *)
Definition wait_ctx (ctx_key : option string) : M unit :=
  match ctx_key with
  | Some k => if String.eqb k "" then mret tt else _wait_throttle k
  | None => mret tt
  end.

(** One iteration of the [while True] loop shared by the three executors. *)
Definition attempt_once (rq : request) (ctx_key : option string)
    (attempts : Z) : M (step (json * Z)) :=
  try_except_RequestException
    (_wait_throttle "global";;
     wait_ctx ctx_key;;
     r ← http_exchange rq;
     _update_usage_and_cooldown r;;
     if status_code r =? 429 then
       '(data, st) ← _handle_429_and_maybe_retry r attempts;
       if st =? -1 then mret Continue else mret (Return (data, st))
     else if 400 <=? status_code r then
       try_except
         (j ← r_json r; mret (Return (j, status_code r)))
         (λ _, mret (Return (error_obj (JStr (resp_text r)), status_code r)))
     else
       j ← r_json r; mret (Return (j, 200)))
    (λ e, mret (Return (error_obj (JStr (exn_str e)), 500))).

Fixpoint executor_loop (fuel : nat) (rq : request) (ctx_key : option string)
    (attempts : Z) : M (json * Z) :=
  match fuel with
  | O => diverge
  | S fuel' =>
      st ← attempt_once rq ctx_key attempts;
      match st with
      | Return x => mret x
      | Continue => executor_loop fuel' rq ctx_key (attempts + 1)
      end
  end.

(** The body common to [graph_get], [graph_post], [graph_post_multipart]. *)
Definition executor (rq : request) (ctx_key : option string) : M (json * Z) :=
  rem ← _respect_cooldown;
  if 0 <? rem then mret (rate_limit rem, 429)
  else executor_loop loop_fuel rq ctx_key 0.

Definition graph_get (path : string) (params : gmap string json)
    (token : json) (ctx_key : option string) : M (json * Z) :=
  executor {| rq_method := GET; rq_url := GRAPH_BASE +:+ "/" +:+ path;
              rq_headers := bearer token; rq_payload := Query params;
              rq_timeout := 60 |} ctx_key.

Definition graph_post (path : string) (data : gmap string json)
    (token : json) (ctx_key : option string) : M (json * Z) :=
  executor {| rq_method := POST; rq_url := GRAPH_BASE +:+ "/" +:+ path;
              rq_headers := bearer token; rq_payload := Form data;
              rq_timeout := 120 |} ctx_key.

Definition graph_post_multipart (path : string) (files : gmap string string)
    (form : gmap string json) (token : json) (ctx_key : option string)
    : M (json * Z) :=
  executor {| rq_method := POST; rq_url := GRAPH_BASE +:+ "/" +:+ path;
              rq_headers := bearer token; rq_payload := Multipart files form;
              rq_timeout := 300 |} ctx_key.

End gateway.

(** ** Credentials (lines 97-107 and 261-329) *)

Section credentials.
Context `{PyLib}.

Definition load_tokens : M json := λ w,
  match tokens_file w with
  | Missing => (Ok (JObj ∅), w)
  | Corrupt => (Raise (ValueError "Expecting value"), w)
  | Holds j => (Ok j, w)
  end.

Definition save_tokens (data : json) : M unit := λ w,
  (Ok tt, set_tokens_file (Holds data) w).

Definition nonempty (s : string) : bool := negb (String.eqb s "").

(** The loop [for k,v in obj.items(): if k and v: mapping[str(k)] = str(v)]. *)
Definition env_mapping_of (obj : gmap string json) : gmap string string :=
  py_str <$> filter (λ kv, kv.1 ≠ "" ∧ truthy kv.2 = true) obj.

(** The body of the loop over the delimiter-separated parts. *)
Definition env_part (acc : gmap string string * list string) (x : string)
    : gmap string string * list string :=
  let '(mapping, loose_tokens) := acc in
  if str_contains x "|" || str_contains x ":" || str_contains x "=" then
    let sep := if str_contains x "|" then "|"%char
               else if str_contains x ":" then ":"%char else "="%char in
    let '(pid, tok) := split_once sep x in
    let pid := py_strip pid in
    let tok := py_strip tok in
    if nonempty pid && nonempty tok
    then (<[pid := tok]> mapping, loose_tokens)
    else (mapping, loose_tokens)
  else (mapping, loose_tokens ++ [x]).

Definition _env_get_tokens : M (gmap string string * list string) :=
  env ← (λ w, (Ok (environ w), w));
  let raw := py_strip (default "" (env !! "PAGE_TOKENS")) in
  if String.eqb raw "" then mret (∅, [])
  else
    early ← try_except
      (if startswith raw "{" then
         obj ← lift (loads raw);
         mret (Some (if obj is JObj m then env_mapping_of m else ∅, []))
       else mret None)
      (λ _, mret None);
    match early with
    | Some result => mret result
    | None =>
        lookup_global "re";;
        let parts :=
          List.filter nonempty (py_strip <$> re_split_newline_comma raw) in
        mret (fold_left env_part parts (∅, []))
    end.

(** The loop that collects the [(id, access_token)] pairs of a
    [me/accounts] answer. *)
Fixpoint collect_found (items : list json) (found : gmap string json)
    : res (gmap string json) :=
  match items with
  | [] => Ok found
  | p :: items' =>
      i ← py_get p "id" JNull;
      pat ← py_get p "access_token" JNull;
      let pid := py_str i in
      collect_found items'
        (if nonempty pid && truthy pat then <[pid := pat]> found else found)
  end.

Definition is_dict (j : json) : bool := if j is JObj _ then true else false.

(** [k in d] for a dictionary [d]. *)
Definition has_key (j : json) (k : string) : bool :=
  if j is JObj m then bool_decide (is_Some (m !! k)) else false.

(** [store["pages"] = found] *)
Definition set_pages (store : json) (found : gmap string json) : res json :=
  match store with
  | JObj m => Ok (JObj (<["pages" := JObj found]> m))
  | _ => Raise (TypeError "object does not support item assignment")
  end.

Definition get_page_access_token (page_id : string) (user_token : json)
    : M json :=
  '(mp, _) ← _env_get_tokens;
  match mp !! page_id with
  | Some tok => mret (JStr tok)
  | None =>
      store ← load_tokens;
      p ← lift (py_get store "pages" JNull);
      let pages := py_or p (JObj ∅) in
      hit ← lift (py_in page_id pages);
      if hit : bool then lift (py_getitem pages page_id)
      else
        '(data, st) ← graph_get "me/accounts" {["limit" := JInt 200]}
                        user_token None;
        if (st =? 200) && is_dict data then
          d ← lift (py_get data "data" (JArr []));
          items ← lift (py_iter d);
          found ← lift (collect_found items ∅);
          (if negb (Nat.eqb (size found) 0) then
             store' ← lift (set_pages store found);
             save_tokens store'
           else mret tt);;
          mret (default JNull (found !! page_id))
        else mret JNull
  end.

Definition _ctx_key_for_page (page_id : string) : string :=
  "page:" +:+ page_id.

End credentials.

(** ** Reel upload (lines 1096-1100 and 1270-1301) *)

Section reels.
Context `{PyLib}.

Definition reels_start (page_id : string) (page_token : json) : M (json * Z) :=
  graph_post (page_id +:+ "/video_reels") {["upload_phase" := JStr "start"]}
    page_token (Some (_ctx_key_for_page page_id)).

Definition reels_finish (page_id : string) (page_token video_id : json)
    (description : string) : M (json * Z) :=
  graph_post (page_id +:+ "/video_reels")
    (<["upload_phase" := JStr "finish"]>
       (<["video_id" := video_id]> {["description" := JStr description]}))
    page_token (Some (_ctx_key_for_page page_id)).

(** What the handler reads from the Flask request and session. *)
Record flask_request := {
  session_user_access_token : json;
  files_video : option string;
  form_description : option string
}.

Definition failure (kind : string) (detail : json) : json :=
  JObj (<["error" := JStr kind]> {["detail" := detail]}).

(** The transfer phase: the [try] block of lines 1284-1292.  [Some] is an
    early [return] of the handler, [None] falls through to the finish
    phase. *)
Definition reel_transfer (page_token video_id : json) (data_bytes : string)
    : M (option (json * Z)) :=
  let headers : gmap string string :=
    <["Authorization" := "OAuth " +:+ py_str page_token]>
      (<["offset" := "0"]> {["Content-Type" := "application/octet-stream"]}) in
  try_except
    (_wait_throttle "global";;
     ru ← http_exchange
            {| rq_method := POST;
               rq_url := RUPLOAD_BASE +:+ "/" +:+ py_str video_id;
               rq_headers := headers; rq_payload := Bytes data_bytes;
               rq_timeout := 600 |};
     if 400 <=? status_code ru then
       try_except
         (j ← r_json ru;
          mret (Some (failure "REELS_RUPLOAD_FAILED" j, status_code ru)))
         (λ _, mret (Some (failure "REELS_RUPLOAD_FAILED"
                             (JStr (resp_text ru)), status_code ru)))
     else mret None)
    (λ e, mret (Some (failure "REELS_RUPLOAD_EXCEPTION" (JStr (exn_str e)),
                      500))).

(** The best-effort permalink lookup of lines 1295-1300. *)
Definition reel_permalink (page_id : string) (page_token video_id fin_res : json)
    : M json :=
  try_except
    (v ← lift (py_get fin_res "video_id" JNull);
     let vid := py_or v video_id in
     '(d2, s2) ← graph_get (py_str vid) {["fields" := JStr "permalink_url"]}
                   page_token (Some (_ctx_key_for_page page_id));
     if (s2 =? 200) && is_dict d2 then
       link ← lift (py_get d2 "permalink_url" JNull);
       if truthy link then
         match fin_res with
         | JObj m => mret (JObj (<["permalink_url" := link]> m))
         | _ => raise (TypeError "object does not support item assignment")
         end
       else mret fin_res
     else mret fin_res)
    (λ _, mret fin_res).

Definition api_post_reel (page_id : string) (rq : flask_request)
    : M (json * Z) :=
  token ← (if truthy (session_user_access_token rq)
           then mret (session_user_access_token rq)
           else store ← load_tokens;
                ul ← lift (py_get store "user_long" JNull);
                lift (py_get (py_or ul (JObj ∅)) "access_token" JNull));
  if negb (truthy token) then mret (error_obj (JStr "NOT_LOGGED_IN"), 401)
  else
    page_token ← get_page_access_token page_id token;
    if negb (truthy page_token)
    then mret (error_obj (JStr "NO_PAGE_TOKEN"), 403)
    else
      match files_video rq with
      | None => mret (error_obj (JStr "MISSING_VIDEO"), 400)
      | Some data_bytes =>
          let desc := default "" (form_description rq) in
          '(start_res, st1) ← reels_start page_id page_token;
          if negb (st1 =? 200) || negb (is_dict start_res)
             || negb (has_key start_res "video_id")
          then mret (failure "REELS_START_FAILED" start_res, st1)
          else
            video_id ← lift (py_get start_res "video_id" JNull);
            early ← reel_transfer page_token video_id data_bytes;
            match early with
            | Some result => mret result
            | None =>
                '(fin_res, st3) ←
                  reels_finish page_id page_token video_id desc;
                if negb (st3 =? 200)
                then mret (failure "REELS_FINISH_FAILED" fin_res, st3)
                else
                  fin_res' ← reel_permalink page_id page_token
                               video_id fin_res;
                  mret (fin_res', 200)
            end
      end.

End reels.

(** ** Posting a message (lines 1202-1220) *)

Section posting.
Context `{PyLib}.

(** [session.get("user_access_token")
     or (load_tokens().get("user_long") or {}).get("access_token")] *)
Definition current_token (session_token : json) : M json :=
  if truthy session_token then mret session_token
  else
    store ← load_tokens;
    ul ← lift (py_get store "user_long" JNull);
    lift (py_get (py_or ul (JObj ∅)) "access_token" JNull).

(** [(body.get(k) or "").strip()] *)
Definition stripped_field (body : json) (k : string) : res string :=
  v ← py_get body k JNull;
  match py_or v (JStr "") with
  | JStr s => Ok (py_strip s)
  | _ => Raise (AttributeError "object has no attribute 'strip'")
  end.

(** What [api_post_to_page] reads from the Flask request and session: the
    token of the session and the decoded JSON body. *)
Record post_request := {
  post_session_token : json;
  post_body : json
}.

Definition duplicate_message : json :=
  JObj (<["error" := JStr "DUPLICATE_MESSAGE"]>
          {["note" :=
              JStr "Nội dung tương tự đã được đăng gần đây (<=60 phút)."]}).

(** The best-effort permalink lookup of lines 1214-1219. *)
Definition post_permalink (page_id : string) (page_token data : json)
    (status : Z) : M json :=
  try_except
    (if (status =? 200) && is_dict data then
       i ← lift (py_get data "id" JNull);
       if truthy i then
         '(d2, s2) ← graph_get (py_str i) {["fields" := JStr "permalink_url"]}
                       page_token (Some (_ctx_key_for_page page_id));
         if (s2 =? 200) && is_dict d2 then
           link ← lift (py_get d2 "permalink_url" JNull);
           if truthy link then
             match data with
             | JObj m => mret (JObj (<["permalink_url" := link]> m))
             | _ => raise (TypeError "object does not support item assignment")
             end
           else mret data
         else mret data
       else mret data
     else mret data)
    (λ _, mret data).

Definition api_post_to_page (page_id : string) (rq : post_request)
    : M (json * Z) :=
  token ← current_token (post_session_token rq);
  if negb (truthy token) then mret (error_obj (JStr "NOT_LOGGED_IN"), 401)
  else
    message ← lift (stripped_field (post_body rq) "message");
    if String.eqb message ""
    then mret (error_obj (JStr "EMPTY_MESSAGE"), 400)
    else
      dup ← _recent_content_guard "post" page_id message 3600;
      if dup : bool then mret (duplicate_message, 429)
      else
        page_token ← get_page_access_token page_id token;
        if negb (truthy page_token)
        then mret (error_obj (JStr "NO_PAGE_TOKEN"), 403)
        else
          '(data, status) ←
            graph_post (page_id +:+ "/feed") {["message" := JStr message]}
              page_token (Some (_ctx_key_for_page page_id));
          data' ← post_permalink page_id page_token data status;
          mret (data', status).

End posting.

(** ** The PIN gate (lines 42 and 59-92) *)

(** [ACCESS_PIN], read from the environment when the module is loaded. *)
Definition ACCESS_PIN (w : world) : string :=
  py_strip (default "" (environ w !! "ACCESS_PIN")).

(** [session.get("pin_ok", False)] as a truth value. *)
Definition pin_ok (session : gmap string json) : bool :=
  truthy (default (JBool false) (session !! "pin_ok")).

Definition pin_endpoints : list string :=
  ["/api/pin/status"; "/api/pin/login"; "/api/pin/logout"].

(** The [before_request] hook: [None] lets the request through, [Some] is
    the answer sent instead of calling the view. *)
Definition _require_pin_for_api (access_pin path : string)
    (session : gmap string json) : option (json * Z) :=
  if String.eqb access_pin "" then None
  else if negb (startswith path "/api/") then None
  else if bool_decide (path ∈ pin_endpoints) then None
  else if negb (pin_ok session)
       then Some (error_obj (JStr "PIN_REQUIRED"), 401)
       else None.

Definition api_pin_status (access_pin : string) (session : gmap string json)
    : json * Z :=
  (JObj (<["ok" := JBool (pin_ok session)]>
           {["need_pin" := JBool (negb (String.eqb access_pin ""))]}), 200).

(** The login view: its answer and the session it leaves. *)
Definition api_pin_login (access_pin : string) (body : json)
    (session : gmap string json) : res (json * Z * gmap string json) :=
  v ← py_get body "pin" JNull;
  pin ← match py_or v (JStr "") with
        | JStr s => Ok (py_strip s)
        | _ => Raise (AttributeError "object has no attribute 'strip'")
        end;
  if String.eqb access_pin "" then
    Ok (JObj (<["ok" := JBool true]>
                {["note" := JStr "PIN not set on server"]}), 200,
        <["pin_ok" := JBool true]> session)
  else if negb (String.eqb pin "") && String.eqb pin access_pin then
    Ok (JObj {["ok" := JBool true]}, 200, <["pin_ok" := JBool true]> session)
  else Ok (error_obj (JStr "INVALID_PIN"), 403, session).

Definition api_pin_logout (session : gmap string json)
    : json * Z * gmap string json :=
  (JObj {["ok" := JBool true]}, 200, delete "pin_ok" session).

(** ** Usage report (lines 1478-1485) *)

(** The [cooldown_remaining] entry of the answer of [api_usage]:
    [max(0, int(SETTINGS.get("cooldown_until", 0) or 0) - now)]. *)
Definition api_usage_cooldown_remaining : M Z :=
  now ← int_time;
  s ← get_settings;
  mret (Z.max 0 (cooldown_until s - now)).

(** ** Webhook events (lines 1444-1476) *)

(** [l[-n:]] for a positive [n]. *)
Definition last_n {A} (n : nat) (l : list A) : list A :=
  drop (length l - n) l.

(** The event log [SETTINGS["_last_events"]] across one POST to [/webhook]:
    the event is appended and the log cut to its last 100 entries. *)
Definition webhook_record (now : Z) (data : json) (events : list (Z * json))
    : list (Z * json) :=
  last_n 100 (events ++ [(now, data)]).

(** [webhook_events]: the last 20 entries of the log. *)
Definition webhook_events (events : list (Z * json)) : list (Z * json) :=
  last_n 20 events.

(** [for x in l: body(x)] for code that has no state. *)
Fixpoint each {A} (l : list A) (body : A → res unit) : res unit :=
  match l with
  | [] => Ok tt
  | x :: l' => body x;; each l' body
  end.

(** The body of the loop over the messages of a change: [sender] and [text]
    are computed, then the call of [broadcast], a name the module never
    binds, raises. *)
Definition dispatch_message (m : json) : res unit :=
  fr ← py_get m "from" JNull;
  _ ← (if truthy fr then Ok fr
       else s ← py_get m "sender" JNull; py_get (py_or s (JObj ∅)) "id" JNull);
  t ← py_get m "text" (JObj ∅);
  b ← py_get (py_or t (JObj ∅)) "body" JNull;
  _ ← (if truthy b then Ok b else py_get m "message" JNull);
  Raise (NameError "broadcast").

Definition dispatch_change (chg : json) : res unit :=
  val ← py_get chg "value" (JObj ∅);
  ms ← py_get val "messages" (JArr []);
  msgs ← py_iter (py_or ms (JArr []));
  each msgs dispatch_message;;
  rs ← py_get val "message_reads" (JArr []);
  reads ← py_iter (py_or rs (JArr []));
  each reads (λ _, Raise (NameError "broadcast")).

(** The [try] block of lines 1459-1472, without its [except]. *)
Definition webhook_dispatch (data : json) : res unit :=
  entries ← py_get (py_or data (JObj ∅)) "entry" (JArr []);
  ens ← py_iter entries;
  each ens (λ en,
    chs ← py_get en "changes" (JArr []);
    changes ← py_iter chs;
    each changes dispatch_change).

(** [try: m except Exception: pass] for code that has no state. *)
Definition try_pass (m : res unit) : res unit :=
  match m with
  | Raise _ => Ok tt
  | r => r
  end.

(** A POST to [/webhook]: [body] is the decoded JSON body, [None] when it
    does not decode.  The answer, and the event log afterwards. *)
Definition webhook_post (now : Z) (body : option json)
    (events : list (Z * json)) : res ((string * Z) * list (Z * json)) :=
  let data := default (JObj {["error" := JStr "invalid json"]}) body in
  let events' := webhook_record now data events in
  try_pass (webhook_dispatch data);;
  Ok (("ok", 200), events').

(** ** Definitions used to state the properties *)

Section statements.
Context `{PyLib}.

(** The world after an action, whatever its outcome. *)
Definition after {A} (m : M A) (w : world) : world := (m w).2.

(** The outgoing calls an action adds to the log. *)
Definition new_events {A} (m : M A) (w : world) : list event :=
  drop (length (trace w)) (trace (after m w)).

(** *** Rate governor *)

Definition throttle_gap (s : settings) (key : string) : Z :=
  if startswith key "page:" then per_page_min_interval s
  else global_min_interval s.

Definition throttle_wait (key : string) (w : world) : Z :=
  let s := SETTINGS w in
  Z.max 0
    (Z.max (default 0 (last_call_ts s !! key) + throttle_gap s key - clock w)
       (default 0 (last_call_ts s !! "global") + global_min_interval s
        - clock w)).

Definition throttled (key : string) (w : world) : world :=
  let t := clock w + throttle_wait key w in
  set_SETTINGS
    (set_last_call_ts
       (<["global" := t]> (<[key := t]> (last_call_ts (SETTINGS w))))
       (SETTINGS w))
    (set_clock t w).

(** A schedule of the governor: slots are requested for a context, and time
    passes between requests. *)
Inductive action :=
| Await (key : string)
| Idle (d : N).

(** The slots granted along a schedule: context and time of each. *)
Fixpoint slots (acts : list action) (w : world) : list (string * Z) :=
  match acts with
  | [] => []
  | Await key :: acts' =>
      let w' := after (_wait_throttle key) w in
      (key, clock w') :: slots acts' w'
  | Idle d :: acts' => slots acts' (set_clock (clock w + Z.of_N d) w)
  end.

(** A log of slots respects the intervals [gi] (global) and [pi] (per page)
    given the stamps [prev] left by earlier slots. *)
Fixpoint paced (gi pi : Z) (prev : gmap string Z) (log : list (string * Z))
    : Prop :=
  match log with
  | [] => True
  | (k, t) :: log' =>
      (∀ tk, prev !! k = Some tk →
             tk + (if startswith k "page:" then pi else gi) ≤ t) ∧
      (∀ tg, prev !! "global" = Some tg → tg + gi ≤ t) ∧
      paced gi pi (<["global" := t]> (<[k := t]> prev)) log'
  end.

(** *** Usage tracker *)

(** The highest of the three percentages of a usage header; [None] when the
    header is absent or does not decode to them. *)
Definition header_top (r : response) (key : string) : option Z :=
  match header r key with
  | Some v => if loads v ≫= usage_top is Ok top then Some top else None
  | None => None
  end.

(** The cooldown rule: 300 seconds from 90 percent, 120 seconds from 80. *)
Definition bump (now : Z) (top : option Z) (c : Z) : Z :=
  match top with
  | Some t =>
      if 90 <=? t then Z.max c (now + 300)
      else if 80 <=? t then Z.max c (now + 120)
      else c
  | None => c
  end.

(** The higher of the tops of two headers, when any is there. *)
Definition higher_top (a b : option Z) : option Z :=
  match a, b with
  | Some x, Some y => Some (Z.max x y)
  | Some x, None => Some x
  | None, _ => b
  end.

Definition usage_applied (r : response) (w : world) : world :=
  let now := seconds (clock w) in
  set_SETTINGS
    (set_cooldown_until
       (bump now (header_top r "x-page-usage")
          (bump now (header_top r "x-app-usage")
             (cooldown_until (SETTINGS w))))
       (set_last_usage
          (header_or (header r "x-app-usage") (header r "X-App-Usage"),
           header_or (header r "x-page-usage") (header r "X-Page-Usage"))
          (SETTINGS w)))
    w.

(** *** Request executor *)

(** The retry-after hint of a response as the code reads it. *)
Definition hint_of (r : response) : Z :=
  match header r "Retry-After" with
  | None => 0
  | Some v => if String.eqb v "" then 0 else default 300 (int_of_str v)
  end.

(** The world in which an executor issues its exchange: after the global
    slot and, when a context key is given, the slot of that context. *)
Definition issue_world (ctx_key : option string) (w : world) : world :=
  let w1 := throttled "global" w in
  match ctx_key with
  | Some k => if String.eqb k "" then w1 else throttled k w1
  | None => w1
  end.

(** The entry one exchange adds to the log, and the world after it. *)
Definition event_of (rq : request) (w : world) : event :=
  {| ev_time := clock w; ev_cooldown := cooldown_until (SETTINGS w);
     ev_request := rq; ev_outcome := upstream w (length (trace w)) |}.

Definition exchanged (rq : request) (w : world) : world :=
  set_clock (clock w + latency_of (upstream w (length (trace w))))
    (set_trace (trace w ++ [event_of rq w]) w).

(** An outgoing call attempted while the cooldown was running. *)
Definition during_cooldown (e : event) : Prop :=
  seconds (ev_time e) < ev_cooldown e.

(** *** Duplicate guard *)

(** Time passing: [d] milliseconds later, nothing else changed. *)
Definition elapse (d : N) (w : world) : world :=
  set_clock (clock w + Z.of_N d) w.

(** The log entry the guard records for a submission. *)
Definition fingerprint (kind key content : string) (now : Z) : post :=
  {| post_ts := now; post_type := kind; post_key := key;
     post_content_hash := _hash_content content |}.

(** The entries of the log that are at most [within_sec] seconds old. *)
Definition pruned (now within_sec : Z) (l : list post) : list post :=
  filter (λ x, now - post_ts x ≤ within_sec) l.

(** *** Credential resolver *)

(** The persisted document when it is a JSON object (an absent file reads
    as the empty object), and its page mapping as the resolver uses it:
    [store.get("pages") or {}]. *)
Definition stored_doc (w : world) : option (gmap string json) :=
  match tokens_file w with
  | Missing => Some ∅
  | Holds (JObj m) => Some m
  | _ => None
  end.

Definition pages_of (doc : gmap string json) : option (gmap string json) :=
  match doc !! "pages" with
  | None => Some ∅
  | Some (JObj p) => Some p
  | Some j => if truthy j then None else Some ∅
  end.

(** The live discovery call of the resolver. *)
Definition discovery (user_token : json) : M (json * Z) :=
  graph_get "me/accounts" {["limit" := JInt 200]} user_token None.

(** An item of a [me/accounts] answer that carries the pair [(pid, pat)]. *)
Definition carries (p : json) (pid : string) (pat : json) : Prop :=
  ∃ m, p = JObj m ∧ py_str (default JNull (m !! "id")) = pid ∧
       default JNull (m !! "access_token") = pat ∧
       nonempty pid = true ∧ truthy pat = true.

(** The request of the live discovery call. *)
Definition discovery_request (user_token : json) : request :=
  {| rq_method := GET; rq_url := GRAPH_BASE +:+ "/me/accounts";
     rq_headers := bearer user_token;
     rq_payload := Query {["limit" := JInt 200]}; rq_timeout := 60 |}.

(** *** Reel upload *)

(** The binary transfer is the only request with a raw body; the finish
    call is the form post whose [upload_phase] is "finish". *)
Definition is_transfer (rq : request) : Prop :=
  if rq_payload rq is Bytes _ then True else False.

Definition is_finish (rq : request) : Prop :=
  match rq_payload rq with
  | Form data => data !! "upload_phase" = Some (JStr "finish")
  | _ => False
  end.

(** A call that is neither the transfer nor a finish call. *)
Definition quiet (e : event) : Prop :=
  ¬ is_transfer (ev_request e) ∧ ¬ is_finish (ev_request e).

Definition transfer_request (page_token video_id : json) (data_bytes : string)
    : request :=
  {| rq_method := POST; rq_url := RUPLOAD_BASE +:+ "/" +:+ py_str video_id;
     rq_headers :=
       <["Authorization" := "OAuth " +:+ py_str page_token]>
         (<["offset" := "0"]>
            {["Content-Type" := "application/octet-stream"]});
     rq_payload := Bytes data_bytes; rq_timeout := 600 |}.

(** What the handler answers when the transfer is refused with [ru]. *)
Definition transfer_failure (ru : response) : json * Z :=
  (failure "REELS_RUPLOAD_FAILED"
     (default (JStr (resp_text ru)) (resp_json ru)), status_code ru).

(** The calls [evs] of a run that ended with [out] contain at most one
    transfer; when that transfer is answered with a status from 400, it is
    the last call and [out] is the transfer failure. *)
Definition transfer_final (evs : list event) (out : res (json * Z)) : Prop :=
  Forall quiet evs ∨
  ∃ evs0 eT evs1,
    evs = evs0 ++ eT :: evs1 ∧ Forall quiet evs0 ∧
    is_transfer (ev_request eT) ∧
    Forall (λ e, ¬ is_transfer (ev_request e)) evs1 ∧
    ∀ l ru, ev_outcome eT = Replies l ru → 400 ≤ status_code ru →
            evs1 = [] ∧ out = Ok (transfer_failure ru).

Definition phased (m : M (json * Z)) : Prop :=
  ∀ w, ∃ evs, trace (after m w) = trace w ++ evs ∧
              transfer_final evs (m w).1.

(** *** Event logs of composed actions *)

(** Whatever the world, the action only adds to the log of outgoing calls,
    and every call it adds satisfies [P]. *)
Definition emits {A} (P : event → Prop) (m : M A) : Prop :=
  ∀ w, ∃ evs, trace (after m w) = trace w ++ evs ∧ Forall P evs.

(** The action leaves the configuration and the token file alone. *)
Definition keeps_files {A} (m : M A) : Prop :=
  ∀ w, tokens_file (after m w) = tokens_file w ∧
       environ (after m w) = environ w ∧
       globals (after m w) = globals w.

End statements.

(** ** Sample runtime and worlds *)

(** U+00A0 (no-break space) and U+3000 (ideographic space). *)
Definition nbsp : string :=
  String "194"%char (String "160"%char EmptyString).

Definition ideographic_space : string :=
  String "227"%char (String "128"%char (String "128"%char EmptyString)).

(** The text of a usage header that reports 95 percent of the call budget:
    [{"call_count": 95, "total_time": 20, "total_cputime": 10}]. *)
Definition dq : string := String "034"%char EmptyString.

Definition usage_95_text : string :=
  "{" +:+ dq +:+ "call_count" +:+ dq +:+ ": 95, "
      +:+ dq +:+ "total_time" +:+ dq +:+ ": 20, "
      +:+ dq +:+ "total_cputime" +:+ dq +:+ ": 10}".

Definition usage_95 : json :=
  JObj (<["call_count" := JInt 95]>
          (<["total_time" := JInt 20]> {["total_cputime" := JInt 10]})).

(** A stand-in for the Python runtime: the decoder knows the usage header
    above and nothing else, the digest is the text itself. *)
Definition sample_lib : PyLib :=
  {| json_loads := λ s, if String.eqb s usage_95_text then Some usage_95
                        else None;
     sha256_hexdigest := λ s, s;
     py_repr := λ _, "<object>" |}.

Definition fresh_settings : settings :=
  {| cooldown_until := 0; last_usage := ("", "");
     global_min_interval := 1000; per_page_min_interval := 2000;
     last_call_ts := ∅; _recent_posts := [] |}.

Definition ok_response : response :=
  {| status_code := 200; resp_headers := ∅; resp_text := "{}";
     resp_json := Some (JObj ∅) |}.

(** The process just started, at some instant, with a network that always
    answers 200. *)
Definition fresh_world : world :=
  {| clock := 1700000000000; SETTINGS := fresh_settings;
     globals := module_globals; environ := ∅; tokens_file := Missing;
     upstream := λ _, Replies 50 ok_response; trace := [] |}.

(** The process as deployed with [PAGE_TOKENS="123|EAAB-page-token"]. *)
Definition delimited_world : world :=
  {| clock := 1700000000000; SETTINGS := fresh_settings;
     globals := module_globals;
     environ := {["PAGE_TOKENS" := "123|EAAB-page-token"]};
     tokens_file := Missing;
     upstream := λ _, Replies 50 ok_response; trace := [] |}.

(** The process configured with one loose credential, [PAGE_TOKENS="tokLoose"],
    in front of a network that answers every call with the identity of
    page 42. *)
Definition identity_response : response :=
  {| status_code := 200; resp_headers := ∅;
     resp_text := "{id: 42, name: Page}";
     resp_json := Some (JObj (<["id" := JStr "42"]> {["name" := JStr "Page"]})) |}.

Definition loose_world : world :=
  {| clock := 1700000000000; SETTINGS := fresh_settings;
     globals := module_globals;
     environ := {["PAGE_TOKENS" := "tokLoose"]};
     tokens_file := Missing;
     upstream := λ _, Replies 50 identity_response; trace := [] |}.

(** A process whose token file already holds the credential of page 111, in
    front of a network whose [me/accounts] answer lists page 222 only. *)
Definition accounts_response : response :=
  {| status_code := 200; resp_headers := ∅; resp_text := "";
     resp_json :=
       Some (JObj {["data" :=
               JArr [JObj (<["id" := JStr "222"]>
                             {["access_token" := JStr "tokB"]})]]}) |}.

Definition cached_world : world :=
  {| clock := 1700000000000; SETTINGS := fresh_settings;
     globals := module_globals; environ := ∅;
     tokens_file :=
       Holds (JObj {["pages" := JObj {["111" := JStr "tokA"]}]});
     upstream := λ _, Replies 50 accounts_response; trace := [] |}.

(** The same process with a cooldown that ends 100 seconds from now. *)
Definition cooling_world : world :=
  set_SETTINGS (set_cooldown_until 1700000100 fresh_settings) fresh_world.

(** A network that answers the first call with 429 and [Retry-After: 3],
    and every later call with 200. *)
Definition short_429 : response :=
  {| status_code := 429; resp_headers := {["retry-after" := "3"]};
     resp_text := ""; resp_json := None |}.

Definition short_429_world : world :=
  {| clock := 1700000000000; SETTINGS := fresh_settings;
     globals := module_globals; environ := ∅; tokens_file := Missing;
     upstream := λ n, if n is O then Replies 50 short_429
                      else Replies 50 ok_response;
     trace := [] |}.

(** The same with a 429 that carries no [Retry-After] header. *)
Definition bare_429 : response :=
  {| status_code := 429; resp_headers := ∅; resp_text := "";
     resp_json := None |}.

Definition bare_429_world : world :=
  {| clock := 1700000000000; SETTINGS := fresh_settings;
     globals := module_globals; environ := ∅; tokens_file := Missing;
     upstream := λ n, if n is O then Replies 50 bare_429
                      else Replies 50 ok_response;
     trace := [] |}.

(** A response that reports 95 percent usage in [X-App-Usage]. *)
Definition hot_response : response :=
  {| status_code := 200; resp_headers := {["x-app-usage" := usage_95_text]};
     resp_text := ""; resp_json := Some (JObj {["video_id" := JStr "v1"]}) |}.

(** A reel upload for page 9, whose credential is in the token file. *)
Definition upload_request : flask_request :=
  {| session_user_access_token := JStr "user-token";
     files_video := Some "video-bytes";
     form_description := Some "a reel" |}.

Definition started_response : response :=
  {| status_code := 200; resp_headers := ∅; resp_text := "";
     resp_json := Some (JObj {["video_id" := JStr "v1"]}) |}.

Definition refusal : response :=
  {| status_code := 503; resp_headers := ∅;
     resp_text := "Service Unavailable"; resp_json := None |}.

(** The start call succeeds and the transfer is refused with 503. *)
Definition upload_world : world :=
  {| clock := 1700000000000; SETTINGS := fresh_settings;
     globals := module_globals; environ := ∅;
     tokens_file := Holds (JObj {["pages" := JObj {["9" := JStr "ptok"]}]});
     upstream := λ n, if n is O then Replies 50 started_response
                      else Replies 50 refusal;
     trace := [] |}.

Definition refused_transfer : event :=
  {| ev_time := 1700000002000; ev_cooldown := 0;
     ev_request :=
       transfer_request (H := sample_lib) (JStr "ptok") (JStr "v1")
         "video-bytes";
     ev_outcome := Replies 50 refusal |}.

(** The answer to the start call reports 95 percent usage. *)
Definition hot_upload_world : world :=
  {| clock := 1700000000000; SETTINGS := fresh_settings;
     globals := module_globals; environ := ∅;
     tokens_file := Holds (JObj {["pages" := JObj {["9" := JStr "ptok"]}]});
     upstream := λ n, if n is O then Replies 50 hot_response
                      else Replies 50 ok_response;
     trace := [] |}.

(** A response whose only usage header is the one above. *)
Definition app_usage_response : response :=
  {| status_code := 200; resp_headers := {["x-app-usage" := usage_95_text]};
     resp_text := ""; resp_json := Some (JObj ∅) |}.

(** ** Definitions used to state further properties *)

(** What no part of the gateway undoes: the configuration, the network and
    the log of recent posts stay as they are, time and the cooldown deadline
    do not go back, and the log of outgoing calls only grows. *)
Definition settles (w w' : world) : Prop :=
  environ w' = environ w ∧ globals w' = globals w ∧
  upstream w' = upstream w ∧
  _recent_posts (SETTINGS w') = _recent_posts (SETTINGS w) ∧
  global_min_interval (SETTINGS w') = global_min_interval (SETTINGS w) ∧
  per_page_min_interval (SETTINGS w') = per_page_min_interval (SETTINGS w) ∧
  clock w ≤ clock w' ∧
  cooldown_until (SETTINGS w) ≤ cooldown_until (SETTINGS w') ∧
  trace w `prefix_of` trace w'.

Definition settling {A} (m : M A) : Prop := ∀ w, settles w (after m w).

(** No stamp of the governor lies in the future. *)
Definition stamps_past (w : world) : Prop :=
  ∀ k t, last_call_ts (SETTINGS w) !! k = Some t → t ≤ clock w.

(** ** More sample runs *)

(** A first call in the shape the executors send it. *)
Definition me_request : request :=
  {| rq_method := GET; rq_url := GRAPH_BASE +:+ "/" +:+ "me";
     rq_headers := bearer (H := sample_lib) (JStr "tok");
     rq_payload := Query ∅; rq_timeout := 60 |}.

(** A network that is down. *)
Definition broken_world : world :=
  {| clock := 1700000000000; SETTINGS := fresh_settings;
     globals := module_globals; environ := ∅; tokens_file := Missing;
     upstream := λ _, Breaks 50 "connection reset"; trace := [] |}.

(** A network that refuses every call with 503. *)
Definition refusing_world : world :=
  {| clock := 1700000000000; SETTINGS := fresh_settings;
     globals := module_globals; environ := ∅; tokens_file := Missing;
     upstream := λ _, Replies 50 refusal; trace := [] |}.

(** A network that answers 201. *)
Definition created_response : response :=
  {| status_code := 201; resp_headers := ∅; resp_text := "";
     resp_json := Some (JObj {["id" := JStr "77"]}) |}.

Definition created_world : world :=
  {| clock := 1700000000000; SETTINGS := fresh_settings;
     globals := module_globals; environ := ∅; tokens_file := Missing;
     upstream := λ _, Replies 50 created_response; trace := [] |}.

(** A network that answers the first call with 429 and [Retry-After: 60]. *)
Definition long_429 : response :=
  {| status_code := 429; resp_headers := {["retry-after" := "60"]};
     resp_text := ""; resp_json := None |}.

Definition long_429_world : world :=
  {| clock := 1700000000000; SETTINGS := fresh_settings;
     globals := module_globals; environ := ∅; tokens_file := Missing;
     upstream := λ n, if n is O then Replies 50 long_429
                      else Replies 50 ok_response;
     trace := [] |}.

(** A runtime whose decoder knows one [PAGE_TOKENS] text,
    [{"123": "tokE"}]. *)
Definition env_map_text : string :=
  "{" +:+ dq +:+ "123" +:+ dq +:+ ": " +:+ dq +:+ "tokE" +:+ dq +:+ "}".

Definition env_lib : PyLib :=
  {| json_loads := λ s, if String.eqb s env_map_text
                        then Some (JObj {["123" := JStr "tokE"]})
                        else None;
     sha256_hexdigest := λ s, s;
     py_repr := λ _, "<object>" |}.

(** The process deployed with that text in [PAGE_TOKENS], its token file
    damaged. *)
Definition env_map_world : world :=
  {| clock := 1700000000000; SETTINGS := fresh_settings;
     globals := module_globals;
     environ := {["PAGE_TOKENS" := env_map_text]};
     tokens_file := Corrupt;
     upstream := λ _, Replies 50 ok_response; trace := [] |}.

(** The process of [cached_world] during a cooldown. *)
Definition cooling_cached_world : world :=
  set_SETTINGS (set_cooldown_until 1700000100 fresh_settings) cached_world.

(** The process of [upload_world] during a cooldown. *)
Definition cooling_upload_world : world :=
  set_SETTINGS (set_cooldown_until 1700000100 fresh_settings) upload_world.

(** The start call of an upload succeeds and the connection breaks during
    the transfer. *)
Definition broken_transfer_world : world :=
  {| clock := 1700000000000; SETTINGS := fresh_settings;
     globals := module_globals; environ := ∅;
     tokens_file := Holds (JObj {["pages" := JObj {["9" := JStr "ptok"]}]});
     upstream := λ n, if n is O then Replies 50 started_response
                      else Breaks 50 "timed out";
     trace := [] |}.

(** A message for page 9 from a logged-in session. *)
Definition hello_post : post_request :=
  {| post_session_token := JStr "user-token";
     post_body := JObj {["message" := JStr " Hello "]} |}.

(** The fresh process with that message in the log of recent posts. *)
Definition posted_world : world :=
  set_SETTINGS
    (set_recent_posts
       [fingerprint (H := sample_lib) "post" "9" "Hello" 1700000000]
       fresh_settings)
    fresh_world.

(** A webhook payload with one message. *)
Definition hook_message : gmap string json :=
  <["from" := JStr "555"]> {["text" := JObj {["body" := JStr "hi"]}]}.

Definition hook_value : gmap string json :=
  {["messages" := JArr [JObj hook_message]]}.

Definition hook_change : gmap string json :=
  {["value" := JObj hook_value]}.

Definition hook_entry : gmap string json :=
  {["changes" := JArr [JObj hook_change]]}.

Definition hook_payload : gmap string json :=
  {["entry" := JArr [JObj hook_entry]]}.

(** The process of [hot_upload_world] after the start call of a reel upload
    for page 9, and after the transfer that follows. *)
Definition hot_started_world : world :=
  after (reels_start (H := sample_lib) "9" (JStr "ptok")) hot_upload_world.

Definition stranded_world : world :=
  exchanged
    (transfer_request (H := sample_lib) (JStr "ptok") (JStr "v1") "video-bytes")
    (throttled "global" hot_started_world).

(** The same two moments on [broken_transfer_world]. *)
Definition broken_started_world : world :=
  after (reels_start (H := sample_lib) "9" (JStr "ptok")) broken_transfer_world.

Definition broken_sent_world : world :=
  exchanged
    (transfer_request (H := sample_lib) (JStr "ptok") (JStr "v1") "video-bytes")
    (throttled "global" broken_started_world).

(** ** Proofs *)

Ltac munfold :=
  unfold mbind, mret, M_bind, M_ret, time, int_time, get_settings,
    put_settings, lift, raise, after in *.

Section governor_proofs.
Context `{PyLib}.

Lemma wait_throttle_spec key w :
  _wait_throttle key w = (Ok tt, throttled key w).
Proof.
  unfold _wait_throttle, throttled, throttle_wait, throttle_gap.
  destruct w as [c s g e f u t]; destruct s as [cu lu gi pi lc rp].
  munfold; unfold sleep; cbn.
  set (wt := Z.max 0 _).
  destruct (0 <? wt) eqn:E; cbn.
  - assert ((wt <? 0) = false) as -> by lia. reflexivity.
  - assert (wt = 0) as -> by lia. rewrite Z.add_0_r. reflexivity.
Qed.

Lemma slots_paced acts : ∀ w,
  paced (global_min_interval (SETTINGS w)) (per_page_min_interval (SETTINGS w))
    (last_call_ts (SETTINGS w)) (slots acts w).
Proof.
  induction acts as [|[key|d] acts IH]; intros w; cbn [slots paced].
  - exact I.
  - unfold after. rewrite wait_throttle_spec. cbn [snd].
    split; [|split].
    + intros tk Hk. cbn. unfold throttle_wait, throttle_gap.
      rewrite Hk. cbn. lia.
    + intros tg Hg. cbn. unfold throttle_wait. rewrite Hg. cbn. lia.
    + apply (IH (throttled key w)).
  - apply (IH (set_clock (clock w + Z.of_N d) w)).
Qed.

Lemma paced_adjacent gi pi log : ∀ prev i k1 t1 k2 t2,
  paced gi pi prev log →
  log !! i = Some (k1, t1) → log !! S i = Some (k2, t2) → t1 + gi ≤ t2.
Proof.
  induction log as [|[k t] log IH]; intros prev i k1 t1 k2 t2 Hp H1 H2.
  - discriminate.
  - destruct Hp as (_ & _ & Hp). destruct i as [|i].
    + cbn in H1, H2. injection H1 as -> ->.
      destruct log as [|[k' t'] log]; [discriminate|].
      cbn in H2. injection H2 as -> ->.
      destruct Hp as (_ & Hg & _). apply Hg. apply lookup_insert_eq.
    + cbn in H1, H2. eapply IH; eauto.
Qed.

Lemma paced_next_same_key gi pi log : ∀ prev j k tk t,
  paced gi pi prev log →
  prev !! k = Some tk → k ≠ "global" →
  log !! j = Some (k, t) →
  (∀ m k' t', (m < j)%nat → log !! m = Some (k', t') → k' ≠ k) →
  tk + (if startswith k "page:" then pi else gi) ≤ t.
Proof.
  induction log as [|[k0 t0] log IH]; intros prev j k tk t Hp Hk Hg Hj Hno.
  - discriminate.
  - destruct Hp as (Hsame & _ & Hp). destruct j as [|j].
    + cbn in Hj. injection Hj as -> ->. by apply Hsame.
    + cbn in Hj.
      assert (k0 ≠ k) as Hne by (apply (Hno 0%nat k0 t0); [lia|done]).
      eapply (IH _ j k tk t Hp); eauto.
      * rewrite lookup_insert_ne by done. by rewrite lookup_insert_ne.
      * intros m k' t' Hm Hl. apply (Hno (S m) k' t'); [lia|done].
Qed.

Lemma paced_same_key gi pi log : ∀ prev i j k t1 t2,
  paced gi pi prev log →
  k ≠ "global" → (i < j)%nat →
  log !! i = Some (k, t1) → log !! j = Some (k, t2) →
  (∀ m k' t', (i < m < j)%nat → log !! m = Some (k', t') → k' ≠ k) →
  t1 + (if startswith k "page:" then pi else gi) ≤ t2.
Proof.
  induction log as [|[k0 t0] log IH]; intros prev i j k t1 t2 Hp Hg Hij Hi Hj Hno.
  - discriminate.
  - destruct Hp as (_ & _ & Hp). destruct j as [|j]; [lia|]. cbn in Hj.
    destruct i as [|i].
    + cbn in Hi. injection Hi as -> ->.
      eapply (paced_next_same_key _ _ _ _ j k t1 t2 Hp); eauto.
      * rewrite lookup_insert_ne by done. apply lookup_insert_eq.
      * intros m k' t' Hm Hl. apply (Hno (S m) k' t'); [lia|done].
    + cbn in Hi. eapply (IH _ i j k t1 t2 Hp); eauto; [lia|].
      intros m k' t' Hm Hl. apply (Hno (S m) k' t'); [lia|done].
Qed.

(** C4.  One [_wait_throttle(key)] sleeps for
    [max(0, last[key] + gap - now, last["global"] + global_gap - now)], with
    the per-page gap for keys that start with "page:" and the global gap
    otherwise, and then stamps both [last[key]] and [last["global"]] with the
    time after the sleep.  Along any schedule of such requests, two
    consecutive slots are at least the global interval apart, and two
    consecutive slots of one page context at least the per-page interval. *)
Theorem throttle_wait_and_spacing key w acts :
  let s := SETTINGS w in
  let last k := default 0 (last_call_ts s !! k) in
  let gap := if startswith key "page:" then per_page_min_interval s
             else global_min_interval s in
  let w' := after (_wait_throttle key) w in
  (_wait_throttle key w).1 = Ok tt ∧
  clock w' - clock w =
    Z.max 0 (Z.max (last key + gap - clock w)
               (last "global" + global_min_interval s - clock w)) ∧
  last_call_ts (SETTINGS w') =
    <["global" := clock w']> (<[key := clock w']> (last_call_ts s)) ∧
  (∀ i k1 t1 k2 t2,
     slots acts w !! i = Some (k1, t1) →
     slots acts w !! S i = Some (k2, t2) →
     t1 + global_min_interval s ≤ t2) ∧
  (∀ i j k t1 t2,
     startswith k "page:" = true → (i < j)%nat →
     slots acts w !! i = Some (k, t1) →
     slots acts w !! j = Some (k, t2) →
     (∀ m k' t', (i < m < j)%nat → slots acts w !! m = Some (k', t') → k' ≠ k) →
     t1 + per_page_min_interval s ≤ t2).
Proof.
  cbn zeta. unfold after. rewrite wait_throttle_spec. cbn [fst snd].
  split; [done|]. split; [|split; [done|split]].
  - cbn. unfold throttle_wait, throttle_gap. lia.
  - intros i k1 t1 k2 t2 H1 H2.
    exact (paced_adjacent _ _ _ _ i k1 t1 k2 t2 (slots_paced acts w) H1 H2).
  - intros i j k t1 t2 Hpage Hij Hi Hj Hno.
    pose proof (paced_same_key _ _ _ _ i j k t1 t2 (slots_paced acts w)) as P.
    rewrite Hpage in P. apply P; auto.
    intros ->. discriminate Hpage.
Qed.

End governor_proofs.

(** A schedule on the freshly started process: two calls for page 1 with a
    global call between them. *)
Lemma throttle_wait_and_spacing_witness :
  slots [Await "page:1"; Await "global"; Await "page:1"] fresh_world
    = [("page:1", 1700000000000); ("global", 1700000001000);
       ("page:1", 1700000002000)]
  ∧ 1700000000000 + per_page_min_interval (SETTINGS fresh_world)
    ≤ 1700000002000.
Proof.
  split; [vm_compute; reflexivity|].
  pose proof (throttle_wait_and_spacing "page:1" fresh_world
                [Await "page:1"; Await "global"; Await "page:1"])
    as (_ & _ & _ & _ & Hpage).
  apply (Hpage 0%nat 2%nat "page:1").
  - reflexivity.
  - lia.
  - vm_compute; reflexivity.
  - vm_compute; reflexivity.
  - intros m k' t' Hm Hl. assert (m = 1%nat) as -> by lia.
    vm_compute in Hl. injection Hl as <- _. discriminate.
Defined.

Section tracker_proofs.
Context `{PyLib}.

Lemma bind_ok {A B} (m : M A) (f : A → M B) w a w' :
  m w = (Ok a, w') → (m ≫= f) w = f a w'.
Proof. intros E. unfold mbind, M_bind. by rewrite E. Qed.

Lemma bind_unfold {A B} (m : M A) (f : A → M B) w :
  (m ≫= f) w =
    match m w with
    | (Ok a, w') => f a w'
    | (Raise e, w') => (Raise e, w')
    | (Diverge, w') => (Diverge, w')
    end.
Proof. done. Qed.

Lemma bump_idemp now top c : bump now top (bump now top c) = bump now top c.
Proof.
  destruct top as [t|]; cbn; [|done].
  destruct (90 <=? t); [lia|]. destruct (80 <=? t); [lia|done].
Qed.

Lemma bump_le now top c : c ≤ bump now top c.
Proof.
  destruct top as [t|]; cbn; [|lia].
  destruct (90 <=? t); [lia|]. destruct (80 <=? t); lia.
Qed.

Lemma py_int_converges j : py_int j ≠ Diverge.
Proof. destruct j as [| | |s| |]; cbn; try done. by destruct (int_of_str s). Qed.

Lemma usage_top_converges u : usage_top u ≠ Diverge.
Proof.
  unfold usage_top. destruct u as [| | | | |m]; try done. cbn.
  repeat (match goal with
          | |- context [py_int ?x] =>
              pose proof (py_int_converges x); destruct (py_int x); cbn
          end; try done).
Qed.

Lemma bump_higher now a b c :
  bump now b (bump now a c) = bump now (higher_top a b) c.
Proof.
  destruct a as [x|], b as [y|]; cbn; try done.
  destruct (90 <=? x) eqn:Ex, (90 <=? y) eqn:Ey,
           (80 <=? x) eqn:Fx, (80 <=? y) eqn:Fy,
           (90 <=? Z.max x y) eqn:Em, (80 <=? Z.max x y) eqn:Fm; lia.
Qed.

Lemma usage_key_step_spec r key w :
  usage_key_step r key w =
    (Ok tt,
     set_SETTINGS
       (set_cooldown_until
          (bump (seconds (clock w)) (header_top r key)
             (cooldown_until (SETTINGS w)))
          (SETTINGS w))
       w).
Proof.
  destruct w as [c s g e f u t]; destruct s as [cu lu gi pi lc rp].
  unfold usage_key_step, header_top.
  destruct (header r key) as [v|]; [|done].
  unfold try_except. munfold. cbn.
  unfold loads. destruct (json_loads v) as [j|]; cbn; [|done].
  pose proof (usage_top_converges j) as Hc.
  destruct (usage_top j) as [top| |]; cbn; [|done..].
  destruct (90 <=? top); [done|]. by destruct (80 <=? top).
Qed.

Lemma update_usage_spec r w :
  _update_usage_and_cooldown r w = (Ok tt, usage_applied r w).
Proof.
  unfold _update_usage_and_cooldown, usage_applied, try_except, usage_keys.
  cbn [for_each]. munfold. cbn -[bump header_top header header_or].
  repeat (rewrite usage_key_step_spec; cbn -[bump header_top header header_or]).
  change (header_top r "X-App-Usage") with (header_top r "x-app-usage").
  change (header_top r "X-Page-Usage") with (header_top r "x-page-usage").
  by rewrite !bump_idemp.
Qed.

(** C3.  Feeding a response to the usage tracker applies the cooldown rule
    once per usage header that decodes to the three percentages, with [top]
    their maximum: from 90 the deadline becomes [max(previous, now + 300)],
    from 80 [max(previous, now + 120)], below 80 it stays.  With both
    headers present this is the rule at the higher of the two tops.  The
    deadline never decreases, a header that is absent or does not decode
    leaves it alone, and the tracker always returns normally. *)
Theorem usage_tracker_rule r w :
  let now := seconds (clock w) in
  let c := cooldown_until (SETTINGS w) in
  let w' := after (_update_usage_and_cooldown r) w in
  (_update_usage_and_cooldown r w).1 = Ok tt ∧
  cooldown_until (SETTINGS w') =
    bump now (header_top r "x-page-usage")
      (bump now (header_top r "x-app-usage") c) ∧
  cooldown_until (SETTINGS w') =
    bump now
      (higher_top (header_top r "x-app-usage") (header_top r "x-page-usage"))
      c ∧
  c ≤ cooldown_until (SETTINGS w') ∧
  (∀ key v m a b d,
     header r key = Some v → json_loads v = Some (JObj m) →
     m !! "call_count" = Some (JInt a) → m !! "total_time" = Some (JInt b) →
     m !! "total_cputime" = Some (JInt d) →
     header_top r key = Some (Z.max a (Z.max b d))) ∧
  (∀ key, header r key = None → header_top r key = None) ∧
  (∀ key v, header r key = Some v → json_loads v = None →
            header_top r key = None) ∧
  (∀ top, bump now (Some top) c =
            if 90 <=? top then Z.max c (now + 300)
            else if 80 <=? top then Z.max c (now + 120) else c) ∧
  bump now None c = c.
Proof.
  cbn zeta. unfold after. rewrite update_usage_spec. cbn [fst snd].
  split; [done|]. split; [done|]. split; [apply bump_higher|]. split.
  { cbn. etrans; [apply bump_le|apply bump_le]. }
  split.
  { intros key v m a b d Hh Hl Ha Hb Hd. unfold header_top, loads.
    rewrite Hh, Hl. cbn. unfold usage_top. cbn. rewrite Ha. cbn.
    rewrite Hb. cbn. by rewrite Hd. }
  split; [by intros key Hh; unfold header_top; rewrite Hh|].
  split; [|done].
  intros key v Hh Hl. unfold header_top, loads. by rewrite Hh, Hl.
Qed.

End tracker_proofs.

Section executor_proofs.
Context `{PyLib}.

Lemma respect_cooldown_spec w :
  _respect_cooldown w =
    (Ok (if seconds (clock w) <? cooldown_until (SETTINGS w)
         then cooldown_until (SETTINGS w) - seconds (clock w) else 0), w).
Proof.
  unfold _respect_cooldown. munfold.
  by destruct (seconds (clock w) <? cooldown_until (SETTINGS w)).
Qed.

Lemma retry_after_hint_spec r w : retry_after_hint r w = (Ok (hint_of r), w).
Proof.
  unfold retry_after_hint, hint_of, try_except. munfold.
  destruct (header r "Retry-After") as [v|]; cbn; [|done].
  destruct (String.eqb v ""); [done|].
  by destruct (int_of_str v).
Qed.

Lemma handle_429_spec r attempt w :
  let h := hint_of r in
  let w1 :=
    set_SETTINGS
      (set_cooldown_until
         (Z.max (cooldown_until (SETTINGS w))
            (seconds (clock w) + Z.max h 120)) (SETTINGS w)) w in
  _handle_429_and_maybe_retry r attempt w =
    if (attempt =? 0) && (h <=? 5) then
      if h <? 0
      then (Raise (ValueError "sleep length must be non-negative"), w1)
      else (Ok (JNull, -1),
            set_clock (clock w + 1000 * (if h =? 0 then 1 else h)) w1)
    else (Ok (rate_limit h, 429), w1).
Proof.
  cbn zeta. unfold _handle_429_and_maybe_retry.
  rewrite (bind_ok _ _ _ _ _ (retry_after_hint_spec r w)).
  munfold. cbn.
  destruct ((attempt =? 0) && (hint_of r <=? 5)); [|done].
  unfold sleep. cbn.
  destruct (hint_of r =? 0) eqn:E0.
  - assert (hint_of r = 0) as -> by lia. done.
  - assert ((1000 * hint_of r <? 0) = (hint_of r <? 0)) as -> by lia.
    by destruct (hint_of r <? 0).
Qed.

Lemma wait_ctx_spec ctx w :
  wait_ctx ctx w =
    (Ok tt, match ctx with
            | Some k => if String.eqb k "" then w else throttled k w
            | None => w
            end).
Proof.
  unfold wait_ctx. destruct ctx as [k|]; [|done].
  destruct (String.eqb k ""); [done|apply wait_throttle_spec].
Qed.

(** What one iteration of the executor loop does. *)
Lemma attempt_once_spec rq ctx a w :
  attempt_once rq ctx a w =
    let wi := issue_world ctx w in
    match upstream wi (length (trace wi)) with
    | Breaks _ msg =>
        (Ok (Return (error_obj (JStr msg), 500)), exchanged rq wi)
    | Replies _ r =>
        let wu := usage_applied r (exchanged rq wi) in
        if status_code r =? 429 then
          let '(out, w') := _handle_429_and_maybe_retry r a wu in
          (match out return res (step (json * Z)) with
           | Ok (data, st) =>
               if st =? -1 then Ok Continue else Ok (Return (data, st))
           | Raise e =>
               if is_RequestException e
               then Ok (Return (error_obj (JStr (exn_str e)), 500))
               else Raise e
           | Diverge => Diverge
           end, w')
        else if 400 <=? status_code r then
          (Ok (Return (default (error_obj (JStr (resp_text r))) (resp_json r),
                       status_code r)), wu)
        else
          match resp_json r with
          | Some j => (Ok (Return (j, 200)), wu)
          | None =>
              (Ok (Return (error_obj (JStr "Expecting value"), 500)), wu)
          end
    end.
Proof.
  cbn zeta. unfold attempt_once, try_except_RequestException, try_except.
  rewrite (bind_ok _ _ _ _ _ (wait_throttle_spec "global" w)).
  rewrite (bind_ok _ _ _ _ _ (wait_ctx_spec ctx (throttled "global" w))).
  fold (issue_world ctx w). set (wi := issue_world ctx w).
  unfold mbind at 1, M_bind at 1.
  unfold http_exchange. fold (event_of rq wi). fold (exchanged rq wi).
  destruct (upstream wi (length (trace wi))) as [l r|l msg]; [|done].
  rewrite (bind_ok _ _ _ _ _ (update_usage_spec r (exchanged rq wi))).
  set (wu := usage_applied r (exchanged rq wi)).
  destruct (status_code r =? 429).
  - unfold mbind, M_bind.
    destruct (_handle_429_and_maybe_retry r a wu) as [[[data st]|e|] w'];
      [|by destruct (is_RequestException e)|done].
    by destruct (st =? -1).
  - destruct (400 <=? status_code r).
    + unfold r_json. munfold. by destruct (resp_json r).
    + unfold r_json. munfold. by destruct (resp_json r).
Qed.

Lemma throttled_clock k w : clock w ≤ clock (throttled k w).
Proof. cbn. unfold throttle_wait. lia. Qed.

Lemma issue_world_frame ctx w :
  trace (issue_world ctx w) = trace w ∧
  upstream (issue_world ctx w) = upstream w ∧
  cooldown_until (SETTINGS (issue_world ctx w)) = cooldown_until (SETTINGS w) ∧
  clock w ≤ clock (issue_world ctx w).
Proof.
  unfold issue_world. pose proof (throttled_clock "global" w).
  destruct ctx as [k|]; [destruct (String.eqb k "")|]; try done.
  pose proof (throttled_clock k (throttled "global" w)).
  repeat split; try done. lia.
Qed.

Lemma handle_429_cases r a w :
  let h := hint_of r in
  let out := (_handle_429_and_maybe_retry r a w).1 in
  let w' := after (_handle_429_and_maybe_retry r a) w in
  trace w' = trace w ∧ upstream w' = upstream w ∧
  cooldown_until (SETTINGS w') =
    Z.max (cooldown_until (SETTINGS w)) (seconds (clock w) + Z.max h 120) ∧
  (out = Ok (JNull, -1) ∧ a = 0 ∧ 0 ≤ h ≤ 5 ∧
     clock w' = clock w + 1000 * (if h =? 0 then 1 else h)
   ∨ out = Ok (rate_limit h, 429) ∧ (a ≠ 0 ∨ 5 < h) ∧ clock w' = clock w
   ∨ out = Raise (ValueError "sleep length must be non-negative") ∧
     a = 0 ∧ h < 0 ∧ clock w' = clock w).
Proof.
  cbn zeta. unfold after. rewrite handle_429_spec.
  destruct (a =? 0) eqn:Ea; cbn [andb].
  - destruct (hint_of r <=? 5) eqn:E5.
    + destruct (hint_of r <? 0) eqn:E0; cbn;
        (repeat split; [done..|]); [right; right|left];
        repeat split; try done; lia.
    + cbn. repeat split; try done. right; left. repeat split; try done. lia.
  - cbn. repeat split; try done. right; left. repeat split; try done. lia.
Qed.

(** Every iteration issues exactly one exchange, and only the first one can
    ask for another iteration. *)
Lemma attempt_once_facts rq ctx a w :
  let out := (attempt_once rq ctx a w).1 in
  let w' := after (attempt_once rq ctx a) w in
  trace w' = trace w ++ [event_of rq (issue_world ctx w)] ∧
  upstream w' = upstream w ∧
  out ≠ Diverge ∧
  (a ≠ 0 → ∃ x, out = Ok (Return x)) ∧
  (out = Ok Continue → a = 0).
Proof.
  cbn zeta. unfold after. rewrite attempt_once_spec. cbn zeta.
  destruct (issue_world_frame ctx w) as (Ht & Hu & _).
  set (wi := issue_world ctx w) in *.
  destruct (upstream wi (length (trace wi))) as [l r|l msg]; cbn [fst snd].
  2:{ cbn. rewrite Ht. repeat split; eauto; done. }
  destruct (status_code r =? 429).
  - pose proof (handle_429_cases r a (usage_applied r (exchanged rq wi)))
      as (Ht' & Hu' & _ & Hc).
    unfold after in *.
    destruct (_handle_429_and_maybe_retry r a _) as [out w'].
    cbn [fst snd] in *. rewrite Ht', Hu'. cbn. rewrite Ht.
    split; [done|]. split; [done|].
    destruct Hc as [(-> & -> & ?)|[(-> & Hor & ?)|(-> & -> & ?)]]; cbn.
    + repeat split; done.
    + repeat split; eauto; done.
    + repeat split; done.
  - destruct (400 <=? status_code r).
    + cbn. rewrite Ht. repeat split; eauto; done.
    + destruct (resp_json r); cbn; rewrite Ht; repeat split; eauto; done.
Qed.

Lemma executor_loop_S fuel rq ctx a w :
  executor_loop (S fuel) rq ctx a w =
    let '(out, w1) := attempt_once rq ctx a w in
    match out with
    | Ok (Return x) => (Ok x, w1)
    | Ok Continue => executor_loop fuel rq ctx (a + 1) w1
    | Raise e => (Raise e, w1)
    | Diverge => (Diverge, w1)
    end.
Proof.
  cbn [executor_loop]. unfold mbind, M_bind.
  by destruct (attempt_once rq ctx a w) as [[[x|]| |] w1].
Qed.

(** Two iterations are always enough for the executor loop. *)
Lemma executor_loop_two n rq ctx w :
  let out := (executor_loop (S (S n)) rq ctx 0 w).1 in
  let w' := after (executor_loop (S (S n)) rq ctx 0) w in
  out ≠ Diverge ∧
  executor_loop (S (S n)) rq ctx 0 w = executor_loop 2 rq ctx 0 w ∧
  ∃ evs, trace w' = trace w ++ event_of rq (issue_world ctx w) :: evs ∧
         (length evs ≤ 1)%nat.
Proof.
  cbn zeta. unfold after. rewrite !(executor_loop_S (S _)).
  pose proof (attempt_once_facts rq ctx 0 w) as (Ht & Hu & Hd & _ & _).
  unfold after in *.
  destruct (attempt_once rq ctx 0 w) as [[[x|]| |] w1]; cbn [fst snd] in *.
  - split; [done|]. split; [done|]. exists []. split; [by rewrite Ht|cbn; lia].
  - rewrite !executor_loop_S.
    pose proof (attempt_once_facts rq ctx (0 + 1) w1) as (Ht1 & _ & Hd1 & Hr & _).
    destruct Hr as [x Hx]; [done|]. unfold after in *.
    destruct (attempt_once rq ctx (0 + 1) w1) as [out1 w2]; cbn [fst snd] in *.
    subst out1. cbn [fst snd]. split; [done|]. split; [done|].
    eexists [_]. split; [by rewrite Ht1, Ht, <- app_assoc|cbn; lia].
  - split; [done|]. split; [done|]. exists []. split; [by rewrite Ht|cbn; lia].
  - done.
Qed.

Lemma executor_spec rq ctx w :
  executor rq ctx w =
    if seconds (clock w) <? cooldown_until (SETTINGS w)
    then (Ok (rate_limit (cooldown_until (SETTINGS w) - seconds (clock w)),
              429), w)
    else executor_loop loop_fuel rq ctx 0 w.
Proof.
  unfold executor. rewrite (bind_ok _ _ _ _ _ (respect_cooldown_spec w)).
  destruct (seconds (clock w) <? cooldown_until (SETTINGS w)) eqn:E.
  - assert ((0 <? cooldown_until (SETTINGS w) - seconds (clock w)) = true)
      as -> by lia. done.
  - done.
Qed.

(** C1.  When an executor is entered while the cooldown is running
    ([now < cooldown_until]), it returns [RATE_LIMIT] with the remaining
    seconds and status 429, and leaves the world as it was: nothing is sent
    and no state changes. *)
Theorem cooldown_short_circuit path params data files form token ctx w :
  seconds (clock w) < cooldown_until (SETTINGS w) →
  let rem := cooldown_until (SETTINGS w) - seconds (clock w) in
  0 < rem ∧
  graph_get path params token ctx w = (Ok (rate_limit rem, 429), w) ∧
  graph_post path data token ctx w = (Ok (rate_limit rem, 429), w) ∧
  graph_post_multipart path files form token ctx w
    = (Ok (rate_limit rem, 429), w) ∧
  new_events (graph_get path params token ctx) w = [] ∧
  new_events (graph_post path data token ctx) w = [] ∧
  new_events (graph_post_multipart path files form token ctx) w = [].
Proof.
  intros Hcool. cbn zeta.
  unfold new_events, after, graph_get, graph_post, graph_post_multipart.
  rewrite !executor_spec.
  assert ((seconds (clock w) <? cooldown_until (SETTINGS w)) = true) as ->
    by lia.
  cbn [snd]. rewrite drop_all. repeat split; try done. lia.
Qed.

(** C2, as the code has it.  An executor never diverges and sends at most
    two exchanges.  When the first exchange of a call is answered 429: the
    hint is 0 if [Retry-After] is absent or empty, its integer value if it is
    an integer literal, and 300 otherwise; the cooldown deadline becomes
    [max(previous, now + max(hint, 120))]; with [0 <= hint <= 5] the executor
    sleeps for the hint (one second for 0), repeats the exchange exactly once
    and returns what that second iteration returns; with [hint > 5] it
    returns [RATE_LIMIT] with the hint and status 429 after that one
    exchange.  An iteration that is not the first never asks for a retry:
    there a 429 is answered with [RATE_LIMIT] whatever the hint. *)
Theorem upstream_429_handling rq ctx w :
  let wi := issue_world ctx w in
  (executor rq ctx w).1 ≠ Diverge ∧
  (length (new_events (executor rq ctx) w) ≤ 2)%nat ∧
  (∀ a, a ≠ 0 → ∃ x, (attempt_once rq ctx a w).1 = Ok (Return x)) ∧
  (∀ r a w0, a ≠ 0 →
     (_handle_429_and_maybe_retry r a w0).1 = Ok (rate_limit (hint_of r), 429)) ∧
  ∀ l r,
    cooldown_until (SETTINGS w) ≤ seconds (clock w) →
    upstream w (length (trace w)) = Replies l r →
    status_code r = 429 →
    let h := hint_of r in
    let wu := usage_applied r (exchanged rq wi) in
    let wc :=
      set_SETTINGS
        (set_cooldown_until
           (Z.max (cooldown_until (SETTINGS wu))
              (seconds (clock wu) + Z.max h 120)) (SETTINGS wu)) wu in
    (header r "Retry-After" = None ∨ header r "Retry-After" = Some "" →
     h = 0) ∧
    (∀ v, header r "Retry-After" = Some v → v ≠ "" →
          h = default 300 (int_of_str v)) ∧
    (0 ≤ h ≤ 5 →
     let ws := set_clock (clock wu + 1000 * (if h =? 0 then 1 else h)) wc in
     attempt_once rq ctx 0 w = (Ok Continue, ws) ∧
     ∃ x w2,
       attempt_once rq ctx 1 ws = (Ok (Return x), w2) ∧
       executor rq ctx w = (Ok x, w2) ∧
       trace w2 =
         trace w ++ [event_of rq wi; event_of rq (issue_world ctx ws)]) ∧
    (5 < h →
     executor rq ctx w = (Ok (rate_limit h, 429), wc) ∧
     trace wc = trace w ++ [event_of rq wi]).
Proof.
  cbn zeta. rewrite executor_spec. unfold new_events, after.
  rewrite executor_spec.
  split; [|split; [|split; [|split]]].
  - destruct (_ <? _); [done|]. apply (executor_loop_two 6).
  - destruct (_ <? _); cbn [snd]; [rewrite drop_all; cbn; lia|].
    destruct (executor_loop_two 6 rq ctx w) as (_ & _ & evs & Ht & Hl).
    unfold after in Ht. change (S (S 6)) with loop_fuel in Ht.
    rewrite Ht, drop_app_length. cbn. lia.
  - intros a Ha. by apply attempt_once_facts.
  - intros r a w0 Ha. rewrite handle_429_spec. cbn zeta.
    destruct (Z.eqb_spec a 0); done.
  - intros l r Hcool Hup H429.
    assert ((seconds (clock w) <? cooldown_until (SETTINGS w)) = false) as ->
      by lia.
    destruct (issue_world_frame ctx w) as (Ht & Hu & _).
    split; [|split; [|split]].
    + unfold hint_of. intros [->| ->]; done.
    + unfold hint_of. intros v -> Hv.
      destruct (String.eqb_spec v ""); done.
    + intros Hh.
      assert (attempt_once rq ctx 0 w =
                (Ok Continue,
                 set_clock
                   (clock (usage_applied r (exchanged rq (issue_world ctx w)))
                    + 1000 * (if hint_of r =? 0 then 1 else hint_of r))
                   (set_SETTINGS
                      (set_cooldown_until
                         (Z.max
                            (cooldown_until
                               (SETTINGS (usage_applied r
                                  (exchanged rq (issue_world ctx w)))))
                            (seconds
                               (clock (usage_applied r
                                  (exchanged rq (issue_world ctx w))))
                             + Z.max (hint_of r) 120))
                         (SETTINGS (usage_applied r
                            (exchanged rq (issue_world ctx w)))))
                      (usage_applied r (exchanged rq (issue_world ctx w))))))
        as H0.
      { rewrite attempt_once_spec. cbn zeta. rewrite Ht, Hu, Hup.
        rewrite H429. cbn [Z.eqb Pos.eqb]. rewrite handle_429_spec.
        cbn zeta. cbn [Z.eqb andb].
        assert ((hint_of r <=? 5) = true) as -> by lia.
        assert ((hint_of r <? 0) = false) as -> by lia. done. }
      split; [done|].
      set (ws := set_clock _ _) in *.
      pose proof (attempt_once_facts rq ctx 1 ws) as (Ht1 & _ & _ & Hr & _).
      destruct Hr as [x Hx]; [done|]. unfold after in Ht1.
      destruct (attempt_once rq ctx 1 ws) as [out1 w2] eqn:E1.
      cbn [fst snd] in *. subst out1. exists x, w2. split; [done|].
      split.
      * unfold loop_fuel. rewrite executor_loop_S, H0, executor_loop_S.
        change (0 + 1) with 1. by rewrite E1.
      * rewrite Ht1. subst ws. cbn [trace set_clock set_SETTINGS]. cbn.
        by rewrite Ht, <- app_assoc.
    + intros Hh. split; [|by cbn; rewrite Ht].
      unfold loop_fuel. rewrite executor_loop_S, attempt_once_spec.
      cbn zeta. rewrite Ht, Hu, Hup, H429. cbn [Z.eqb Pos.eqb].
      rewrite handle_429_spec. cbn zeta. cbn [Z.eqb andb].
      assert ((hint_of r <=? 5) = false) as -> by lia. done.
Qed.

(** C9, as the code has it.  An executor reads the cooldown once, on entry:
    entered during the cooldown it sends nothing, and otherwise the first
    exchange it sends is not sent during the cooldown.  (The retry after a
    short 429 and the binary transfer of a reel do not read it again.) *)
Theorem cooldown_checked_on_entry rq ctx w :
  (seconds (clock w) < cooldown_until (SETTINGS w) →
   new_events (executor rq ctx) w = []) ∧
  (∀ e, new_events (executor rq ctx) w !! 0%nat = Some e →
        ¬ during_cooldown e).
Proof.
  unfold new_events, after. rewrite executor_spec.
  destruct (seconds (clock w) <? cooldown_until (SETTINGS w)) eqn:E;
    cbn [snd].
  - rewrite drop_all. split; [done|]. intros e He. discriminate He.
  - split; [lia|]. intros e He.
    destruct (executor_loop_two 6 rq ctx w) as (_ & _ & evs & Ht & _).
    unfold after in Ht. change (S (S 6)) with loop_fuel in Ht.
    rewrite Ht, drop_app_length in He. cbn in He. injection He as <-.
    unfold during_cooldown. cbn [ev_time ev_cooldown event_of].
    destruct (issue_world_frame ctx w) as (_ & _ & -> & Hc).
    assert (seconds (clock w) ≤ seconds (clock (issue_world ctx w))).
    { unfold seconds. apply Z.quot_le_mono; lia. }
    lia.
Qed.

End executor_proofs.

Section guard_proofs.
Context `{PyLib}.

Lemma existsb_none {A} (f : A → bool) l :
  (∀ x, x ∈ l → f x = false) → existsb f l = false.
Proof.
  induction l as [|a l IH]; intros Hf; [done|]. cbn.
  rewrite (Hf a) by apply list_elem_of_here. cbn.
  apply IH. intros x Hx. apply Hf. by apply list_elem_of_further.
Qed.

Lemma existsb_some {A} (f : A → bool) l x :
  x ∈ l → f x = true → existsb f l = true.
Proof.
  intros Hx Hf. apply existsb_exists. exists x. split; [|done].
  by apply list_elem_of_In.
Qed.

Lemma guard_spec kind key content W w :
  _recent_content_guard kind key content W w =
    let now := seconds (clock w) in
    let kept := pruned now W (_recent_posts (SETTINGS w)) in
    if existsb (post_matches kind key (_hash_content content)) kept
    then (Ok true, set_SETTINGS (set_recent_posts kept (SETTINGS w)) w)
    else (Ok false,
          set_SETTINGS
            (set_recent_posts (kept ++ [fingerprint kind key content now])
               (SETTINGS w)) w).
Proof.
  unfold _recent_content_guard, pruned, fingerprint. munfold. cbn.
  by destruct (existsb _ _).
Qed.

Lemma fingerprint_matches kind key content content' now :
  py_strip content' = py_strip content →
  post_matches kind key (_hash_content content')
    (fingerprint kind key content now) = true.
Proof.
  intros E. unfold post_matches, fingerprint, _hash_content. cbn.
  rewrite E, !String.eqb_refl. done.
Qed.

(** [strip] at work on whitespace outside ASCII. *)
Lemma py_strip_unicode_space :
  py_strip (nbsp +:+ " Hello world" +:+ ideographic_space) = "Hello world" ∧
  py_strip (String "009"%char nbsp) = "" ∧
  py_strip ("caf" +:+ String "195"%char (String "160"%char EmptyString))
  = "caf" +:+ String "195"%char (String "160"%char EmptyString).
Proof. by vm_compute. Qed.


End guard_proofs.

(** ** Event logs of composed actions *)

Section emits_proofs.
Context `{PyLib}.

Lemma emits_weaken {A} (P Q : event → Prop) (m : M A) :
  (∀ e, P e → Q e) → emits P m → emits Q m.
Proof.
  intros HPQ Hm w. destruct (Hm w) as (evs & Ht & HP).
  exists evs. split; [done|]. eapply Forall_impl; eauto.
Qed.

Lemma emits_silent {A} P (m : M A) :
  (∀ w, trace (after m w) = trace w) → emits P m.
Proof. intros Hm w. exists []. by rewrite Hm, app_nil_r. Qed.

Lemma emits_ret {A} P (a : A) : emits P (mret a).
Proof. by apply emits_silent. Qed.

Lemma emits_lift {A} P (r : res A) : emits P (lift r).
Proof. by apply emits_silent. Qed.

Lemma emits_raise {A} P e : emits P (@raise A e).
Proof. by apply emits_silent. Qed.

Lemma emits_bind {A B} P (m : M A) (f : A → M B) :
  emits P m → (∀ a, emits P (f a)) → emits P (m ≫= f).
Proof.
  intros Hm Hf w. destruct (Hm w) as (evs & Ht & HP).
  unfold after, mbind, M_bind in *.
  destruct (m w) as [[a|e|] w1]; cbn [snd] in *; eauto.
  destruct (Hf a w1) as (evs' & Ht' & HP'). unfold after in Ht'.
  exists (evs ++ evs'). rewrite Ht', Ht, app_assoc. split; [done|].
  by apply Forall_app.
Qed.

Lemma emits_try_except {A} P (m : M A) (h : exn → M A) :
  emits P m → (∀ e, emits P (h e)) → emits P (try_except m h).
Proof.
  intros Hm Hh w. destruct (Hm w) as (evs & Ht & HP).
  unfold after, try_except in *.
  destruct (m w) as [[a|e|] w1]; cbn [snd] in *; eauto.
  destruct (Hh e w1) as (evs' & Ht' & HP'). unfold after in Ht'.
  exists (evs ++ evs'). rewrite Ht', Ht, app_assoc. split; [done|].
  by apply Forall_app.
Qed.

Lemma emits_attempt_once rq ctx a :
  emits (λ e, ev_request e = rq) (attempt_once rq ctx a).
Proof.
  intros w. eexists. split; [apply attempt_once_facts|].
  by apply Forall_singleton.
Qed.

Lemma emits_executor_loop rq ctx fuel : ∀ a,
  emits (λ e, ev_request e = rq) (executor_loop fuel rq ctx a).
Proof.
  induction fuel as [|fuel IH]; intros a; cbn [executor_loop].
  - by apply emits_silent.
  - apply emits_bind; [apply emits_attempt_once|].
    intros [x|]; [apply emits_ret|apply IH].
Qed.

Lemma emits_executor rq ctx :
  emits (λ e, ev_request e = rq) (executor rq ctx).
Proof.
  unfold executor. apply emits_bind.
  - apply emits_silent. intros w. unfold after.
    by rewrite respect_cooldown_spec.
  - intros rem. destruct (0 <? rem); [apply emits_ret|].
    apply emits_executor_loop.
Qed.

Lemma new_events_emits {A} P (m : M A) w e :
  emits P m → e ∈ new_events m w → P e.
Proof.
  intros Hm He. destruct (Hm w) as (evs & Ht & HP).
  unfold new_events in He. rewrite Ht, drop_app_length in He.
  rewrite Forall_forall in HP. by apply HP.
Qed.

(** Frames *)

Lemma keeps_files_bind {A B} (m : M A) (f : A → M B) :
  keeps_files m → (∀ a, keeps_files (f a)) → keeps_files (m ≫= f).
Proof.
  intros Hm Hf w. destruct (Hm w) as (Ht & He & Hg).
  unfold after, mbind, M_bind in *.
  destruct (m w) as [[a|e|] w1]; cbn [snd] in *; eauto.
  destruct (Hf a w1) as (Ht' & He' & Hg'). unfold after in *.
  by rewrite Ht', He', Hg'.
Qed.

Lemma keeps_files_attempt_once rq ctx a : keeps_files (attempt_once rq ctx a).
Proof.
  intros w. unfold after. rewrite attempt_once_spec. cbn zeta.
  assert (Hi : tokens_file (issue_world ctx w) = tokens_file w ∧
               environ (issue_world ctx w) = environ w ∧
               globals (issue_world ctx w) = globals w).
  { unfold issue_world. destruct ctx as [k|]; [destruct (String.eqb k "")|];
      done. }
  destruct Hi as (<- & <- & <-).
  set (wi := issue_world ctx w).
  destruct (upstream wi (length (trace wi))) as [l r|l msg]; [|done].
  destruct (status_code r =? 429).
  - rewrite handle_429_spec. cbn zeta.
    destruct ((a =? 0) && (hint_of r <=? 5)); [|done].
    by destruct (hint_of r <? 0).
  - destruct (400 <=? status_code r); [done|]. by destruct (resp_json r).
Qed.

Lemma keeps_files_executor rq ctx : keeps_files (executor rq ctx).
Proof.
  unfold executor. apply keeps_files_bind.
  - intros w. unfold after. by rewrite respect_cooldown_spec.
  - intros rem. destruct (0 <? rem); [done|].
    generalize 0. induction loop_fuel as [|fuel IH]; intros a; [done|].
    cbn [executor_loop]. apply keeps_files_bind.
    + apply keeps_files_attempt_once.
    + intros [x|]; [done|apply IH].
Qed.

End emits_proofs.

(** ** Credential resolver *)

Section resolver_basics.
Context `{PyLib}.

Lemma env_get_tokens_world w : after _env_get_tokens w = w.
Proof.
  unfold after, _env_get_tokens, try_except, lookup_global. munfold.
  destruct (String.eqb _ ""); [done|].
  destruct (startswith _ "{").
  - unfold loads. destruct (json_loads _); cbn; [done|].
    by destruct (bool_decide _).
  - cbn. by destruct (bool_decide _).
Qed.

(** Text that is not a JSON object makes the lookup of [re] decide. *)
Lemma env_get_tokens_delimited w :
  let raw := py_strip (default "" (environ w !! "PAGE_TOKENS")) in
  raw ≠ "" → startswith raw "{" = false → "re" ∉ globals w →
  _env_get_tokens w = (Raise (NameError "re"), w).
Proof.
  cbn zeta. intros Hne Hstart Hre.
  unfold _env_get_tokens, try_except, lookup_global. munfold.
  destruct (String.eqb_spec (py_strip (default "" (environ w !! "PAGE_TOKENS"))) "");
    [done|].
  rewrite Hstart. cbn. by rewrite bool_decide_false.
Qed.

End resolver_basics.

(** C10 (defect).  With [PAGE_TOKENS="123|EAAB-page-token"] -- the
    delimiter-separated form of the configuration -- resolving page 123
    raises [NameError: name 're' is not defined] instead of returning a
    credential or not-found. *)
Theorem resolve_raises_on_delimited_tokens :
  environ delimited_world !! "PAGE_TOKENS" = Some "123|EAAB-page-token" ∧
  globals delimited_world = module_globals ∧
  get_page_access_token (H := sample_lib) "123" (JStr "user-token")
    delimited_world
  = (Raise (NameError "re"), delimited_world).
Proof.
  split; [done|]. split; [done|].
  unfold get_page_access_token.
  pose proof (env_get_tokens_delimited (H := sample_lib) delimited_world) as E.
  cbn zeta in E. unfold mbind, M_bind. rewrite E; [done|done|done|].
  apply (proj1 (bool_decide_eq_false _)). by vm_compute.
Qed.

Section resolver_proofs.
Context `{PyLib}.

(** What the loop over a [me/accounts] answer collects: only pairs carried
    by an item (or already there), and at least one entry for every id that
    an item carries. *)
Lemma collect_found_pairs items : ∀ acc found,
  collect_found items acc = Ok found →
  (∀ k v, found !! k = Some v →
          acc !! k = Some v ∨ ∃ p, p ∈ items ∧ carries p k v) ∧
  (∀ k, is_Some (acc !! k) → is_Some (found !! k)) ∧
  (∀ p k v, p ∈ items → carries p k v → is_Some (found !! k)).
Proof.
  induction items as [|p items IH]; intros acc found Hc.
  - injection Hc as <-. split; [eauto|]. split; [done|].
    intros p k v Hp. by apply elem_of_nil in Hp.
  - cbn [collect_found] in Hc. unfold mbind, res_bind in Hc.
    destruct p as [| | | | |m]; cbn in Hc; try discriminate.
    set (pid := py_str (default JNull (m !! "id"))) in *.
    set (pat := default JNull (m !! "access_token")) in *.
    destruct (IH _ _ Hc) as (Hfrom & Hkeep & Hall). clear IH.
    destruct (nonempty pid && truthy pat) eqn:Hvalid.
    + apply andb_prop in Hvalid as [Hn Ht].
      assert (carries (JObj m) pid pat) as Hcar
          by (exists m; repeat split; done).
      split; [|split].
      * intros k v Hk. destruct (Hfrom k v Hk) as [Ha|(p & Hp & Hcp)].
        -- destruct (decide (pid = k)) as [<-|Hne].
           ++ rewrite lookup_insert_eq in Ha. injection Ha as <-.
              right. exists (JObj m). split; [apply list_elem_of_here|done].
           ++ rewrite lookup_insert_ne in Ha by done. by left.
        -- right. exists p. split; [by apply list_elem_of_further|done].
      * intros k Hk. apply Hkeep. destruct (decide (pid = k)) as [<-|Hne].
        -- rewrite lookup_insert_eq. eauto.
        -- by rewrite lookup_insert_ne.
      * intros p k v Hp Hcp. apply elem_of_cons in Hp as [->|Hp].
        -- destruct Hcp as (m' & Hm' & Hk & _). injection Hm' as <-.
           apply Hkeep. fold pid in Hk. subst k.
           rewrite lookup_insert_eq. eauto.
        -- eapply Hall; eauto.
    + split; [|split].
      * intros k v Hk. destruct (Hfrom k v Hk) as [Ha|(p & Hp & Hcp)];
          [by left|].
        right. exists p. split; [by apply list_elem_of_further|done].
      * done.
      * intros p k v Hp Hcp. apply elem_of_cons in Hp as [->|Hp].
        -- destruct Hcp as (m' & Hm' & Hk & Hv & Hn & Ht).
           injection Hm' as <-. fold pid in Hk. fold pat in Hv.
           subst k v. rewrite Hn, Ht in Hvalid. discriminate.
        -- eapply Hall; eauto.
Qed.

(** The resolver, once the environment has been read without a fault and
    the persisted document is a JSON object. *)
Lemma resolve_spec page_id user_token w mp loose doc pages :
  _env_get_tokens w = (Ok (mp, loose), w) →
  stored_doc w = Some doc → pages_of doc = Some pages →
  get_page_access_token page_id user_token w =
    match mp !! page_id with
    | Some tok => (Ok (JStr tok), w)
    | None =>
        match pages !! page_id with
        | Some v => (Ok v, w)
        | None =>
            let '(out, w1) := discovery user_token w in
            match out with
            | Ok (JObj dm, st) =>
                if st =? 200 then
                  match py_iter (default (JArr []) (dm !! "data"))
                        ≫= (λ items, collect_found items ∅) with
                  | Ok found =>
                      (Ok (default JNull (found !! page_id)),
                       if Nat.eqb (size found) 0 then w1
                       else set_tokens_file
                              (Holds (JObj (<["pages" := JObj found]> doc)))
                              w1)
                  | Raise e => (Raise e, w1)
                  | Diverge => (Diverge, w1)
                  end
                else (Ok JNull, w1)
            | Ok (_, st) => (Ok JNull, w1)
            | Raise e => (Raise e, w1)
            | Diverge => (Diverge, w1)
            end
        end
    end.
Proof.
  intros Henv Hdoc Hpages. unfold get_page_access_token.
  rewrite (bind_ok _ _ _ _ _ Henv).
  destruct (mp !! page_id) as [tok|]; [done|].
  assert (Hload : load_tokens w = (Ok (JObj doc), w)).
  { unfold load_tokens, stored_doc in *.
    destruct (tokens_file w) as [| |[| | | | |m]]; try done; congruence. }
  rewrite (bind_ok _ _ _ _ _ Hload). unfold lift at 1.
  cbn [py_get]. unfold mbind at 1, M_bind at 1.
  assert (Hin : py_in page_id (py_or (default JNull (doc !! "pages")) (JObj ∅))
                = Ok (bool_decide (is_Some (pages !! page_id))) ∧
                (∀ v, pages !! page_id = Some v →
                      py_getitem
                        (py_or (default JNull (doc !! "pages")) (JObj ∅))
                        page_id = Ok v)).
  { unfold pages_of in Hpages. unfold py_or.
    destruct (doc !! "pages") as [j|]; cbn.
    - destruct j as [|b|z|s|l|p]; cbn in *.
      + injection Hpages as <-. split; [done|]. intros v Hv.
        by rewrite lookup_empty in Hv.
      + destruct b; [done|]. injection Hpages as <-. split; [done|].
        intros v Hv. by rewrite lookup_empty in Hv.
      + destruct (z =? 0); [|done]. injection Hpages as <-. split; [done|].
        intros v Hv. by rewrite lookup_empty in Hv.
      + destruct (String.eqb s ""); [|done]. injection Hpages as <-.
        split; [done|]. intros v Hv. by rewrite lookup_empty in Hv.
      + destruct l; [|done]. injection Hpages as <-. split; [done|].
        intros v Hv. by rewrite lookup_empty in Hv.
      + injection Hpages as <-.
        destruct (Nat.eqb (size p) 0) eqn:Hs; cbn.
        * apply Nat.eqb_eq, map_size_empty_iff in Hs. subst p.
          split; [done|]. intros v Hv. by rewrite lookup_empty in Hv.
        * split; [done|]. intros v ->. done.
    - injection Hpages as <-. split; [done|]. intros v Hv.
      by rewrite lookup_empty in Hv. }
  destruct Hin as [Hin Hget]. unfold discovery.
  unfold lift, mbind, M_bind, mret, M_ret, save_tokens. rewrite Hin.
  destruct (pages !! page_id) as [v|] eqn:Hp.
  - rewrite bool_decide_true by eauto. by rewrite (Hget v).
  - rewrite bool_decide_false by (intros [? ?]; done).
    destruct (graph_get _ _ _ _ w) as [[[data st]|e|] w1]; [|done..].
    destruct data as [| | | | |dm]; cbn [is_dict]; rewrite ?andb_false_r;
      try done.
    rewrite andb_true_r. destruct (st =? 200); [|done].
    cbn [py_get]. unfold res_bind.
    destruct (py_iter (default (JArr []) (dm !! "data"))) as [items| |];
      [|done..].
    destruct (collect_found items ∅) as [found| |]; [|done..].
    cbn [set_pages]. by destruct (Nat.eqb (size found) 0).
Qed.

Lemma emits_resolve page_id user_token :
  emits (λ e, ev_request e = discovery_request user_token)
    (get_page_access_token page_id user_token).
Proof.
  unfold get_page_access_token. apply emits_bind.
  { apply emits_silent. intros w. by rewrite env_get_tokens_world. }
  intros [mp loose]. destruct (mp !! page_id); [apply emits_ret|].
  apply emits_bind.
  { apply emits_silent. intros w. unfold after, load_tokens.
    by destruct (tokens_file w). }
  intros store. apply emits_bind; [apply emits_lift|]. intros p.
  apply emits_bind; [apply emits_lift|]. intros [|]; [apply emits_lift|].
  apply emits_bind; [apply emits_executor|].
  intros [data st]. destruct ((st =? 200) && is_dict data); [|apply emits_ret].
  apply emits_bind; [apply emits_lift|]. intros d.
  apply emits_bind; [apply emits_lift|]. intros items.
  apply emits_bind; [apply emits_lift|]. intros found.
  apply emits_bind; [|intros; apply emits_ret].
  destruct (negb _); [|apply emits_ret].
  apply emits_bind; [apply emits_lift|]. intros store'. by apply emits_silent.
Qed.

(** The order of the resolver.  Once the environment has been read without
    a fault and the token file holds a JSON object, the resolver tries the
    environment map, then the persisted page mapping, then live discovery,
    and returns the first hit: a hit in the environment map or in the store
    is returned without any network call or write; otherwise the answer of
    [me/accounts] decides, with not-found ([None]) when it fails or does not
    list the page.  Whatever the configuration, the resolver sends nothing
    but [me/accounts] calls. *)
Theorem resolve_precedence page_id user_token w :
  let resolve := get_page_access_token page_id user_token in
  (∀ e, e ∈ new_events resolve w →
        rq_url (ev_request e) = GRAPH_BASE +:+ "/me/accounts") ∧
  ∀ mp loose doc pages,
    _env_get_tokens w = (Ok (mp, loose), w) →
    stored_doc w = Some doc → pages_of doc = Some pages →
    (∀ tok, mp !! page_id = Some tok → resolve w = (Ok (JStr tok), w)) ∧
    (mp !! page_id = None →
     ∀ v, pages !! page_id = Some v → resolve w = (Ok v, w)) ∧
    (mp !! page_id = None → pages !! page_id = None →
     (∀ dm items found,
        (discovery user_token w).1 = Ok (JObj dm, 200) →
        py_iter (default (JArr []) (dm !! "data")) = Ok items →
        collect_found items ∅ = Ok found →
        (resolve w).1 = Ok (default JNull (found !! page_id))) ∧
     (∀ data st,
        (discovery user_token w).1 = Ok (data, st) →
        st ≠ 200 ∨ is_dict data = false →
        (resolve w).1 = Ok JNull)).
Proof.
  cbn zeta. split.
  { intros e He.
    by rewrite (new_events_emits _ _ _ _ (emits_resolve _ _) He). }
  intros mp loose doc pages Henv Hdoc Hpages.
  rewrite (resolve_spec _ _ _ _ _ _ _ Henv Hdoc Hpages).
  split; [by intros tok ->|]. split; [by intros -> v ->|].
  intros -> ->. split.
  - intros dm items found Hd Hi Hc.
    destruct (discovery user_token w) as [out w1]. cbn [fst] in Hd. subst out.
    cbn [Z.eqb Pos.eqb]. rewrite Hi. unfold mbind, res_bind. by rewrite Hc.
  - intros data st Hd Hbad.
    destruct (discovery user_token w) as [out w1]. cbn [fst] in Hd. subst out.
    destruct data as [| | | | |dm]; try done.
    destruct Hbad as [Hst|Hdict]; [|done].
    destruct (Z.eqb_spec st 200); done.
Qed.

(** C6, as the code has it.  When live discovery succeeds and its answer
    carries at least one pair, the persisted page mapping is replaced by the
    pairs collected from the answer and the document is written back with
    its other entries unchanged; every collected pair is carried by an item
    of the answer and every id carried by an item has an entry.  When the
    answer carries no pair, the file is not written. *)
Theorem discovery_replaces_pages page_id user_token w mp loose doc pages dm
    items found :
  _env_get_tokens w = (Ok (mp, loose), w) → mp !! page_id = None →
  stored_doc w = Some doc → pages_of doc = Some pages →
  pages !! page_id = None →
  (discovery user_token w).1 = Ok (JObj dm, 200) →
  py_iter (default (JArr []) (dm !! "data")) = Ok items →
  collect_found items ∅ = Ok found →
  let w' := after (get_page_access_token page_id user_token) w in
  (found ≠ ∅ →
   tokens_file w' = Holds (JObj (<["pages" := JObj found]> doc)) ∧
   pages_of (<["pages" := JObj found]> doc) = Some found ∧
   ∀ k, k ≠ "pages" → (<["pages" := JObj found]> doc) !! k = doc !! k) ∧
  (found = ∅ → tokens_file w' = tokens_file w) ∧
  (∀ k v, found !! k = Some v → ∃ p, p ∈ items ∧ carries p k v) ∧
  (∀ p k v, p ∈ items → carries p k v → is_Some (found !! k)).
Proof.
  intros Henv Hmp Hdoc Hpages Hp Hd Hi Hc. cbn zeta. unfold after.
  rewrite (resolve_spec _ _ _ _ _ _ _ Henv Hdoc Hpages), Hmp, Hp.
  pose proof (keeps_files_executor
                {| rq_method := GET;
                   rq_url := GRAPH_BASE +:+ "/" +:+ "me/accounts";
                   rq_headers := bearer user_token;
                   rq_payload := Query {["limit" := JInt 200]};
                   rq_timeout := 60 |} None w) as (Hfile & _).
  unfold after in Hfile. unfold discovery, graph_get in *.
  destruct (executor _ _ w) as [out w1]. cbn [fst snd] in *. subst out.
  cbn [Z.eqb Pos.eqb]. rewrite Hi. unfold mbind, res_bind. rewrite Hc.
  cbn [snd].
  destruct (collect_found_pairs _ _ _ Hc) as (Hfrom & _ & Hall).
  split; [|split; [|split]].
  - intros Hne.
    assert (Nat.eqb (size found) 0 = false) as ->.
    { apply Nat.eqb_neq. by intros ?%map_size_empty_iff. }
    split; [done|]. split.
    + unfold pages_of. by rewrite lookup_insert_eq.
    + intros k Hk. by rewrite lookup_insert_ne.
  - intros ->. by rewrite map_size_empty.
  - intros k v Hk. destruct (Hfrom k v Hk) as [Hin|]; [|done].
    by rewrite lookup_empty in Hin.
  - done.
Qed.

End resolver_proofs.

(** C5 (defect).  With the loose credential [tokLoose] configured and a
    network that would identify it as the credential of page 42, resolving
    page 42 raises [NameError: name 're' is not defined]: the configuration
    is read before any source is tried, and reading a loose credential
    needs [re].  No source is tried and nothing is sent. *)
Theorem resolve_raises_on_loose_token :
  environ loose_world !! "PAGE_TOKENS" = Some "tokLoose" ∧
  globals loose_world = module_globals ∧
  (∀ n, upstream loose_world n = Replies 50 identity_response) ∧
  get_page_access_token (H := sample_lib) "42" (JStr "master") loose_world
  = (Raise (NameError "re"), loose_world).
Proof.
  split; [done|]. split; [done|]. split; [done|].
  unfold get_page_access_token.
  pose proof (env_get_tokens_delimited (H := sample_lib) loose_world) as E.
  cbn zeta in E. unfold mbind, M_bind. rewrite E; [done|done|done|].
  apply (proj1 (bool_decide_eq_false _)). by vm_compute.
Qed.

(** C6 (counterexample).  The token file holds the credential of page 111;
    page 222 is resolved through discovery, whose answer lists page 222
    only.  Afterwards the file holds page 222 and no longer page 111. *)
Lemma discovery_drops_stored_pair :
  let resolve := get_page_access_token (H := sample_lib) "222" (JStr "master") in
  (stored_doc cached_world ≫= pages_of) = Some {["111" := JStr "tokA"]} ∧
  (resolve cached_world).1 = Ok (JStr "tokB") ∧
  (stored_doc (after resolve cached_world) ≫= pages_of)
    = Some {["222" := JStr "tokB"]} ∧
  ∀ pages, (stored_doc (after resolve cached_world) ≫= pages_of) = Some pages →
           pages !! "111" = None.
Proof.
  cbn zeta.
  assert (E : (stored_doc
                 (after (get_page_access_token (H := sample_lib) "222"
                           (JStr "master")) cached_world) ≫= pages_of)
              = Some {["222" := JStr "tokB"]}) by (vm_compute; reflexivity).
  split; [vm_compute; reflexivity|]. split; [vm_compute; reflexivity|].
  split; [done|]. intros pages Hp. rewrite E in Hp. injection Hp as <-.
  done.
Qed.

(** ** Reel upload *)

Section reel_proofs.
Context `{PyLib}.

Lemma reel_transfer_spec page_token video_id data_bytes w :
  let wt := throttled "global" w in
  let rqT := transfer_request page_token video_id data_bytes in
  reel_transfer page_token video_id data_bytes w =
    match upstream wt (length (trace wt)) with
    | Breaks _ msg =>
        (Ok (Some (failure "REELS_RUPLOAD_EXCEPTION" (JStr msg), 500)),
         exchanged rqT wt)
    | Replies _ ru =>
        if 400 <=? status_code ru
        then (Ok (Some (transfer_failure ru)), exchanged rqT wt)
        else (Ok None, exchanged rqT wt)
    end.
Proof.
  cbn zeta. unfold reel_transfer, try_except.
  rewrite (bind_ok _ _ _ _ _ (wait_throttle_spec "global" w)).
  set (wt := throttled "global" w).
  unfold mbind, M_bind, http_exchange.
  fold (transfer_request page_token video_id data_bytes).
  fold (event_of (transfer_request page_token video_id data_bytes) wt).
  fold (exchanged (transfer_request page_token video_id data_bytes) wt).
  destruct (upstream wt (length (trace wt))) as [l ru|l msg]; [|done].
  destruct (400 <=? status_code ru); [|done].
  unfold r_json, transfer_failure. munfold. by destruct (resp_json ru).
Qed.

Lemma phased_of_emits m : emits quiet m → phased m.
Proof.
  intros Hm w. destruct (Hm w) as (evs & Ht & Hq).
  exists evs. split; [done|]. by left.
Qed.

Lemma phased_bind {A} (m : M A) (f : A → M (json * Z)) :
  emits quiet m → (∀ a, phased (f a)) → phased (m ≫= f).
Proof.
  intros Hm Hf w. destruct (Hm w) as (evs & Ht & Hq).
  unfold after, mbind, M_bind in *.
  destruct (m w) as [[a|e|] w1]; cbn [fst snd] in *;
    [|exists evs; split; [done|by left]..].
  destruct (Hf a w1) as (evs' & Ht' & Hfin). unfold after in Ht'.
  exists (evs ++ evs'). rewrite Ht', Ht, app_assoc. split; [done|].
  destruct Hfin as [Hq'|(evs0 & eT & evs1 & -> & Hq0 & HT & Hq1 & Hlast)].
  - left. by apply Forall_app.
  - right. exists (evs ++ evs0), eT, evs1. rewrite app_assoc.
    split; [done|]. split; [by apply Forall_app|]. done.
Qed.

Lemma quiet_discovery user_token e :
  ev_request e = discovery_request user_token → quiet e.
Proof.
  intros He. unfold quiet, is_transfer, is_finish. rewrite He. cbn. tauto.
Qed.

Lemma emits_graph_get P path params token ctx :
  (∀ e, (if rq_payload (ev_request e) is Query _ then True else False) → P e) →
  emits P (graph_get path params token ctx).
Proof.
  intros HP. eapply emits_weaken; [|apply emits_executor].
  intros e He. apply HP. by rewrite He.
Qed.

Lemma emits_load_tokens P : emits P load_tokens.
Proof.
  apply emits_silent. intros w. unfold after, load_tokens.
  by destruct (tokens_file w).
Qed.

(** The finish phase and the permalink lookup never send a transfer. *)
Lemma emits_after_transfer page_id page_token video_id desc :
  emits (λ e, ¬ is_transfer (ev_request e))
    ('(fin_res, st3) ← reels_finish page_id page_token video_id desc;
     if negb (st3 =? 200)
     then mret (failure "REELS_FINISH_FAILED" fin_res, st3)
     else
       fin_res' ← reel_permalink page_id page_token video_id fin_res;
       mret (fin_res', 200)).
Proof.
  apply emits_bind.
  { eapply emits_weaken; [|apply emits_executor]. intros e ->. cbn. tauto. }
  intros [fin_res st3]. destruct (negb _); [apply emits_ret|].
  apply emits_bind; [|intros; apply emits_ret].
  unfold reel_permalink. apply emits_try_except; [|intros; apply emits_ret].
  apply emits_bind; [apply emits_lift|]. intros v.
  apply emits_bind.
  { apply emits_graph_get. intros e He Ht. unfold is_transfer in Ht.
    by destruct (rq_payload (ev_request e)). }
  intros [d2 s2]. destruct (_ && _); [|apply emits_ret].
  apply emits_bind; [apply emits_lift|]. intros link.
  destruct (truthy link); [|apply emits_ret].
  destruct fin_res; first [apply emits_ret|apply emits_raise].
Qed.

(** From the transfer on: lines 1284-1301. *)
Lemma phased_from_transfer page_id page_token video_id data_bytes desc :
  phased
    (early ← reel_transfer page_token video_id data_bytes;
     match early with
     | Some result => mret result
     | None =>
         '(fin_res, st3) ← reels_finish page_id page_token video_id desc;
         if negb (st3 =? 200)
         then mret (failure "REELS_FINISH_FAILED" fin_res, st3)
         else
           fin_res' ← reel_permalink page_id page_token video_id fin_res;
           mret (fin_res', 200)
     end).
Proof.
  intros w. unfold after. rewrite bind_unfold.
  rewrite reel_transfer_spec. cbn zeta.
  set (wt := throttled "global" w).
  set (rqT := transfer_request page_token video_id data_bytes).
  assert (HeT : is_transfer (ev_request (event_of rqT wt))) by done.
  assert (Hout : ∀ l' ru', ev_outcome (event_of rqT wt) = Replies l' ru' →
                           upstream wt (length (trace wt)) = Replies l' ru')
    by done.
  destruct (upstream wt (length (trace wt))) as [l ru|l msg] eqn:Hup.
  - destruct (400 <=? status_code ru) eqn:Hst.
    + exists [event_of rqT wt]. split; [done|]. right.
      exists [], (event_of rqT wt), [].
      split; [done|]. split; [done|]. split; [done|]. split; [done|].
      intros l' ru' Ho _. apply Hout in Ho. by injection Ho as _ <-.
    + pose proof (emits_after_transfer page_id page_token video_id desc
                    (exchanged rqT wt)) as (evs1 & Ht1 & Hq1).
      unfold after in Ht1.
      exists (event_of rqT wt :: evs1). split.
      { rewrite Ht1. cbn. by rewrite <- app_assoc. }
      right. exists [], (event_of rqT wt), evs1.
      split; [done|]. split; [done|]. split; [done|]. split; [done|].
      intros l' ru' Ho Hs. apply Hout in Ho. injection Ho as _ <-. lia.
  - exists [event_of rqT wt]. split; [done|]. right.
    exists [], (event_of rqT wt), [].
    split; [done|]. split; [done|]. split; [done|]. split; [done|].
    intros l' ru' Ho _. apply Hout in Ho. discriminate Ho.
Qed.

Lemma phased_api_post_reel page_id rq : phased (api_post_reel page_id rq).
Proof.
  unfold api_post_reel. apply phased_bind.
  { destruct (truthy _); [apply emits_ret|].
    apply emits_bind; [apply emits_load_tokens|]. intros store.
    apply emits_bind; [apply emits_lift|]. intros ul. apply emits_lift. }
  intros token. destruct (negb (truthy token)).
  { apply phased_of_emits, emits_ret. }
  apply phased_bind.
  { eapply emits_weaken; [apply quiet_discovery|apply emits_resolve]. }
  intros page_token. destruct (negb (truthy page_token)).
  { apply phased_of_emits, emits_ret. }
  destruct (files_video rq) as [data_bytes|];
    [|apply phased_of_emits, emits_ret].
  apply phased_bind.
  { eapply emits_weaken; [|apply emits_executor].
    intros e He. unfold quiet, is_transfer, is_finish. rewrite He. cbn.
    split; [tauto|]. by rewrite lookup_singleton_eq. }
  intros [start_res st1].
  destruct (_ || _); [apply phased_of_emits, emits_ret|].
  apply phased_bind; [apply emits_lift|]. intros video_id.
  apply phased_from_transfer.
Qed.

(** C8.  If, in a run of the reel handler, the binary transfer is answered
    with a status from 400, the handler answers [REELS_RUPLOAD_FAILED] with
    that status (and the body of the answer as detail), the transfer is the
    last call of the run, and no finish call is sent in it. *)
Theorem failed_transfer_ends_upload page_id rq w e l ru :
  let handler := api_post_reel page_id rq in
  e ∈ new_events handler w →
  is_transfer (ev_request e) →
  ev_outcome e = Replies l ru →
  400 ≤ status_code ru →
  (handler w).1 =
    Ok (failure "REELS_RUPLOAD_FAILED"
          (default (JStr (resp_text ru)) (resp_json ru)), status_code ru) ∧
  (∀ e', e' ∈ new_events handler w → ¬ is_finish (ev_request e')) ∧
  last (new_events handler w) = Some e.
Proof.
  cbn zeta. intros He HT Hout Hst.
  destruct (phased_api_post_reel page_id rq w) as (evs & Ht & Hfin).
  unfold new_events in *. rewrite Ht, drop_app_length in *.
  destruct Hfin as [Hq|(evs0 & eT & evs1 & -> & Hq0 & HeT & Hq1 & Hlast)].
  { rewrite Forall_forall in Hq. by destruct (Hq e He). }
  rewrite Forall_forall in Hq0, Hq1.
  assert (e = eT) as ->.
  { apply elem_of_app in He as [He|He]; [by destruct (Hq0 e He)|].
    apply elem_of_cons in He as [->|He]; [done|]. by destruct (Hq1 e He). }
  destruct (Hlast l ru Hout Hst) as [-> Hres].
  split; [done|]. split.
  - intros e' [He'|He']%elem_of_app; [by apply Hq0|].
    apply list_elem_of_singleton in He' as ->.
    unfold is_transfer, is_finish in *.
    destruct (rq_payload (ev_request eT)); tauto.
  - by rewrite last_snoc.
Qed.

End reel_proofs.

(** ** The theorems at work on sample runs *)

(** C1 at work: entered 100 seconds before the cooldown ends, the three
    executors answer [RATE_LIMIT] with 100 and send nothing. *)
Lemma cooldown_short_circuit_witness :
  0 < 100 ∧
  graph_get (H := sample_lib) "me" ∅ (JStr "tok") None cooling_world
    = (Ok (rate_limit 100, 429), cooling_world) ∧
  graph_post (H := sample_lib) "1/feed" ∅ (JStr "tok") None cooling_world
    = (Ok (rate_limit 100, 429), cooling_world) ∧
  graph_post_multipart (H := sample_lib) "1/photos" ∅ ∅ (JStr "tok") None
    cooling_world
    = (Ok (rate_limit 100, 429), cooling_world) ∧
  new_events (graph_get (H := sample_lib) "me" ∅ (JStr "tok") None)
    cooling_world = [] ∧
  new_events (graph_post (H := sample_lib) "1/feed" ∅ (JStr "tok") None)
    cooling_world = [] ∧
  new_events
    (graph_post_multipart (H := sample_lib) "1/photos" ∅ ∅ (JStr "tok") None)
    cooling_world = [].
Proof.
  pose proof (cooldown_short_circuit (H := sample_lib) "me" ∅ ∅ ∅ ∅
                (JStr "tok") None cooling_world) as Hcool.
  assert (Hrem : cooldown_until (SETTINGS cooling_world)
                 - seconds (clock cooling_world) = 100)
    by (vm_compute; reflexivity).
  cbn zeta in Hcool. rewrite Hrem in Hcool. apply Hcool.
  vm_compute. reflexivity.
Defined.

(** C2 (counterexample).  A first attempt answered 429 without a
    [Retry-After] header: the hint the code reads is 0, not 300, and the call
    is retried after one second instead of being answered with
    [RATE_LIMIT]. *)
Lemma absent_retry_after_is_retried :
  let call := graph_post (H := sample_lib) "1/feed" ∅ (JStr "tok") None in
  upstream bare_429_world 0 = Replies 50 bare_429 ∧
  header bare_429 "Retry-After" = None ∧
  (retry_after_hint bare_429 bare_429_world).1 = Ok 0 ∧
  (call bare_429_world).1 = Ok (JObj ∅, 200) ∧
  (call bare_429_world).1 ≠ Ok (rate_limit 300, 429) ∧
  length (new_events call bare_429_world) = 2%nat.
Proof.
  cbn zeta.
  assert (E : (graph_post (H := sample_lib) "1/feed" ∅ (JStr "tok") None
                 bare_429_world).1 = Ok (JObj ∅, 200))
    by (vm_compute; reflexivity).
  split; [done|]. split; [done|]. split; [done|]. split; [done|].
  split; [|vm_compute; reflexivity].
  rewrite E. intros [=].
Qed.

(** C2 at work: a first attempt answered 429 with [Retry-After: 3] is
    repeated once, three seconds later, and the call returns what the
    second attempt returns. *)
Lemma upstream_429_handling_witness :
  ∃ w2,
    graph_get (H := sample_lib) "me" ∅ (JStr "tok") None short_429_world
      = (Ok (JObj ∅, 200), w2) ∧
    length (trace w2) = 2%nat.
Proof.
  pose proof (upstream_429_handling (H := sample_lib)
                {| rq_method := GET; rq_url := GRAPH_BASE +:+ "/" +:+ "me";
                   rq_headers := bearer (H := sample_lib) (JStr "tok");
                   rq_payload := Query ∅; rq_timeout := 60 |}
                None short_429_world) as (_ & _ & _ & _ & Hretry).
  destruct (Hretry 50%N short_429) as (_ & _ & Hshort & _).
  - vm_compute. discriminate.
  - reflexivity.
  - reflexivity.
  - destruct Hshort as (_ & x & w2 & Hsecond & Hcall & Htrace).
    + vm_compute. split; discriminate.
    + exists w2. split.
      * unfold graph_get. rewrite Hcall. f_equal. f_equal.
        assert (Some x = Some (JObj ∅, 200)) as [= ->]; [|done].
        transitivity
          (match (graph_get (H := sample_lib) "me" ∅ (JStr "tok") None
                    short_429_world).1 with
           | Ok y => Some y
           | _ => None
           end).
        -- unfold graph_get. by rewrite Hcall.
        -- vm_compute. reflexivity.
      * rewrite Htrace. reflexivity.
Defined.

(** C3 at work: a response whose [X-App-Usage] reports 95 percent moves the
    deadline of the fresh process to 300 seconds from now. *)
Lemma usage_tracker_rule_witness :
  header_top (H := sample_lib) app_usage_response "x-app-usage" = Some 95 ∧
  cooldown_until
    (SETTINGS
       (after (_update_usage_and_cooldown (H := sample_lib) app_usage_response)
          fresh_world))
  = seconds (clock fresh_world) + 300.
Proof.
  pose proof (usage_tracker_rule (H := sample_lib) app_usage_response
                fresh_world) as (_ & Hcool & _ & _ & Htop & _).
  split.
  - apply (Htop "x-app-usage" usage_95_text
             (<["call_count" := JInt 95]>
                (<["total_time" := JInt 20]> {["total_cputime" := JInt 10]}))
             95 20 10); reflexivity.
  - rewrite Hcool. vm_compute. reflexivity.
Defined.

(** The order of the resolver at work: page 111 is in the token file and
    not in the environment map, so its stored credential is returned and
    nothing is sent. *)
Lemma resolve_precedence_witness :
  get_page_access_token (H := sample_lib) "111" (JStr "master") cached_world
  = (Ok (JStr "tokA"), cached_world).
Proof.
  pose proof (resolve_precedence (H := sample_lib) "111" (JStr "master")
                cached_world) as (_ & Hsteps).
  destruct (Hsteps ∅ [] {["pages" := JObj {["111" := JStr "tokA"]}]}
              {["111" := JStr "tokA"]}) as (_ & Hstore & _).
  - vm_compute. reflexivity.
  - reflexivity.
  - reflexivity.
  - apply Hstore; reflexivity.
Defined.

(** C6 at work: resolving page 222 through discovery rewrites the token
    file with the page mapping of the answer. *)
Lemma discovery_replaces_pages_witness :
  tokens_file
    (after (get_page_access_token (H := sample_lib) "222" (JStr "master"))
       cached_world)
  = Holds (JObj (<["pages" := JObj {["222" := JStr "tokB"]}]>
                   {["pages" := JObj {["111" := JStr "tokA"]}]})).
Proof.
  pose proof (discovery_replaces_pages (H := sample_lib) "222" (JStr "master")
                cached_world ∅ []
                {["pages" := JObj {["111" := JStr "tokA"]}]}
                {["111" := JStr "tokA"]}
                {["data" :=
                    JArr [JObj (<["id" := JStr "222"]>
                                  {["access_token" := JStr "tokB"]})]]}
                [JObj (<["id" := JStr "222"]> {["access_token" := JStr "tokB"]})]
                {["222" := JStr "tokB"]}) as Hrepl.
  destruct Hrepl as ((Hfile & _) & _).
  - vm_compute. reflexivity.
  - reflexivity.
  - reflexivity.
  - reflexivity.
  - reflexivity.
  - vm_compute. reflexivity.
  - reflexivity.
  - vm_compute. reflexivity.
  - intros Hempty. apply (f_equal (λ m : gmap string json, m !! "222")) in Hempty.
    vm_compute in Hempty. discriminate Hempty.
  - exact Hfile.
Defined.


(** C8 at work: the start call succeeds, the transfer is refused with 503;
    the handler answers with the transfer failure and the transfer is its
    last call. *)
Lemma failed_transfer_ends_upload_witness :
  (api_post_reel (H := sample_lib) "9" upload_request upload_world).1 =
    Ok (failure "REELS_RUPLOAD_FAILED" (JStr "Service Unavailable"), 503) ∧
  (∀ e', e' ∈ new_events (api_post_reel (H := sample_lib) "9" upload_request)
                 upload_world →
         ¬ is_finish (ev_request e')) ∧
  last (new_events (api_post_reel (H := sample_lib) "9" upload_request)
          upload_world) = Some refused_transfer.
Proof.
  apply (failed_transfer_ends_upload (H := sample_lib) "9" upload_request
           upload_world refused_transfer 50%N refusal).
  - apply (list_elem_of_lookup_2 _ 1%nat). vm_compute. reflexivity.
  - exact I.
  - reflexivity.
  - vm_compute. discriminate.
Defined.

(** C9 (counterexample).  Two outgoing calls attempted while the cooldown
    was running: the retry that follows a 429 with [Retry-After: 3], sent 117
    seconds before the deadline that this 429 has just set; and the binary
    transfer of a reel, sent after the answer to the start call has put the
    process in a 300-second cooldown. *)
Lemma calls_sent_during_cooldown :
  (∃ e,
     new_events (graph_get (H := sample_lib) "me" ∅ (JStr "tok") None)
       short_429_world !! 1%nat = Some e ∧
     during_cooldown e) ∧
  (∃ e,
     new_events (api_post_reel (H := sample_lib) "9" upload_request)
       hot_upload_world !! 1%nat = Some e ∧
     is_transfer (ev_request e) ∧ during_cooldown e).
Proof.
  split.
  - assert (E : (λ e, (ev_time e, ev_cooldown e)) <$>
                (new_events (graph_get (H := sample_lib) "me" ∅ (JStr "tok")
                               None) short_429_world !! 1%nat)
                = Some (1700000003050, 1700000120))
      by (vm_compute; reflexivity).
    destruct (new_events _ short_429_world !! 1%nat) as [e|];
      [|discriminate E].
    exists e. split; [done|]. injection E as Et Ec.
    unfold during_cooldown. rewrite Et, Ec. vm_compute. reflexivity.
  - assert (E : (λ e, (ev_time e, ev_cooldown e,
                       if rq_payload (ev_request e) is Bytes _ then true
                       else false)) <$>
                (new_events (api_post_reel (H := sample_lib) "9"
                               upload_request) hot_upload_world !! 1%nat)
                = Some (1700000002000, 1700000301, true))
      by (vm_compute; reflexivity).
    destruct (new_events _ hot_upload_world !! 1%nat) as [e|];
      [|discriminate E].
    exists e. split; [done|]. injection E as Et Ec Eb.
    unfold during_cooldown, is_transfer. rewrite Et, Ec.
    destruct (rq_payload (ev_request e)); try discriminate Eb.
    split; [exact I|]. vm_compute. reflexivity.
Qed.

(** C9 at work: the first call of an executor entered on the fresh process
    is not sent during a cooldown. *)
Lemma cooldown_checked_on_entry_witness :
  match new_events (graph_get (H := sample_lib) "me" ∅ (JStr "tok") None)
          short_429_world !! 0%nat with
  | Some e => ¬ during_cooldown e
  | None => False
  end.
Proof.
  pose proof (cooldown_checked_on_entry (H := sample_lib)
                {| rq_method := GET; rq_url := GRAPH_BASE +:+ "/" +:+ "me";
                   rq_headers := bearer (H := sample_lib) (JStr "tok");
                   rq_payload := Query ∅; rq_timeout := 60 |}
                None short_429_world) as (_ & Hfirst).
  fold (graph_get (H := sample_lib) "me" ∅ (JStr "tok") None) in Hfirst.
  destruct (new_events _ short_429_world !! 0%nat) as [e|] eqn:E.
  - by apply Hfirst.
  - vm_compute in E. discriminate E.
Defined.

(** ** Further properties of the executors *)

Section executor_outcomes.
Context `{PyLib}.

Lemma executor_first_attempt rq ctx w x w1 :
  cooldown_until (SETTINGS w) ≤ seconds (clock w) →
  attempt_once rq ctx 0 w = (Ok (Return x), w1) →
  executor rq ctx w = (Ok x, w1).
Proof.
  intros Hcool Ha. rewrite executor_spec.
  assert ((seconds (clock w) <? cooldown_until (SETTINGS w)) = false) as ->
    by lia.
  unfold loop_fuel. by rewrite executor_loop_S, Ha.
Qed.

Lemma issue_world_upstream ctx w :
  upstream (issue_world ctx w) (length (trace (issue_world ctx w)))
  = upstream w (length (trace w)).
Proof. by destruct (issue_world_frame ctx w) as (-> & -> & _). Qed.

Lemma seconds_mono a b : a ≤ b → seconds a ≤ seconds b.
Proof. intros Hab. unfold seconds. apply Z.quot_le_mono; lia. Qed.

Lemma exchanged_clock rq w : clock w ≤ clock (exchanged rq w).
Proof.
  cbn. unfold latency_of. destruct (upstream w (length (trace w))); lia.
Qed.

Lemma exchange_time rq ctx w :
  clock w ≤ clock (exchanged rq (issue_world ctx w)).
Proof.
  destruct (issue_world_frame ctx w) as (_ & _ & _ & Hclk).
  pose proof (exchanged_clock rq (issue_world ctx w)). lia.
Qed.

(** X1.  A transport failure ends the call at once: the executor answers
    [{"error": message}] with status 500 after that single exchange, without
    a retry and without touching the cooldown. *)
Theorem executor_transport_failure rq ctx w l msg :
  cooldown_until (SETTINGS w) ≤ seconds (clock w) →
  upstream w (length (trace w)) = Breaks l msg →
  executor rq ctx w
    = (Ok (error_obj (JStr msg), 500), exchanged rq (issue_world ctx w)) ∧
  new_events (executor rq ctx) w = [event_of rq (issue_world ctx w)] ∧
  cooldown_until (SETTINGS (after (executor rq ctx) w))
    = cooldown_until (SETTINGS w).
Proof.
  intros Hcool Hup.
  assert (E : executor rq ctx w
              = (Ok (error_obj (JStr msg), 500),
                 exchanged rq (issue_world ctx w))).
  { apply executor_first_attempt; [done|]. rewrite attempt_once_spec.
    cbn zeta. by rewrite issue_world_upstream, Hup. }
  unfold new_events, after. rewrite E. cbn [snd].
  destruct (issue_world_frame ctx w) as (Ht & _ & Hc & _).
  split; [done|]. split.
  - cbn. by rewrite Ht, drop_app_length.
  - done.
Qed.

(** X2.  An upstream error other than 429 is passed through: the executor
    answers the decoded body of the response with the upstream status, or
    [{"error": text}] when the body does not decode, after a single
    exchange; the usage headers of the response are still recorded. *)
Theorem executor_upstream_error rq ctx w l r :
  cooldown_until (SETTINGS w) ≤ seconds (clock w) →
  upstream w (length (trace w)) = Replies l r →
  400 ≤ status_code r → status_code r ≠ 429 →
  executor rq ctx w
    = (Ok (default (error_obj (JStr (resp_text r))) (resp_json r),
           status_code r),
       usage_applied r (exchanged rq (issue_world ctx w))) ∧
  new_events (executor rq ctx) w = [event_of rq (issue_world ctx w)].
Proof.
  intros Hcool Hup H400 H429.
  assert (E : executor rq ctx w
              = (Ok (default (error_obj (JStr (resp_text r))) (resp_json r),
                     status_code r),
                 usage_applied r (exchanged rq (issue_world ctx w)))).
  { apply executor_first_attempt; [done|]. rewrite attempt_once_spec.
    cbn zeta. rewrite issue_world_upstream, Hup.
    destruct (Z.eqb_spec (status_code r) 429); [done|].
    by assert ((400 <=? status_code r) = true) as -> by lia. }
  unfold new_events, after. rewrite E. cbn [snd].
  destruct (issue_world_frame ctx w) as (Ht & _).
  split; [done|]. cbn. by rewrite Ht, drop_app_length.
Qed.

(** X3.  Every response with a status below 400 counts as a success and is
    reported with status 200, whatever the upstream status was (201, 204,
    302, ...); if its body does not decode, the executor answers an error
    object with status 500 instead of raising. *)
Theorem executor_success_is_200 rq ctx w l r :
  cooldown_until (SETTINGS w) ≤ seconds (clock w) →
  upstream w (length (trace w)) = Replies l r →
  status_code r < 400 →
  (∀ j, resp_json r = Some j → (executor rq ctx w).1 = Ok (j, 200)) ∧
  (resp_json r = None →
   ∃ detail, (executor rq ctx w).1 = Ok (error_obj (JStr detail), 500)) ∧
  after (executor rq ctx) w
    = usage_applied r (exchanged rq (issue_world ctx w)).
Proof.
  intros Hcool Hup H400.
  assert (E : attempt_once rq ctx 0 w
              = (match resp_json r with
                 | Some j => Ok (Return (j, 200))
                 | None =>
                     Ok (Return (error_obj (JStr "Expecting value"), 500))
                 end,
                 usage_applied r (exchanged rq (issue_world ctx w)))).
  { rewrite attempt_once_spec. cbn zeta. rewrite issue_world_upstream, Hup.
    destruct (Z.eqb_spec (status_code r) 429); [lia|].
    assert ((400 <=? status_code r) = false) as -> by lia.
    by destruct (resp_json r). }
  destruct (resp_json r) as [j|] eqn:Hj.
  - rewrite (executor_first_attempt _ _ _ _ _ Hcool E). unfold after.
    rewrite (executor_first_attempt _ _ _ _ _ Hcool E).
    split; [by intros j' [= <-]|]. split; [done|done].
  - rewrite (executor_first_attempt _ _ _ _ _ Hcool E). unfold after.
    rewrite (executor_first_attempt _ _ _ _ _ Hcool E).
    split; [done|]. split; [eauto|done].
Qed.

(** X4.  Telemetry stops the next call before the upstream does: when the
    response to a call (not a 429) reports a usage of 90 percent or more in
    either usage header, the call itself completes, and an executor entered
    right after it answers [RATE_LIMIT] with [retry_after = 300] and status
    429 without sending anything. *)
Theorem high_usage_blocks_next_call rq ctx rq' ctx' w l r top :
  cooldown_until (SETTINGS w) ≤ seconds (clock w) →
  upstream w (length (trace w)) = Replies l r →
  status_code r ≠ 429 →
  higher_top (header_top r "x-app-usage") (header_top r "x-page-usage")
    = Some top →
  90 ≤ top →
  let w1 := after (executor rq ctx) w in
  w1 = usage_applied r (exchanged rq (issue_world ctx w)) ∧
  executor rq' ctx' w1 = (Ok (rate_limit 300, 429), w1).
Proof.
  intros Hcool Hup H429 Htop H90. cbn zeta.
  assert (E : after (executor rq ctx) w
              = usage_applied r (exchanged rq (issue_world ctx w))).
  { destruct (Z_lt_le_dec (status_code r) 400) as [Hlt|Hge].
    - by apply (executor_success_is_200 rq ctx w l r).
    - unfold after.
      by destruct (executor_upstream_error rq ctx w l r) as [-> _]. }
  split; [done|]. rewrite E, executor_spec.
  set (wx := exchanged rq (issue_world ctx w)).
  assert (Hc : cooldown_until (SETTINGS (usage_applied r wx))
               = seconds (clock (usage_applied r wx)) + 300).
  { cbn [usage_applied SETTINGS set_SETTINGS cooldown_until
         set_cooldown_until clock].
    rewrite bump_higher, Htop. cbn [bump].
    assert ((90 <=? top) = true) as -> by lia.
    destruct (issue_world_frame ctx w) as (_ & _ & Hcw & _).
    pose proof (seconds_mono _ _ (exchange_time rq ctx w)) as Hsec.
    change (cooldown_until (SETTINGS wx))
      with (cooldown_until (SETTINGS (issue_world ctx w))).
    rewrite Hcw. subst wx. lia. }
  rewrite Hc.
  assert ((seconds (clock (usage_applied r wx))
           <? seconds (clock (usage_applied r wx)) + 300) = true) as ->
    by lia.
  by rewrite Z.add_simpl_l.
Qed.

(** X5.  A 429 with a long hint puts the process in cooldown: when the
    first exchange of a call is answered 429 with a hint above 5 seconds, an
    executor entered right after that call answers [RATE_LIMIT] without
    sending anything, with [retry_after] at least [max(hint, 120)]. *)
Theorem long_429_blocks_next_call rq ctx rq' ctx' w l r :
  cooldown_until (SETTINGS w) ≤ seconds (clock w) →
  upstream w (length (trace w)) = Replies l r →
  status_code r = 429 → 5 < hint_of r →
  let w1 := after (executor rq ctx) w in
  ∃ rem, Z.max (hint_of r) 120 ≤ rem ∧
         executor rq' ctx' w1 = (Ok (rate_limit rem, 429), w1).
Proof.
  intros Hcool Hup H429 Hh. cbn zeta.
  assert (E : executor rq ctx w
              = (Ok (rate_limit (hint_of r), 429),
                 set_SETTINGS
                   (set_cooldown_until
                      (Z.max
                         (cooldown_until
                            (SETTINGS (usage_applied r
                               (exchanged rq (issue_world ctx w)))))
                         (seconds
                            (clock (usage_applied r
                               (exchanged rq (issue_world ctx w))))
                          + Z.max (hint_of r) 120))
                      (SETTINGS (usage_applied r
                         (exchanged rq (issue_world ctx w)))))
                   (usage_applied r (exchanged rq (issue_world ctx w))))).
  { apply executor_first_attempt; [done|]. rewrite attempt_once_spec.
    cbn zeta. rewrite issue_world_upstream, Hup, H429. cbn [Z.eqb Pos.eqb].
    rewrite handle_429_spec. cbn zeta. cbn [Z.eqb andb].
    by assert ((hint_of r <=? 5) = false) as -> by lia. }
  unfold after. rewrite E. cbn [snd]. rewrite executor_spec.
  set (wu := usage_applied r (exchanged rq (issue_world ctx w))) in *.
  set (w1 := set_SETTINGS _ wu).
  assert (Hc : seconds (clock w1) + Z.max (hint_of r) 120
               ≤ cooldown_until (SETTINGS w1)) by (cbn; lia).
  assert ((seconds (clock w1) <? cooldown_until (SETTINGS w1)) = true) as ->
    by lia.
  eexists. split; [|done]. lia.
Qed.

Lemma global_stamp_delays key w t :
  last_call_ts (SETTINGS w) !! "global" = Some t →
  t + global_min_interval (SETTINGS w) ≤ clock (throttled key w).
Proof.
  intros Ht. cbn [throttled clock set_SETTINGS set_clock].
  unfold throttle_wait. rewrite Ht. cbn. lia.
Qed.

(** X7.  A call with a context key always pays the global interval: the
    executor first takes the global slot, which stamps the global context,
    and then waits for the context slot at least the global interval after
    that stamp.  So its first exchange is sent no earlier than
    [global_min_interval] after entry, even on an idle process. *)
Theorem context_call_waits_global_interval rq key w e :
  key ≠ "" →
  cooldown_until (SETTINGS w) ≤ seconds (clock w) →
  new_events (executor rq (Some key)) w !! 0%nat = Some e →
  clock w + global_min_interval (SETTINGS w) ≤ ev_time e.
Proof.
  intros Hkey Hcool He. unfold new_events, after in He.
  rewrite executor_spec in He.
  assert ((seconds (clock w) <? cooldown_until (SETTINGS w)) = false) as Hf
    by lia.
  rewrite Hf in He.
  destruct (executor_loop_two 6 rq (Some key) w) as (_ & _ & evs & Ht & _).
  unfold after in Ht. change (S (S 6)) with loop_fuel in Ht.
  rewrite Ht, drop_app_length in He. cbn in He. injection He as <-.
  cbn [ev_time event_of]. unfold issue_world.
  destruct (String.eqb_spec key ""); [done|].
  pose proof (throttled_clock "global" w) as Hg.
  pose proof (global_stamp_delays key (throttled "global" w)
                (clock (throttled "global" w))) as Hk.
  change (global_min_interval (SETTINGS (throttled "global" w)))
    with (global_min_interval (SETTINGS w)) in Hk.
  assert (last_call_ts (SETTINGS (throttled "global" w)) !! "global"
          = Some (clock (throttled "global" w))) as Hstamp
    by apply lookup_insert_eq.
  specialize (Hk Hstamp). lia.
Qed.

End executor_outcomes.

(** ** What the gateway leaves alone *)

Section footprint.
Context `{PyLib}.

Lemma settles_refl w : settles w w.
Proof. unfold settles. repeat split; try done; lia. Qed.

Lemma settles_trans w1 w2 w3 : settles w1 w2 → settles w2 w3 → settles w1 w3.
Proof.
  unfold settles.
  intros (E1 & G1 & U1 & P1 & I1 & J1 & C1 & D1 & T1)
         (E2 & G2 & U2 & P2 & I2 & J2 & C2 & D2 & T2).
  repeat split; try congruence; try lia. by etrans.
Qed.

Lemma settling_ret {A} (a : A) : settling (mret a).
Proof. intros w. apply settles_refl. Qed.

Lemma settling_lift {A} (r : res A) : settling (lift r).
Proof. intros w. apply settles_refl. Qed.

Lemma settling_raise {A} e : settling (@raise A e).
Proof. intros w. apply settles_refl. Qed.

Lemma settling_bind {A B} (m : M A) (f : A → M B) :
  settling m → (∀ a, settling (f a)) → settling (m ≫= f).
Proof.
  intros Hm Hf w. specialize (Hm w). unfold after in *. rewrite bind_unfold.
  destruct (m w) as [[a|e|] w1]; cbn [snd] in *; try done.
  eapply settles_trans; [exact Hm|apply Hf].
Qed.

Lemma settling_try_except {A} (m : M A) (h : exn → M A) :
  settling m → (∀ e, settling (h e)) → settling (try_except m h).
Proof.
  intros Hm Hh w. specialize (Hm w). unfold after, try_except in *.
  destruct (m w) as [[a|e|] w1]; cbn [snd] in *; try done.
  eapply settles_trans; [exact Hm|apply Hh].
Qed.

Lemma settles_throttled key w : settles w (throttled key w).
Proof.
  pose proof (throttled_clock key w). unfold settles.
  repeat split; first [done|cbn; lia].
Qed.

Lemma settles_issue_world ctx w : settles w (issue_world ctx w).
Proof.
  unfold issue_world. destruct ctx as [k|]; [destruct (String.eqb k "")|];
    try apply settles_throttled.
  eapply settles_trans; apply settles_throttled.
Qed.

Lemma settles_exchanged rq w : settles w (exchanged rq w).
Proof.
  pose proof (exchanged_clock rq w). unfold settles.
  repeat split; first [done|cbn; lia|by apply prefix_app_r].
Qed.

Lemma settles_usage_applied r w : settles w (usage_applied r w).
Proof.
  unfold settles. repeat split; try done; try (cbn; lia).
  cbn [usage_applied SETTINGS set_SETTINGS cooldown_until set_cooldown_until].
  etrans; [apply bump_le|apply bump_le].
Qed.

Lemma settling_handle_429 r a : settling (_handle_429_and_maybe_retry r a).
Proof.
  intros w. unfold after. rewrite handle_429_spec. cbn zeta.
  destruct ((a =? 0) && (hint_of r <=? 5)) eqn:E.
  - destruct (hint_of r <? 0) eqn:E0; cbn [snd]; unfold settles;
      repeat split; try done; cbn; try lia.
    destruct (hint_of r =? 0); lia.
  - cbn [snd]. unfold settles. repeat split; try done; cbn; lia.
Qed.

Lemma settling_attempt_once rq ctx a : settling (attempt_once rq ctx a).
Proof.
  intros w. unfold after. rewrite attempt_once_spec. cbn zeta.
  pose proof (settles_issue_world ctx w) as Hi.
  set (wi := issue_world ctx w) in *.
  pose proof (settles_exchanged rq wi) as Hx.
  destruct (upstream wi (length (trace wi))) as [l r|l msg]; cbn [snd].
  2:{ by eapply settles_trans. }
  pose proof (settles_usage_applied r (exchanged rq wi)) as Hu.
  assert (settles w (usage_applied r (exchanged rq wi))) as Hwu
    by (eapply settles_trans; [|exact Hu]; by eapply settles_trans).
  destruct (status_code r =? 429).
  - pose proof (settling_handle_429 r a (usage_applied r (exchanged rq wi)))
      as H4. unfold after in H4.
    destruct (_handle_429_and_maybe_retry r a _) as [out w']. cbn [snd] in *.
    by eapply settles_trans.
  - destruct (400 <=? status_code r); [done|]. by destruct (resp_json r).
Qed.

Lemma settling_executor rq ctx : settling (executor rq ctx).
Proof.
  unfold executor. apply settling_bind.
  - intros w. unfold after. rewrite respect_cooldown_spec. apply settles_refl.
  - intros rem. destruct (0 <? rem); [apply settling_ret|].
    generalize 0. induction loop_fuel as [|fuel IH]; intros a.
    + intros w. apply settles_refl.
    + cbn [executor_loop]. apply settling_bind.
      * apply settling_attempt_once.
      * intros [x|]; [apply settling_ret|apply IH].
Qed.

(** X6.  What an executor never does: it does not write the token file,
    change the environment, the throttle intervals or the log of recent
    posts; across a call the clock and the cooldown deadline never go back
    and the log of outgoing calls is only extended. *)
Theorem executor_footprint rq ctx w :
  let w' := after (executor rq ctx) w in
  tokens_file w' = tokens_file w ∧
  environ w' = environ w ∧
  _recent_posts (SETTINGS w') = _recent_posts (SETTINGS w) ∧
  global_min_interval (SETTINGS w') = global_min_interval (SETTINGS w) ∧
  per_page_min_interval (SETTINGS w') = per_page_min_interval (SETTINGS w) ∧
  clock w ≤ clock w' ∧
  cooldown_until (SETTINGS w) ≤ cooldown_until (SETTINGS w') ∧
  trace w `prefix_of` trace w'.
Proof.
  cbn zeta.
  destruct (settling_executor rq ctx w)
    as (E & G & U & P & I & J & C & D & T).
  destruct (keeps_files_executor rq ctx w) as (F & _).
  repeat split; done.
Qed.

End footprint.

(** ** Further properties of the rate governor *)

Section governor_bounds.

(** X8.  The governor never delays a call longer than an interval: once the
    clock is past the epoch and no stamp lies in the future, a slot is
    granted after at most the larger of the interval of the context and the
    global interval, and at once when both intervals have already elapsed;
    and afterwards still no stamp lies in the future. *)
Theorem throttle_wait_bounded key w :
  0 ≤ clock w → stamps_past w →
  0 ≤ global_min_interval (SETTINGS w) →
  0 ≤ per_page_min_interval (SETTINGS w) →
  let s := SETTINGS w in
  let gap := if startswith key "page:" then per_page_min_interval s
             else global_min_interval s in
  let w' := after (_wait_throttle key) w in
  clock w' - clock w ≤ Z.max gap (global_min_interval s) ∧
  (default 0 (last_call_ts s !! key) + gap ≤ clock w →
   default 0 (last_call_ts s !! "global") + global_min_interval s ≤ clock w →
   clock w' = clock w) ∧
  stamps_past w'.
Proof.
  intros Hclk Hpast Hg Hp. cbn zeta. unfold after.
  rewrite wait_throttle_spec. cbn [snd].
  assert (Hk : default 0 (last_call_ts (SETTINGS w) !! key) ≤ clock w).
  { destruct (last_call_ts (SETTINGS w) !! key) as [t|] eqn:E; cbn; [|done].
    by apply (Hpast key). }
  assert (Hgl : default 0 (last_call_ts (SETTINGS w) !! "global") ≤ clock w).
  { destruct (last_call_ts (SETTINGS w) !! "global") as [t|] eqn:E; cbn;
      [|done]. by apply (Hpast "global"). }
  split; [|split].
  - cbn. unfold throttle_wait, throttle_gap.
    destruct (startswith key "page:"); lia.
  - intros H1 H2. cbn. unfold throttle_wait, throttle_gap. lia.
  - intros k t. cbn [throttled SETTINGS set_SETTINGS last_call_ts
                     set_last_call_ts clock set_clock].
    assert (0 ≤ throttle_wait key w) by (unfold throttle_wait; lia).
    destruct (decide (k = "global")) as [->|Hng].
    { rewrite lookup_insert_eq. intros [= <-]. lia. }
    rewrite lookup_insert_ne by done.
    destruct (decide (k = key)) as [->|Hnk].
    { rewrite lookup_insert_eq. intros [= <-]. lia. }
    rewrite lookup_insert_ne by done. intros Ht.
    pose proof (Hpast k t Ht). lia.
Qed.

End governor_bounds.

(** ** Further properties of the duplicate guard *)

Section guard_more.
Context `{PyLib}.

(** X9.  The log of the guard stays within its window: after a call with a
    window of [within_sec >= 0] seconds, every entry of the log is at most
    [within_sec] seconds old, the log has grown by at most one entry, and it
    has grown exactly when the answer was [False]. *)
Theorem guard_log_within_window kind key content W w :
  0 ≤ W →
  let guard := _recent_content_guard kind key content W in
  let posts := _recent_posts (SETTINGS w) in
  let posts' := _recent_posts (SETTINGS (after guard w)) in
  (∀ x, x ∈ posts' → seconds (clock w) - post_ts x ≤ W) ∧
  ((guard w).1 = Ok true ∧ posts' = pruned (seconds (clock w)) W posts
   ∨ (guard w).1 = Ok false ∧
     posts' = pruned (seconds (clock w)) W posts
              ++ [fingerprint kind key content (seconds (clock w))]) ∧
  (length posts' ≤ S (length posts))%nat.
Proof.
  intros HW. cbn zeta. unfold after. rewrite guard_spec. cbn zeta.
  pose proof (length_filter (λ x, seconds (clock w) - post_ts x ≤ W)
                (_recent_posts (SETTINGS w))) as Hlen.
  fold (pruned (seconds (clock w)) W (_recent_posts (SETTINGS w))) in Hlen.
  destruct (existsb _ _); cbn [fst snd SETTINGS set_SETTINGS _recent_posts
                               set_recent_posts].
  - split; [|split; [by left|lia]].
    intros x Hx. by apply list_elem_of_filter in Hx as [Hx _].
  - split; [|split; [by right|]].
    + intros x [Hx|Hx]%elem_of_app.
      * by apply list_elem_of_filter in Hx as [Hx _].
      * apply list_elem_of_singleton in Hx as ->. cbn. lia.
    + rewrite length_app. cbn. lia.
Qed.

(** X10.  The guard keeps resources apart: content recorded for one
    resource key is not flagged when it is submitted, under the same kind,
    for another key that has no entry of its own. *)
Theorem guard_separates_keys kind key key' content W w d :
  key' ≠ key →
  (∀ x, x ∈ _recent_posts (SETTINGS w) →
        post_matches kind key' (_hash_content content) x = false) →
  let w1 := after (_recent_content_guard kind key content W) w in
  (_recent_content_guard kind key' content W (elapse d w1)).1 = Ok false.
Proof.
  intros Hkey Hfresh. cbn zeta. unfold after.
  rewrite (guard_spec kind key). cbn zeta.
  assert (Hlog : ∀ x,
            x ∈ pruned (seconds (clock w)) W (_recent_posts (SETTINGS w))
                ++ [fingerprint kind key content (seconds (clock w))] →
            post_matches kind key' (_hash_content content) x = false).
  { intros x [Hx|Hx]%elem_of_app.
    - apply list_elem_of_filter in Hx as [_ Hx]. by apply Hfresh.
    - apply list_elem_of_singleton in Hx as ->. unfold post_matches. cbn.
      destruct (String.eqb_spec key key'); [congruence|].
      by rewrite andb_false_r. }
  destruct (existsb _ _); cbn [snd]; rewrite guard_spec; cbn zeta;
    cbn [SETTINGS elapse set_clock set_SETTINGS _recent_posts
         set_recent_posts clock];
    rewrite existsb_none; try done.
  - intros x [_ Hx]%list_elem_of_filter. apply Hlog. apply elem_of_app.
    by left.
  - intros x [_ Hx]%list_elem_of_filter. by apply Hlog.
Qed.

End guard_more.

(** ** Further properties of the credential resolver *)

Section resolver_more.
Context `{PyLib}.

(** X11.  The JSON form of [PAGE_TOKENS] is read without the regular
    expression module: when the stripped text starts with a brace and
    decodes to an object, the result is the map of its entries with a
    non-empty key and a true value, each value converted with [str], and no
    loose token; an unset or blank variable gives the empty map. *)
Theorem env_tokens_json_object w :
  let raw := py_strip (default "" (environ w !! "PAGE_TOKENS")) in
  (raw = "" → _env_get_tokens w = (Ok (∅, []), w)) ∧
  (∀ obj,
     startswith raw "{" = true → json_loads raw = Some (JObj obj) →
     ∃ mp,
       _env_get_tokens w = (Ok (mp, []), w) ∧
       ∀ k, mp !! k =
            match obj !! k with
            | Some v => if nonempty k && truthy v then Some (py_str v)
                        else None
            | None => None
            end).
Proof.
  cbn zeta. split.
  - intros Hraw. unfold _env_get_tokens. munfold. by rewrite Hraw.
  - intros obj Hstart Hobj. exists (env_mapping_of obj). split.
    + unfold _env_get_tokens, try_except, loads. munfold.
      destruct (String.eqb_spec
                  (py_strip (default "" (environ w !! "PAGE_TOKENS"))) "")
        as [E|_].
      { rewrite E in Hstart. discriminate Hstart. }
      by rewrite Hstart, Hobj.
    + intros k. unfold env_mapping_of. rewrite lookup_fmap.
      rewrite map_lookup_filter. destruct (obj !! k) as [v|]; [|done].
      cbn. unfold nonempty.
      destruct (String.eqb_spec k ""), (truthy v) eqn:Ht; cbn.
      * rewrite option_guard_False; [done|]. cbn. tauto.
      * rewrite option_guard_False; [done|]. cbn. tauto.
      * by rewrite option_guard_True.
      * rewrite option_guard_False; [done|]. cbn. intros [_ ?]. done.
Qed.

(** X12.  As the module is loaded, loose tokens never come out of the
    configuration: whenever [_env_get_tokens] returns, its list of loose
    tokens is empty, and it has changed nothing. *)
Theorem loaded_module_yields_no_loose_token w mp loose w' :
  "re" ∉ globals w →
  _env_get_tokens w = (Ok (mp, loose), w') →
  loose = [] ∧ w' = w.
Proof.
  intros Hre. unfold _env_get_tokens, try_except, lookup_global, loads.
  munfold.
  destruct (String.eqb _ ""); [by intros [= <- <- <-]|].
  destruct (startswith _ "{").
  - destruct (json_loads _); cbn; [by intros [= <- <- <-]|].
    by rewrite bool_decide_false.
  - cbn. by rewrite bool_decide_false.
Qed.

(** X13.  During a cooldown an unknown page resolves to not-found: when the
    page is neither in the environment map nor in the token file and the
    cooldown is running, the resolver answers [None] without sending the
    discovery call and without writing the file. *)
Theorem resolve_during_cooldown page_id user_token w mp loose doc pages :
  _env_get_tokens w = (Ok (mp, loose), w) →
  stored_doc w = Some doc → pages_of doc = Some pages →
  mp !! page_id = None → pages !! page_id = None →
  seconds (clock w) < cooldown_until (SETTINGS w) →
  get_page_access_token page_id user_token w = (Ok JNull, w).
Proof.
  intros Henv Hdoc Hpages Hmp Hp Hcool.
  rewrite (resolve_spec _ _ _ _ _ _ _ Henv Hdoc Hpages), Hmp, Hp.
  unfold discovery, graph_get. rewrite executor_spec.
  by assert ((seconds (clock w) <? cooldown_until (SETTINGS w)) = true)
    as -> by lia.
Qed.

(** X14.  The token file is read only when the environment map misses: a
    page found in the environment map is resolved whatever the state of the
    file, even when the file does not hold JSON; when the map misses and the
    file does not hold JSON, the resolver raises the decoder's [ValueError]
    and sends nothing. *)
Theorem resolve_reads_file_after_env page_id user_token w mp loose :
  _env_get_tokens w = (Ok (mp, loose), w) →
  (∀ tok, mp !! page_id = Some tok →
          get_page_access_token page_id user_token w = (Ok (JStr tok), w)) ∧
  (mp !! page_id = None → tokens_file w = Corrupt →
   ∃ msg, get_page_access_token page_id user_token w
          = (Raise (ValueError msg), w)).
Proof.
  intros Henv. unfold get_page_access_token.
  rewrite (bind_ok _ _ _ _ _ Henv). split.
  - by intros tok ->.
  - intros -> Hfile. eexists. unfold load_tokens. rewrite bind_unfold.
    by rewrite Hfile.
Qed.

End resolver_more.

(** ** Further properties of the reel upload *)

Section reel_more.
Context `{PyLib}.

(** The handler up to the transfer, when the credential is resolved and the
    start call gives an upload identifier. *)
Lemma reel_handler_reaches_transfer page_id rq w w0 w1 page_token m vid
    data_bytes :
  truthy (session_user_access_token rq) = true →
  get_page_access_token page_id (session_user_access_token rq) w
    = (Ok page_token, w0) →
  truthy page_token = true →
  files_video rq = Some data_bytes →
  reels_start page_id page_token w0 = (Ok (JObj m, 200), w1) →
  m !! "video_id" = Some vid →
  api_post_reel page_id rq w =
    (early ← reel_transfer page_token vid data_bytes;
     match early with
     | Some result => mret result
     | None =>
         '(fin_res, st3) ←
           reels_finish page_id page_token vid
             (default "" (form_description rq));
         if negb (st3 =? 200)
         then mret (failure "REELS_FINISH_FAILED" fin_res, st3)
         else
           fin_res' ← reel_permalink page_id page_token vid fin_res;
           mret (fin_res', 200)
     end) w1.
Proof.
  intros Htok Hres Hpt Hfile Hstart Hvid. unfold api_post_reel.
  rewrite Htok. rewrite bind_unfold. unfold mret at 1, M_ret at 1.
  rewrite Htok. cbn [negb]. rewrite bind_unfold, Hres, Hpt. cbn [negb].
  rewrite Hfile. rewrite bind_unfold, Hstart.
  cbn [Z.eqb Pos.eqb negb is_dict has_key orb].
  rewrite bool_decide_true by (rewrite Hvid; eauto). cbn [negb].
  rewrite bind_unfold. unfold lift at 1. cbn [py_get]. by rewrite Hvid.
Qed.

(** X15.  During a cooldown a reel upload stops before it starts: with the
    credential resolved, the start call is refused locally, and the handler
    answers [REELS_START_FAILED] with the [RATE_LIMIT] object as detail and
    status 429; neither the start call nor the transfer is sent. *)
Theorem reel_upload_during_cooldown page_id rq w w0 page_token data_bytes :
  truthy (session_user_access_token rq) = true →
  get_page_access_token page_id (session_user_access_token rq) w
    = (Ok page_token, w0) →
  truthy page_token = true →
  files_video rq = Some data_bytes →
  seconds (clock w0) < cooldown_until (SETTINGS w0) →
  api_post_reel page_id rq w =
    (Ok (failure "REELS_START_FAILED"
           (rate_limit (cooldown_until (SETTINGS w0) - seconds (clock w0))),
         429), w0).
Proof.
  intros Htok Hres Hpt Hfile Hcool. unfold api_post_reel.
  rewrite Htok. rewrite bind_unfold. unfold mret at 1, M_ret at 1.
  rewrite Htok. cbn [negb]. rewrite bind_unfold, Hres, Hpt. cbn [negb].
  rewrite Hfile. rewrite bind_unfold.
  unfold reels_start, graph_post. rewrite executor_spec.
  by assert ((seconds (clock w0) <? cooldown_until (SETTINGS w0)) = true)
    as -> by lia.
Qed.

(** X16.  A cooldown that begins during an upload strands it: the transfer
    does not read the cooldown, so after a successful start it is sent even
    if the process has gone into cooldown meanwhile; the finish call is then
    refused locally, and the handler answers [REELS_FINISH_FAILED] with
    status 429, the transfer being the last call sent. *)
Theorem reel_stranded_by_cooldown page_id rq w w0 w1 page_token m vid
    data_bytes l ru :
  truthy (session_user_access_token rq) = true →
  get_page_access_token page_id (session_user_access_token rq) w
    = (Ok page_token, w0) →
  truthy page_token = true →
  files_video rq = Some data_bytes →
  reels_start page_id page_token w0 = (Ok (JObj m, 200), w1) →
  m !! "video_id" = Some vid →
  let wt := throttled "global" w1 in
  let sent := exchanged (transfer_request page_token vid data_bytes) wt in
  upstream w1 (length (trace w1)) = Replies l ru →
  status_code ru < 400 →
  seconds (clock sent) < cooldown_until (SETTINGS w1) →
  api_post_reel page_id rq w =
    (Ok (failure "REELS_FINISH_FAILED"
           (rate_limit (cooldown_until (SETTINGS w1) - seconds (clock sent))),
         429), sent) ∧
  trace sent =
    trace w1 ++ [event_of (transfer_request page_token vid data_bytes) wt].
Proof.
  intros Htok Hres Hpt Hfile Hstart Hvid. cbn zeta. intros Hup Hst Hcool.
  rewrite (reel_handler_reaches_transfer _ _ _ _ _ _ _ _ _
             Htok Hres Hpt Hfile Hstart Hvid).
  rewrite bind_unfold, reel_transfer_spec. cbn zeta.
  change (upstream (throttled "global" w1)
            (length (trace (throttled "global" w1))))
    with (upstream w1 (length (trace w1))).
  rewrite Hup.
  assert ((400 <=? status_code ru) = false) as -> by lia.
  split; [|done].
  rewrite bind_unfold. unfold reels_finish, graph_post.
  rewrite executor_spec.
  set (sent := exchanged _ _) in *.
  change (cooldown_until (SETTINGS sent))
    with (cooldown_until (SETTINGS w1)).
  by assert ((seconds (clock sent) <? cooldown_until (SETTINGS w1)) = true)
    as -> by lia.
Qed.

(** X17.  A transport failure of the transfer ends the upload: the handler
    answers [REELS_RUPLOAD_EXCEPTION] with the message of the failure and
    status 500, and the transfer is the last call it sends -- no finish
    call follows. *)
Theorem reel_transfer_transport_failure page_id rq w w0 w1 page_token m vid
    data_bytes l msg :
  truthy (session_user_access_token rq) = true →
  get_page_access_token page_id (session_user_access_token rq) w
    = (Ok page_token, w0) →
  truthy page_token = true →
  files_video rq = Some data_bytes →
  reels_start page_id page_token w0 = (Ok (JObj m, 200), w1) →
  m !! "video_id" = Some vid →
  upstream w1 (length (trace w1)) = Breaks l msg →
  let wt := throttled "global" w1 in
  let sent := exchanged (transfer_request page_token vid data_bytes) wt in
  api_post_reel page_id rq w =
    (Ok (failure "REELS_RUPLOAD_EXCEPTION" (JStr msg), 500), sent) ∧
  trace sent =
    trace w1 ++ [event_of (transfer_request page_token vid data_bytes) wt].
Proof.
  intros Htok Hres Hpt Hfile Hstart Hvid Hup. cbn zeta.
  rewrite (reel_handler_reaches_transfer _ _ _ _ _ _ _ _ _
             Htok Hres Hpt Hfile Hstart Hvid).
  rewrite bind_unfold, reel_transfer_spec. cbn zeta.
  change (upstream (throttled "global" w1)
            (length (trace (throttled "global" w1))))
    with (upstream w1 (length (trace w1))).
  by rewrite Hup.
Qed.

End reel_more.

(** ** Posting a message *)

Section posting_proofs.
Context `{PyLib}.

Lemma settling_silent {A} (m : M A) :
  (∀ w, settles w (after m w)) → settling m.
Proof. done. Qed.

Lemma settling_load_tokens : settling load_tokens.
Proof.
  intros w. unfold after, load_tokens.
  destruct (tokens_file w); apply settles_refl.
Qed.

Lemma settling_resolve page_id user_token :
  settling (get_page_access_token page_id user_token).
Proof.
  unfold get_page_access_token. apply settling_bind.
  { intros w. rewrite env_get_tokens_world. apply settles_refl. }
  intros [mp loose]. destruct (mp !! page_id); [apply settling_ret|].
  apply settling_bind; [apply settling_load_tokens|]. intros store.
  apply settling_bind; [apply settling_lift|]. intros p.
  apply settling_bind; [apply settling_lift|].
  intros [|]; [apply settling_lift|].
  apply settling_bind; [apply settling_executor|].
  intros [data st]. destruct ((st =? 200) && is_dict data);
    [|apply settling_ret].
  apply settling_bind; [apply settling_lift|]. intros d.
  apply settling_bind; [apply settling_lift|]. intros items.
  apply settling_bind; [apply settling_lift|]. intros found.
  apply settling_bind; [|intros; apply settling_ret].
  destruct (negb _); [|apply settling_ret].
  apply settling_bind; [apply settling_lift|]. intros store'.
  intros w. unfold settles. repeat split; first [done|cbn; lia].
Qed.

Lemma settling_post_permalink page_id page_token data status :
  settling (post_permalink page_id page_token data status).
Proof.
  unfold post_permalink.
  apply settling_try_except; [|intros; apply settling_ret].
  destruct (_ && _); [|apply settling_ret].
  apply settling_bind; [apply settling_lift|]. intros i.
  destruct (truthy i); [|apply settling_ret].
  apply settling_bind; [apply settling_executor|]. intros [d2 s2].
  destruct (_ && _); [|apply settling_ret].
  apply settling_bind; [apply settling_lift|]. intros link.
  destruct (truthy link); [|apply settling_ret].
  destruct data; first [apply settling_ret|apply settling_raise].
Qed.

(** The handler up to the guard, for a logged-in session and a non-empty
    message. *)
Lemma post_handler_reaches_guard page_id rq w msg :
  truthy (post_session_token rq) = true →
  stripped_field (post_body rq) "message" = Ok msg → msg ≠ "" →
  api_post_to_page page_id rq w =
    (dup ← _recent_content_guard "post" page_id msg 3600;
     if dup : bool then mret (duplicate_message, 429)
     else
       page_token ← get_page_access_token page_id (post_session_token rq);
       if negb (truthy page_token)
       then mret (error_obj (JStr "NO_PAGE_TOKEN"), 403)
       else
         '(data, status) ←
           graph_post (page_id +:+ "/feed") {["message" := JStr msg]}
             page_token (Some (_ctx_key_for_page page_id));
         data' ← post_permalink page_id page_token data status;
         mret (data', status)) w.
Proof.
  intros Htok Hmsg Hne. unfold api_post_to_page, current_token.
  rewrite Htok. rewrite bind_unfold. unfold mret at 1, M_ret at 1.
  rewrite Htok. cbn [negb]. rewrite bind_unfold. unfold lift at 1.
  rewrite Hmsg. by destruct (String.eqb_spec msg "").
Qed.

Lemma post_duplicate_answer page_id rq w msg x :
  truthy (post_session_token rq) = true →
  stripped_field (post_body rq) "message" = Ok msg → msg ≠ "" →
  x ∈ _recent_posts (SETTINGS w) →
  post_matches "post" page_id (_hash_content msg) x = true →
  seconds (clock w) - post_ts x ≤ 3600 →
  api_post_to_page page_id rq w =
    (Ok (duplicate_message, 429),
     set_SETTINGS
       (set_recent_posts
          (pruned (seconds (clock w)) 3600 (_recent_posts (SETTINGS w)))
          (SETTINGS w)) w).
Proof.
  intros Htok Hmsg Hne Hx Hm Hin.
  rewrite (post_handler_reaches_guard _ _ _ _ Htok Hmsg Hne).
  rewrite bind_unfold, guard_spec. cbn zeta.
  rewrite (existsb_some _ _ x); [done| |done].
  apply list_elem_of_filter. by split.
Qed.

(** X18.  A duplicate message is refused before anything else happens: for
    a logged-in session and a non-empty message that is in the log of the
    last hour, the handler answers [DUPLICATE_MESSAGE] with status 429; it
    resolves no credential and sends nothing, the only change being the
    pruning of the log. *)
Theorem duplicate_post_sends_nothing page_id rq w msg x :
  truthy (post_session_token rq) = true →
  stripped_field (post_body rq) "message" = Ok msg → msg ≠ "" →
  x ∈ _recent_posts (SETTINGS w) →
  post_matches "post" page_id (_hash_content msg) x = true →
  seconds (clock w) - post_ts x ≤ 3600 →
  api_post_to_page page_id rq w =
    (Ok (duplicate_message, 429),
     set_SETTINGS
       (set_recent_posts
          (pruned (seconds (clock w)) 3600 (_recent_posts (SETTINGS w)))
          (SETTINGS w)) w).
Proof. apply post_duplicate_answer. Qed.

(** X19.  A message is recorded before it is posted, so an attempt blocks
    its own retry: once a first submission has passed the guard, then
    whatever became of it -- no credential, an upstream error, a raised
    exception -- the same message for the same page within the hour is
    answered [DUPLICATE_MESSAGE] with status 429 and nothing is sent. *)
Theorem failed_post_blocks_retry page_id rq w msg d :
  truthy (post_session_token rq) = true →
  stripped_field (post_body rq) "message" = Ok msg → msg ≠ "" →
  (∀ x, x ∈ _recent_posts (SETTINGS w) →
        post_matches "post" page_id (_hash_content msg) x = false) →
  let w1 := after (api_post_to_page page_id rq) w in
  seconds (clock (elapse d w1)) - seconds (clock w) ≤ 3600 →
  (api_post_to_page page_id rq (elapse d w1)).1 = Ok (duplicate_message, 429) ∧
  trace (after (api_post_to_page page_id rq) (elapse d w1)) = trace w1.
Proof.
  intros Htok Hmsg Hne Hfresh. cbn zeta. intros Hin.
  set (fp := fingerprint "post" page_id msg (seconds (clock w))).
  assert (Hlog : fp ∈ _recent_posts
                        (SETTINGS (after (api_post_to_page page_id rq) w))).
  { unfold after.
    rewrite (post_handler_reaches_guard _ _ _ _ Htok Hmsg Hne).
    rewrite bind_unfold, guard_spec. cbn zeta.
    rewrite existsb_none.
    2:{ intros x [_ Hx]%list_elem_of_filter. by apply Hfresh. }
    cbv beta iota.
    set (wg := set_SETTINGS _ w).
    set (rest := mbind _ _).
    assert (Hrest : settling rest).
    { subst rest. apply settling_bind; [apply settling_resolve|].
      intros page_token. destruct (negb _); [apply settling_ret|].
      apply settling_bind; [apply settling_executor|]. intros [data status].
      apply settling_bind; [apply settling_post_permalink|].
      intros; apply settling_ret. }
    destruct (Hrest wg) as (_ & _ & _ & Hposts & _). unfold after in Hposts.
    rewrite Hposts. subst wg. cbn. apply elem_of_app. right.
    by apply list_elem_of_singleton. }
  set (w1 := after (api_post_to_page page_id rq) w) in *.
  assert (E : api_post_to_page page_id rq (elapse d w1)
              = (Ok (duplicate_message, 429),
                 set_SETTINGS
                   (set_recent_posts
                      (pruned (seconds (clock (elapse d w1))) 3600
                         (_recent_posts (SETTINGS (elapse d w1))))
                      (SETTINGS (elapse d w1))) (elapse d w1))).
  { apply (post_duplicate_answer page_id rq (elapse d w1) msg fp);
      try done.
    by apply fingerprint_matches. }
  unfold after at 1. rewrite E. done.
Qed.

End posting_proofs.

(** ** The PIN gate *)

Section pin_proofs.

Lemma pin_ok_after_login (session : gmap string json) :
  pin_ok (<["pin_ok" := JBool true]> session) = true.
Proof. unfold pin_ok. by rewrite lookup_insert_eq. Qed.

Lemma pin_ok_after_logout (session : gmap string json) :
  pin_ok (delete "pin_ok" session) = false.
Proof. unfold pin_ok. by rewrite lookup_delete_eq. Qed.

(** X20.  Logging in with the right PIN opens the gate and logging out
    closes it: when the stripped [pin] of the body equals a non-empty
    [ACCESS_PIN], the login answers 200 and with the session it leaves every
    path passes the gate; after a logout from that session every [/api/]
    path other than the three PIN endpoints is answered [PIN_REQUIRED] with
    status 401 again. *)
Theorem pin_login_opens_gate access_pin b s session :
  access_pin ≠ "" →
  b !! "pin" = Some (JStr s) → py_strip s = access_pin →
  ∃ answer session',
    api_pin_login access_pin (JObj b) session = Ok (answer, 200, session') ∧
    (∀ path, _require_pin_for_api access_pin path session' = None) ∧
    (∀ path,
       startswith path "/api/" = true → path ∉ pin_endpoints →
       _require_pin_for_api access_pin path (api_pin_logout session').2
       = Some (error_obj (JStr "PIN_REQUIRED"), 401)).
Proof.
  intros Hpin Hb Hs.
  exists (JObj {["ok" := JBool true]}), (<["pin_ok" := JBool true]> session).
  assert (Hs' : s ≠ "") by (intros ->; by rewrite <- Hs in Hpin).
  split; [|split].
  - unfold api_pin_login. cbn [py_get]. rewrite Hb.
    change (default JNull (Some (JStr s))) with (JStr s).
    unfold mbind, res_bind, py_or. cbn [truthy].
    destruct (String.eqb_spec s ""); [done|]. cbn [negb]. rewrite Hs.
    destruct (String.eqb_spec access_pin ""); [done|].
    by rewrite String.eqb_refl.
  - intros path. unfold _require_pin_for_api.
    rewrite pin_ok_after_login. cbn [negb].
    destruct (String.eqb access_pin ""); [done|].
    destruct (negb (startswith path "/api/")); [done|].
    by destruct (bool_decide (path ∈ pin_endpoints)).
  - intros path Hapi Hnot. unfold _require_pin_for_api, api_pin_logout.
    cbn [snd]. rewrite pin_ok_after_logout, Hapi.
    destruct (String.eqb_spec access_pin ""); [done|].
    by rewrite bool_decide_false.
Qed.

(** X21.  A wrong PIN changes nothing: when [ACCESS_PIN] is set and the
    stripped [pin] of the body is different from it (or the body carries no
    pin), the login answers [INVALID_PIN] with status 403 and the session is
    left as it was. *)
Theorem pin_login_rejects_wrong_pin access_pin b session :
  access_pin ≠ "" →
  (b !! "pin" = None ∨
   ∃ s, b !! "pin" = Some (JStr s) ∧ py_strip s ≠ access_pin) →
  api_pin_login access_pin (JObj b) session
  = Ok (error_obj (JStr "INVALID_PIN"), 403, session).
Proof.
  intros Hpin Hb. unfold api_pin_login. cbn [py_get].
  destruct (String.eqb_spec access_pin ""); [done|].
  destruct Hb as [->|(s & -> & Hs)]; unfold mbind, res_bind.
  - done.
  - change (default JNull (Some (JStr s))) with (JStr s).
    unfold py_or. cbn [truthy].
    destruct (String.eqb_spec s "") as [->|]; cbn [negb].
    + done.
    + destruct (String.eqb_spec (py_strip s) access_pin); [done|].
      by rewrite andb_false_r.
Qed.

End pin_proofs.

(** ** Usage report and webhook events *)

Section report_proofs.
Context `{PyLib}.

(** X22.  The usage report and the executors agree: [cooldown_remaining]
    is never negative; when it is positive, an executor entered at that
    moment answers [RATE_LIMIT] with exactly that [retry_after] and sends
    nothing; when it is 0, an executor goes to the network. *)
Theorem usage_report_matches_executors rq ctx w :
  ∃ rem,
    api_usage_cooldown_remaining w = (Ok rem, w) ∧ 0 ≤ rem ∧
    (0 < rem → executor rq ctx w = (Ok (rate_limit rem, 429), w)) ∧
    (rem = 0 → new_events (executor rq ctx) w ≠ []).
Proof.
  exists (Z.max 0 (cooldown_until (SETTINGS w) - seconds (clock w))).
  split; [done|]. split; [lia|]. split.
  - intros Hrem. rewrite executor_spec.
    assert ((seconds (clock w) <? cooldown_until (SETTINGS w)) = true) as ->
      by (apply Z.ltb_lt; lia).
    by rewrite Z.max_r by lia.
  - intros Hrem. unfold new_events, after. rewrite executor_spec.
    assert ((seconds (clock w) <? cooldown_until (SETTINGS w)) = false) as ->
      by (apply Z.ltb_ge; lia).
    destruct (executor_loop_two 6 rq ctx w) as (_ & _ & evs & Ht & _).
    unfold after in Ht. change (S (S 6)) with loop_fuel in Ht.
    by rewrite Ht, drop_app_length.
Qed.

End report_proofs.

Section webhook_proofs.

Lemma last_n_length {A} n (l : list A) : (length (last_n n l) ≤ n)%nat.
Proof. unfold last_n. rewrite length_drop. lia. Qed.

Lemma last_n_all {A} n (l : list A) : (length l ≤ n)%nat → last_n n l = l.
Proof.
  intros Hl. unfold last_n. by replace (length l - n)%nat with 0%nat by lia.
Qed.

Lemma last_n_last {A} n (l : list A) x :
  (0 < n)%nat → last_n (A := A) n (l ++ [x]) !! (length (last_n n (l ++ [x])) - 1)%nat
                = Some x.
Proof.
  intros Hn. unfold last_n. rewrite length_drop, lookup_drop, length_app.
  cbn [length].
  replace (length l + 1 - n + (length l + 1 - (length l + 1 - n) - 1))%nat
    with (length l + 0)%nat by lia.
  by rewrite lookup_app_r, Nat.add_0_r, Nat.sub_diag by lia.
Qed.

Lemma bind_converges {A B} (m : res A) (f : A → res B) :
  m ≠ Diverge → (∀ a, f a ≠ Diverge) → (m ≫= f) ≠ Diverge.
Proof. intros Hm Hf. destruct m; [apply Hf|done|done]. Qed.

Lemma py_get_converges j k d : py_get j k d ≠ Diverge.
Proof. by destruct j. Qed.

Lemma py_iter_converges j : py_iter j ≠ Diverge.
Proof. by destruct j. Qed.

Lemma each_converges {A} (l : list A) body :
  (∀ x, body x ≠ Diverge) → each l body ≠ Diverge.
Proof.
  intros Hb. induction l as [|x l IH]; [done|].
  cbn [each]. apply bind_converges; [apply Hb|done].
Qed.

Lemma webhook_dispatch_converges data : webhook_dispatch data ≠ Diverge.
Proof.
  unfold webhook_dispatch.
  apply bind_converges; [apply py_get_converges|]. intros entries.
  apply bind_converges; [apply py_iter_converges|]. intros ens.
  apply each_converges. intros en.
  apply bind_converges; [apply py_get_converges|]. intros chs.
  apply bind_converges; [apply py_iter_converges|]. intros changes.
  apply each_converges. intros chg. unfold dispatch_change.
  apply bind_converges; [apply py_get_converges|]. intros val.
  apply bind_converges; [apply py_get_converges|]. intros ms.
  apply bind_converges; [apply py_iter_converges|]. intros msgs.
  apply bind_converges.
  { apply each_converges. intros m. unfold dispatch_message.
    apply bind_converges; [apply py_get_converges|]. intros fr.
    apply bind_converges.
    { destruct (truthy fr); [done|].
      apply bind_converges; [apply py_get_converges|]. intros s.
      apply py_get_converges. }
    intros _.
    apply bind_converges; [apply py_get_converges|]. intros t.
    apply bind_converges; [apply py_get_converges|]. intros b.
    apply bind_converges; [|done].
    destruct (truthy b); [done|apply py_get_converges]. }
  intros _.
  apply bind_converges; [apply py_get_converges|]. intros rs.
  apply bind_converges; [apply py_iter_converges|]. intros reads.
  by apply each_converges.
Qed.

(** X23.  The webhook log is bounded and keeps the newest events: a POST
    is always answered "ok" with status 200, whatever the payload and
    whatever the dispatch loop does; afterwards the log holds at most 100
    events, its last one is the event just received, nothing was dropped if
    it held fewer than 100 before, and otherwise only the oldest events
    were; [webhook_events] shows at most 20 events, ending with the
    newest. *)
Theorem webhook_log_bounded now body events :
  let data := default (JObj {["error" := JStr "invalid json"]}) body in
  ∃ events',
    webhook_post now body events = Ok (("ok", 200), events') ∧
    (length events' ≤ 100)%nat ∧
    last events' = Some (now, data) ∧
    ((length events < 100)%nat → events' = events ++ [(now, data)]) ∧
    events' `suffix_of` events ++ [(now, data)] ∧
    (length (webhook_events events') ≤ 20)%nat ∧
    last (webhook_events events') = Some (now, data).
Proof.
  cbn zeta. unfold webhook_post. cbn zeta.
  set (data := default _ body).
  exists (webhook_record now data events). split.
  { pose proof (webhook_dispatch_converges data) as Hc.
    by destruct (webhook_dispatch data). }
  assert (Hsplit : ∀ n (l : list (Z * json)) x, (0 < n)%nat →
            ∃ k, last_n n (l ++ [x]) = k ++ [x] ∧ k `suffix_of` l).
  { intros n l x Hn. unfold last_n. rewrite length_app. cbn [length].
    destruct (decide (length l + 1 - n ≤ length l)%nat) as [Hle|Hgt]; [|lia].
    rewrite drop_app_le by done. eexists. split; [done|].
    apply suffix_drop. }
  destruct (Hsplit 100%nat events (now, data)) as (k & Hk & Hsuf); [lia|].
  unfold webhook_record. split; [apply last_n_length|].
  split; [by rewrite Hk, last_snoc|]. split.
  { intros Hlen. apply last_n_all. rewrite length_app. cbn. lia. }
  split.
  { rewrite Hk. by apply suffix_app. }
  unfold webhook_events. split; [apply last_n_length|].
  rewrite Hk.
  destruct (Hsplit 20%nat k (now, data)) as (k' & -> & _); [lia|].
  by rewrite last_snoc.
Qed.

(** X24.  Events are logged but never broadcast: for a payload whose first
    entry carries, in its first change, a well-formed message (a sender in
    [from], a text object), the dispatch loop ends in
    [NameError: name 'broadcast' is not defined] -- the module never binds
    [broadcast] -- which the handler swallows. *)
Theorem webhook_dispatch_cannot_broadcast d en ens chg chgs val m ms fr t :
  d !! "entry" = Some (JArr (JObj en :: ens)) →
  en !! "changes" = Some (JArr (JObj chg :: chgs)) →
  chg !! "value" = Some (JObj val) →
  val !! "messages" = Some (JArr (JObj m :: ms)) →
  m !! "from" = Some fr → truthy fr = true →
  m !! "text" = Some (JObj t) →
  webhook_dispatch (JObj d) = Raise (NameError "broadcast").
Proof.
  intros Hentry Hchanges Hvalue Hmsgs Hfrom Hfr Htext.
  assert (Hd : truthy (JObj d) = true).
  { cbn. destruct (Nat.eqb_spec (size d) 0) as [E|]; [|done].
    apply map_size_empty_iff in E. subst d. by rewrite lookup_empty in Hentry. }
  assert (Hm : dispatch_message (JObj m) = Raise (NameError "broadcast")).
  { unfold dispatch_message. cbn [py_get]. rewrite Hfrom, Htext.
    cbn -[truthy py_or]. rewrite Hfr. cbn -[truthy py_or].
    unfold py_or. destruct (truthy (JObj t)); cbn -[truthy].
    all: by case_match. }
  assert (Hc : dispatch_change (JObj chg) = Raise (NameError "broadcast")).
  { unfold dispatch_change. cbn [py_get]. rewrite Hvalue.
    cbn -[dispatch_message]. rewrite Hmsgs.
    cbn -[dispatch_message]. by rewrite Hm. }
  unfold webhook_dispatch, py_or. rewrite Hd. cbn [py_get].
  rewrite Hentry. cbn -[dispatch_change]. rewrite Hchanges.
  cbn -[dispatch_change]. by rewrite Hc.
Qed.

End webhook_proofs.

(** ** The further properties at work on sample runs *)

(** X1 at work: with the network down, a call is answered 500 with the
    message of the failure after one exchange. *)
Lemma executor_transport_failure_witness :
  executor (H := sample_lib) me_request None broken_world
    = (Ok (error_obj (JStr "connection reset"), 500),
       exchanged me_request (issue_world None broken_world)) ∧
  new_events (executor (H := sample_lib) me_request None) broken_world
    = [event_of me_request (issue_world None broken_world)] ∧
  cooldown_until
    (SETTINGS (after (executor (H := sample_lib) me_request None) broken_world))
    = cooldown_until (SETTINGS broken_world).
Proof.
  apply (executor_transport_failure (H := sample_lib) me_request None
           broken_world 50%N "connection reset").
  - vm_compute. discriminate.
  - reflexivity.
Defined.

(** X2 at work: a 503 whose body is not JSON is passed through as
    [{"error": "Service Unavailable"}] with status 503. *)
Lemma executor_upstream_error_witness :
  executor (H := sample_lib) me_request None refusing_world
    = (Ok (default (error_obj (JStr (resp_text refusal))) (resp_json refusal),
           status_code refusal),
       usage_applied (H := sample_lib) refusal
         (exchanged me_request (issue_world None refusing_world))) ∧
  new_events (executor (H := sample_lib) me_request None) refusing_world
    = [event_of me_request (issue_world None refusing_world)].
Proof.
  apply (executor_upstream_error (H := sample_lib) me_request None
           refusing_world 50%N refusal).
  - vm_compute. discriminate.
  - reflexivity.
  - vm_compute. discriminate.
  - vm_compute. discriminate.
Defined.

(** X3 at work: an upstream 201 is reported with status 200. *)
Lemma executor_success_is_200_witness :
  (executor (H := sample_lib) me_request None created_world).1
  = Ok (JObj {["id" := JStr "77"]}, 200).
Proof.
  destruct (executor_success_is_200 (H := sample_lib) me_request None
              created_world 50%N created_response) as (Hok & _ & _).
  - vm_compute. discriminate.
  - reflexivity.
  - vm_compute. reflexivity.
  - apply Hok. reflexivity.
Defined.

(** X4 at work: after an answer that reports 95 percent usage, the next
    call is refused locally for 300 seconds. *)
Lemma high_usage_blocks_next_call_witness :
  after (executor (H := sample_lib) me_request None) hot_upload_world
  = usage_applied (H := sample_lib) hot_response
      (exchanged me_request (issue_world None hot_upload_world)) ∧
  executor (H := sample_lib) me_request (Some "page:9")
    (after (executor (H := sample_lib) me_request None) hot_upload_world)
  = (Ok (rate_limit 300, 429),
     after (executor (H := sample_lib) me_request None) hot_upload_world).
Proof.
  apply (high_usage_blocks_next_call (H := sample_lib) me_request None
           me_request (Some "page:9") hot_upload_world 50%N hot_response 95).
  - vm_compute. discriminate.
  - reflexivity.
  - vm_compute. discriminate.
  - vm_compute. reflexivity.
  - vm_compute. discriminate.
Defined.

(** X5 at work: after a 429 with [Retry-After: 60], the next call is
    refused locally for at least 120 seconds. *)
Lemma long_429_blocks_next_call_witness :
  ∃ rem,
    Z.max (hint_of long_429) 120 ≤ rem ∧
    executor (H := sample_lib) me_request None
      (after (executor (H := sample_lib) me_request None) long_429_world)
    = (Ok (rate_limit rem, 429),
       after (executor (H := sample_lib) me_request None) long_429_world).
Proof.
  apply (long_429_blocks_next_call (H := sample_lib) me_request None
           me_request None long_429_world 50%N long_429).
  - vm_compute. discriminate.
  - reflexivity.
  - reflexivity.
  - vm_compute. reflexivity.
Defined.

(** X7 at work: on the fresh process the first exchange of a call for
    page 9 leaves no earlier than one global interval after entry. *)
Lemma context_call_waits_global_interval_witness :
  match new_events (executor (H := sample_lib) me_request (Some "page:9"))
          fresh_world !! 0%nat with
  | Some e =>
      clock fresh_world + global_min_interval (SETTINGS fresh_world)
      ≤ ev_time e
  | None => False
  end.
Proof.
  destruct (new_events _ fresh_world !! 0%nat) as [e|] eqn:E.
  - apply (context_call_waits_global_interval (H := sample_lib) me_request
             "page:9" fresh_world e).
    + discriminate.
    + vm_compute. discriminate.
    + exact E.
  - vm_compute in E. discriminate E.
Defined.

(** X8 at work: on the fresh process a slot for page 9 is granted within
    two seconds. *)
Lemma throttle_wait_bounded_witness :
  clock (after (_wait_throttle "page:9") fresh_world) - clock fresh_world
  ≤ 2000.
Proof.
  destruct (throttle_wait_bounded "page:9" fresh_world) as (Hbound & _).
  - vm_compute. discriminate.
  - intros k t Hk. unfold fresh_world, fresh_settings in Hk. cbn in Hk.
    rewrite lookup_empty in Hk. discriminate Hk.
  - vm_compute. discriminate.
  - vm_compute. discriminate.
  - exact Hbound.
Defined.

(** X9 at work: a second submission of "Hello" leaves the log as it is. *)
Lemma guard_log_within_window_witness :
  (length
     (_recent_posts
        (SETTINGS
           (after (_recent_content_guard (H := sample_lib) "post" "9" "Hello"
                     3600) posted_world)))
   ≤ S (length (_recent_posts (SETTINGS posted_world))))%nat.
Proof.
  destruct (guard_log_within_window (H := sample_lib) "post" "9" "Hello" 3600
              posted_world) as (_ & _ & Hlen).
  - vm_compute. discriminate.
  - exact Hlen.
Defined.

(** X10 at work: "Hello" recorded for page 9 is let through for page 10 a
    minute later. *)
Lemma guard_separates_keys_witness :
  (_recent_content_guard (H := sample_lib) "post" "10" "Hello" 3600
     (elapse 60000
        (after (_recent_content_guard (H := sample_lib) "post" "9" "Hello"
                  3600) fresh_world))).1 = Ok false.
Proof.
  apply (guard_separates_keys (H := sample_lib) "post" "9" "10" "Hello" 3600
           fresh_world 60000%N).
  - discriminate.
  - intros x Hx. vm_compute in Hx. inversion Hx.
Defined.

(** X11 at work: [PAGE_TOKENS={"123": "tokE"}] gives the map with that one
    entry. *)
Lemma env_tokens_json_object_witness :
  ∃ mp,
    _env_get_tokens (H := env_lib) env_map_world
      = (Ok (mp, []), env_map_world) ∧
    mp !! "123" = Some "tokE".
Proof.
  destruct (env_tokens_json_object (H := env_lib) env_map_world)
    as (_ & Hobj).
  destruct (Hobj {["123" := JStr "tokE"]}) as (mp & Hmp & Hk).
  - vm_compute. reflexivity.
  - vm_compute. reflexivity.
  - exists mp. split; [exact Hmp|]. rewrite Hk. reflexivity.
Defined.

(** X12 at work: the configuration above is read with no loose token. *)
Lemma loaded_module_yields_no_loose_token_witness :
  match _env_get_tokens (H := env_lib) env_map_world with
  | (Ok (_, loose), w') => loose = [] ∧ w' = env_map_world
  | _ => False
  end.
Proof.
  destruct (_env_get_tokens (H := env_lib) env_map_world)
    as [[[mp loose]|e|] w'] eqn:E.
  - apply (loaded_module_yields_no_loose_token (H := env_lib) env_map_world
             mp loose w').
    + apply (bool_decide_unpack _). vm_compute. exact I.
    + exact E.
  - vm_compute in E. discriminate E.
  - vm_compute in E. discriminate E.
Defined.

(** X13 at work: page 222 is not stored; during the cooldown it resolves
    to [None] and nothing is sent. *)
Lemma resolve_during_cooldown_witness :
  get_page_access_token (H := sample_lib) "222" (JStr "master")
    cooling_cached_world
  = (Ok JNull, cooling_cached_world).
Proof.
  apply (resolve_during_cooldown (H := sample_lib) "222" (JStr "master")
           cooling_cached_world ∅ []
           {["pages" := JObj {["111" := JStr "tokA"]}]}
           {["111" := JStr "tokA"]}).
  - vm_compute. reflexivity.
  - reflexivity.
  - reflexivity.
  - reflexivity.
  - vm_compute. reflexivity.
  - vm_compute. reflexivity.
Defined.

(** X14 at work: with a damaged token file, page 123 of the environment map
    resolves, and page 999 makes the resolver raise. *)
Lemma resolve_reads_file_after_env_witness :
  get_page_access_token (H := env_lib) "123" (JStr "master") env_map_world
    = (Ok (JStr "tokE"), env_map_world) ∧
  ∃ msg,
    get_page_access_token (H := env_lib) "999" (JStr "master") env_map_world
    = (Raise (ValueError msg), env_map_world).
Proof.
  split.
  - destruct (resolve_reads_file_after_env (H := env_lib) "123" (JStr "master")
                env_map_world {["123" := "tokE"]} []) as (Hhit & _).
    + vm_compute. reflexivity.
    + apply Hhit. reflexivity.
  - destruct (resolve_reads_file_after_env (H := env_lib) "999" (JStr "master")
                env_map_world {["123" := "tokE"]} []) as (_ & Hmiss).
    + vm_compute. reflexivity.
    + apply Hmiss; reflexivity.
Defined.

(** X15 at work: during the cooldown the upload is answered
    [REELS_START_FAILED] with status 429 and sends nothing. *)
Lemma reel_upload_during_cooldown_witness :
  api_post_reel (H := sample_lib) "9" upload_request cooling_upload_world =
    (Ok (failure "REELS_START_FAILED"
           (rate_limit (cooldown_until (SETTINGS cooling_upload_world)
                        - seconds (clock cooling_upload_world))),
         429), cooling_upload_world).
Proof.
  apply (reel_upload_during_cooldown (H := sample_lib) "9" upload_request
           cooling_upload_world cooling_upload_world (JStr "ptok")
           "video-bytes").
  - reflexivity.
  - vm_compute. reflexivity.
  - reflexivity.
  - reflexivity.
  - vm_compute. reflexivity.
Defined.

(** X16 at work: the answer to the start call reports 95 percent usage; the
    transfer is sent all the same and the finish call is refused locally. *)
Lemma reel_stranded_by_cooldown_witness :
  api_post_reel (H := sample_lib) "9" upload_request hot_upload_world =
    (Ok (failure "REELS_FINISH_FAILED"
           (rate_limit (cooldown_until (SETTINGS hot_started_world)
                        - seconds (clock stranded_world))),
         429), stranded_world) ∧
  trace stranded_world =
    trace hot_started_world
    ++ [event_of
          (transfer_request (H := sample_lib) (JStr "ptok") (JStr "v1")
             "video-bytes")
          (throttled "global" hot_started_world)].
Proof.
  apply (reel_stranded_by_cooldown (H := sample_lib) "9" upload_request
           hot_upload_world hot_upload_world hot_started_world (JStr "ptok")
           {["video_id" := JStr "v1"]} (JStr "v1") "video-bytes" 50%N
           ok_response).
  - reflexivity.
  - vm_compute. reflexivity.
  - reflexivity.
  - reflexivity.
  - vm_compute. reflexivity.
  - reflexivity.
  - vm_compute. reflexivity.
  - vm_compute. reflexivity.
  - vm_compute. reflexivity.
Defined.

(** X17 at work: the connection breaks during the transfer; the handler
    answers [REELS_RUPLOAD_EXCEPTION] with status 500. *)
Lemma reel_transfer_transport_failure_witness :
  api_post_reel (H := sample_lib) "9" upload_request broken_transfer_world =
    (Ok (failure "REELS_RUPLOAD_EXCEPTION" (JStr "timed out"), 500),
     broken_sent_world) ∧
  trace broken_sent_world =
    trace broken_started_world
    ++ [event_of
          (transfer_request (H := sample_lib) (JStr "ptok") (JStr "v1")
             "video-bytes")
          (throttled "global" broken_started_world)].
Proof.
  apply (reel_transfer_transport_failure (H := sample_lib) "9" upload_request
           broken_transfer_world broken_transfer_world broken_started_world
           (JStr "ptok") {["video_id" := JStr "v1"]} (JStr "v1")
           "video-bytes" 50%N "timed out").
  - reflexivity.
  - vm_compute. reflexivity.
  - reflexivity.
  - reflexivity.
  - vm_compute. reflexivity.
  - reflexivity.
  - vm_compute. reflexivity.
Defined.

(** X18 at work: " Hello " for page 9, already in the log, is answered
    [DUPLICATE_MESSAGE]. *)
Lemma duplicate_post_sends_nothing_witness :
  api_post_to_page (H := sample_lib) "9" hello_post posted_world =
    (Ok (duplicate_message, 429),
     set_SETTINGS
       (set_recent_posts
          (pruned (seconds (clock posted_world)) 3600
             (_recent_posts (SETTINGS posted_world)))
          (SETTINGS posted_world)) posted_world).
Proof.
  apply (duplicate_post_sends_nothing (H := sample_lib) "9" hello_post
           posted_world "Hello"
           (fingerprint (H := sample_lib) "post" "9" "Hello" 1700000000)).
  - reflexivity.
  - vm_compute. reflexivity.
  - discriminate.
  - apply list_elem_of_here.
  - vm_compute. reflexivity.
  - vm_compute. discriminate.
Defined.

(** X19 at work: on the fresh process the first submission ends without a
    credential; a minute later the same message is answered
    [DUPLICATE_MESSAGE]. *)
Lemma failed_post_blocks_retry_witness :
  (api_post_to_page (H := sample_lib) "9" hello_post fresh_world).1
    = Ok (error_obj (JStr "NO_PAGE_TOKEN"), 403) ∧
  (api_post_to_page (H := sample_lib) "9" hello_post
     (elapse 60000
        (after (api_post_to_page (H := sample_lib) "9" hello_post)
           fresh_world))).1
    = Ok (duplicate_message, 429).
Proof.
  split; [vm_compute; reflexivity|].
  destruct (failed_post_blocks_retry (H := sample_lib) "9" hello_post
              fresh_world "Hello" 60000%N) as (Hdup & _).
  - reflexivity.
  - vm_compute. reflexivity.
  - discriminate.
  - intros x Hx. vm_compute in Hx. inversion Hx.
  - vm_compute. discriminate.
  - exact Hdup.
Defined.

(** X20 at work: the PIN "1234", sent with blanks around it, opens the
    gate. *)
Lemma pin_login_opens_gate_witness :
  ∃ answer session',
    api_pin_login "1234" (JObj {["pin" := JStr " 1234 "]}) ∅
      = Ok (answer, 200, session') ∧
    _require_pin_for_api "1234" "/api/usage" session' = None ∧
    _require_pin_for_api "1234" "/api/usage" (api_pin_logout session').2
      = Some (error_obj (JStr "PIN_REQUIRED"), 401).
Proof.
  destruct (pin_login_opens_gate "1234" {["pin" := JStr " 1234 "]} " 1234 " ∅)
    as (answer & session' & Hlogin & Hopen & Hclosed).
  - discriminate.
  - reflexivity.
  - vm_compute. reflexivity.
  - exists answer, session'. split; [exact Hlogin|].
    split; [apply Hopen|]. apply Hclosed.
    + vm_compute. reflexivity.
    + apply (bool_decide_unpack _). vm_compute. exact I.
Defined.

(** X21 at work: "0000" is refused and the session stays empty. *)
Lemma pin_login_rejects_wrong_pin_witness :
  api_pin_login "1234" (JObj {["pin" := JStr "0000"]}) ∅
  = Ok (error_obj (JStr "INVALID_PIN"), 403, ∅).
Proof.
  apply (pin_login_rejects_wrong_pin "1234" {["pin" := JStr "0000"]} ∅).
  - discriminate.
  - right. exists "0000". split; [reflexivity|]. vm_compute. discriminate.
Defined.

(** X24 at work: a payload with one message ends the dispatch loop in the
    [NameError]. *)
Lemma webhook_dispatch_cannot_broadcast_witness :
  webhook_dispatch (JObj hook_payload) = Raise (NameError "broadcast").
Proof.
  apply (webhook_dispatch_cannot_broadcast hook_payload hook_entry []
           hook_change [] hook_value hook_message [] (JStr "555")
           {["body" := JStr "hi"]}); reflexivity.
Defined.

(** Whitespace outside ASCII is stripped as Python strips it: a message
    that is one no-break space is empty, and a PIN followed by a no-break
    space is the PIN. *)
Lemma blank_message_is_empty :
  (api_post_to_page (H := sample_lib) "9"
     {| post_session_token := JStr "user-token";
        post_body := JObj {["message" := JStr nbsp]} |} fresh_world).1
  = Ok (error_obj (JStr "EMPTY_MESSAGE"), 400).
Proof. vm_compute. reflexivity. Qed.

Lemma padded_pin_is_accepted :
  api_pin_login "1234" (JObj {["pin" := JStr ("1234" +:+ nbsp)]}) ∅
  = Ok (JObj {["ok" := JBool true]}, 200, {["pin_ok" := JBool true]}).
Proof. vm_compute. reflexivity. Qed.

Lemma padded_content_is_flagged :
  (_recent_content_guard (H := sample_lib) "post" "9" ("Hello" +:+ nbsp) 3600
     posted_world).1 = Ok true.
Proof. vm_compute. reflexivity. Qed.
